(** * AIStoryWriter: the story workflow service

    A shallow embedding of [backend/app/services/story_workflow_service.py],
    [backend/app/services/ollama_service.py], the models of
    [backend/app/models/story_models.py] and the workflow and streaming
    endpoints of [backend/app/api/routes.py] with their error mapping,
    followed by the properties of the workflow engine that the
    specification states and by further properties of the stages, the
    endpoints, the batch and the streamed generation.

    Conventions.
    - A Python [str] is a [string] with one character for each code
      point: the texts of the model are the ones whose code points are
      all below 256, and a character stands for its code point, not for a
      byte of an encoding. An [int] that may be negative is a [Z], a
      length or a counter that only grows is a [nat].
    - A Python [float] is a [pyfloat]: the decimal number it was written as
      (a rational, rounding to binary64 is not modelled), an infinity or NaN.
    - The service object holds [self.workflows], a dict from workflow id to
      the workflow object; every stage mutates the stored object in place.
      The store is a [gmap string StoryWorkflow] threaded through a state
      and exception monad, so that a mutation made before a [raise] stays
      visible afterwards, as it does in Python.
    - The stages are [async] functions awaited one after the other; they
      are modelled as sequential computations, one call at a time.
    - [logger] calls have no effect on the state and are left out. *)

From Stdlib Require Import ZArith QArith Ascii String List Bool Lia.
From stdpp Require Import base option gmap strings list fin_maps pretty.

#[local] Set Warnings "-register-all".
Local Close Scope Q_scope.
Local Open Scope string_scope.
Local Open Scope list_scope.
Local Open Scope Z_scope.

(** ** Python strings *)

Module PyStr.

Definition newline : ascii := "010"%char.
Definition NL : string := String newline EmptyString.

(** [str.isspace] on the code points below 256: tab, line feed, vertical
    tab, form feed, carriage return, the four separators 28..31, space,
    next line (U+0085) and no-break space (U+00A0). It is the white space
    that [strip] and [split] without argument remove. *)
Definition isspace (c : ascii) : bool :=
  let n := nat_of_ascii c in
  ((9 <=? n)%nat && (n <=? 13)%nat) || ((28 <=? n)%nat && (n <=? 32)%nat)
  || (n =? 133)%nat || (n =? 160)%nat.

Fixpoint startswith (s prefix : string) : bool :=
  match prefix, s with
  | EmptyString, _ => true
  | String p prefix', String c s' => Ascii.eqb p c && startswith s' prefix'
  | String _ _, EmptyString => false
  end.

Fixpoint drop (n : nat) (s : string) : string :=
  match n, s with
  | O, _ => s
  | S n', String _ s' => drop n' s'
  | S _, EmptyString => EmptyString
  end.

Fixpoint take (n : nat) (s : string) : string :=
  match n, s with
  | S n', String c s' => String c (take n' s')
  | _, _ => EmptyString
  end.

(** [s[start:stop]] for [0 <= start] and [0 <= stop] (indices past the
    end are clamped, [stop <= start] gives the empty string). *)
Definition slice (s : string) (start stop : Z) : string :=
  take (Z.to_nat (stop - start)) (drop (Z.to_nat start) s).

(** [s.find(sub)]: the lowest index where [sub] occurs, or -1. *)
Fixpoint find_from (s sub : string) (i : Z) : Z :=
  if startswith s sub then i
  else match s with
       | EmptyString => -1
       | String _ s' => find_from s' sub (i + 1)
       end.

Definition find (s sub : string) : Z := find_from s sub 0.

(** [s.rfind(sub)]: the highest index where [sub] occurs, or -1. *)
Fixpoint rfind_from (s sub : string) (i : Z) : Z :=
  match s with
  | EmptyString => if startswith s sub then i else -1
  | String _ s' =>
      let later := rfind_from s' sub (i + 1) in
      if later =? -1 then (if startswith s sub then i else -1) else later
  end.

Definition rfind (s sub : string) : Z := rfind_from s sub 0.

Fixpoint lstrip (s : string) : string :=
  match s with
  | String c s' => if isspace c then lstrip s' else s
  | EmptyString => EmptyString
  end.

Fixpoint rstrip (s : string) : string :=
  match s with
  | EmptyString => EmptyString
  | String c s' =>
      match rstrip s' with
      | EmptyString => if isspace c then EmptyString else String c EmptyString
      | r => String c r
      end
  end.

(** [s.strip()] *)
Definition strip (s : string) : string := rstrip (lstrip s).

(** [s.split(sep)] for a one-character separator: always at least one
    piece, empty pieces are kept. *)
Fixpoint split_char (sep : ascii) (s : string) : list string :=
  match s with
  | EmptyString => [EmptyString]
  | String c s' =>
      if Ascii.eqb c sep then EmptyString :: split_char sep s'
      else match split_char sep s' with
           | piece :: rest => String c piece :: rest
           | [] => [String c EmptyString]
           end
  end.

(** [s.split()]: the maximal runs of characters that are not white space. *)
Fixpoint split_ws_aux (s : string) (inword : bool) : nat :=
  match s with
  | EmptyString => O
  | String c s' =>
      if isspace c then split_ws_aux s' false
      else if inword then split_ws_aux s' true
      else S (split_ws_aux s' true)
  end.

(** [len(s.split())] *)
Definition word_count (s : string) : nat := split_ws_aux s false.

(** [s.replace(old, new)]: every occurrence, left to right, without
    overlap. [fuel] bounds the scan by the length of [s]; [old] is not
    empty at the call sites. *)
Fixpoint replace_aux (fuel : nat) (s old new : string) : string :=
  match fuel with
  | O => s
  | S fuel' =>
      if startswith s old then
        new +:+ replace_aux fuel' (drop (String.length old) s) old new
      else match s with
           | EmptyString => EmptyString
           | String c s' => String c (replace_aux fuel' s' old new)
           end
  end.

Definition replace (s old new : string) : string :=
  match old with
  | EmptyString => s
  | _ => replace_aux (S (String.length s)) s old new
  end.

(** [sep.join(pieces)] *)
Fixpoint join (sep : string) (pieces : list string) : string :=
  match pieces with
  | [] => EmptyString
  | [p] => p
  | p :: rest => p +:+ sep +:+ join sep rest
  end.

(** [lines.index(x)]: the position of the first element equal to [x]. *)
Fixpoint index (x : string) (l : list string) : option nat :=
  match l with
  | [] => None
  | y :: l' => if String.eqb y x then Some O else S <$> index x l'
  end.

End PyStr.

(** ** Python floats *)

Inductive pyfloat :=
| Fin (q : Q)
| Inf (negative : bool)
| NaN.

Module PyFloat.

(** The float written [mantissa] with its last [digits_after_point]
    digits after the point: [of_decimal 7 1] is [0.7]. *)
Definition of_decimal (mantissa : Z) (digits_after_point : nat) : pyfloat :=
  Fin (Qred (Qmake mantissa (Pos.of_nat (10 ^ digits_after_point)))).

(** [a >= b]; every comparison with NaN is false. *)
Definition ge (a b : pyfloat) : bool :=
  match a, b with
  | NaN, _ | _, NaN => false
  | Fin x, Fin y => Qle_bool y x
  | Inf false, _ => true
  | _, Inf true => true
  | Inf true, _ => false
  | _, Inf false => false
  end.

(** [a < b] *)
Definition lt (a b : pyfloat) : bool :=
  match a, b with
  | NaN, _ | _, NaN => false
  | Fin x, Fin y => negb (Qle_bool y x)
  | Inf true, Inf true => false
  | Inf true, _ => true
  | Inf false, _ => false
  | Fin _, Inf negative => negb negative
  end.

(** [bool(x)]: only zero is false. *)
Definition truthy (x : pyfloat) : bool :=
  match x with
  | Fin q => negb (Qeq_bool q 0)
  | _ => true
  end.

(** [0.0 <= x <= 1.0] *)
Definition in_unit_interval (x : pyfloat) : bool :=
  ge x (Fin 0) && ge (Fin 1) x.

End PyFloat.

(** ** Decoded JSON

    What [json.loads] returns: [None], [bool], [int], [float], [str],
    [list], or a [dict] whose keys are strings (in insertion order, each
    key once). *)

Inductive json :=
| JNull
| JBool (b : bool)
| JInt (n : Z)
| JFloat (x : pyfloat)
| JStr (s : string)
| JList (items : list json)
| JDict (entries : list (string * json)).

Module PyDict.

(** [d.get(key)] on the entries of a dict *)
Fixpoint lookup (key : string) (entries : list (string * json)) : option json :=
  match entries with
  | [] => None
  | (k, v) :: rest => if String.eqb k key then Some v else lookup key rest
  end.

(** [d.get(key, default)] *)
Definition get (entries : list (string * json)) (key : string) (default : json) : json :=
  match lookup key entries with
  | Some v => v
  | None => default
  end.

(** [d[key] = v]: an existing key keeps its place. *)
Fixpoint set (key : string) (v : json) (entries : list (string * json))
  : list (string * json) :=
  match entries with
  | [] => [(key, v)]
  | (k, w) :: rest =>
      if String.eqb k key then (k, v) :: rest else (k, w) :: set key v rest
  end.

End PyDict.

(** ** The models of [story_models.py] *)

Record Character := {
  char_name : string;
  char_description : string;
  char_role : string;
  char_background : option string;
  char_motivations : option string;
  char_relationships : option (list (string * string));
}.

Record StorySettings := {
  genre : string;
  setting : string;
  tone : string;
  themes : list string;
  world_building : option string;
  target_length : option string;
}.

Record ChapterOutline := {
  co_chapter_number : Z;
  co_title : string;
  co_summary : string;
  co_key_events : list string;
  co_characters_involved : list string;
  co_purpose : string;
}.

Record StoryOutline := {
  so_title : string;
  so_premise : string;
  so_plot_structure : string;
  so_chapters : list ChapterOutline;
  so_estimated_word_count : option Z;
}.

Record GeneratedChapter := {
  chapter_number : Z;
  title : string;
  gc_outline : string;
  dialogue : string;
  content : string;
  word_count : nat;
  validation_score : option pyfloat;
  validation_feedback : option string;
}.

Inductive WorkflowStep :=
| CHARACTERS_SETTINGS
| OUTLINE
| CHAPTER_GENERATION
| VALIDATION
| COMPLETED.

(** The position of a step in the order the enum declares. *)
Definition step_rank (s : WorkflowStep) : nat :=
  match s with
  | CHARACTERS_SETTINGS => 0
  | OUTLINE => 1
  | CHAPTER_GENERATION => 2
  | VALIDATION => 3
  | COMPLETED => 4
  end.

Record StoryWorkflow := {
  id : string;
  original_prompt : string;
  current_step : WorkflowStep;
  created_at : nat;
  updated_at : nat;
  characters : list Character;
  settings : option StorySettings;
  outline : option StoryOutline;
  chapters : list GeneratedChapter;
  model : option string;
  temperature : pyfloat;
  top_p : pyfloat;
  total_chapters_planned : nat;
  chapters_completed : nat;
  is_complete : bool;
}.

Record CreateWorkflowRequest := {
  req_prompt : string;
  req_model : option string;
  req_temperature : option pyfloat;
  req_top_p : option pyfloat;
}.

(** Field updates of the mutable objects, one per assignment the service
    makes. *)

Definition set_validation (score : pyfloat) (feedback : string)
    (ch : GeneratedChapter) : GeneratedChapter :=
  {| chapter_number := chapter_number ch; title := title ch;
     gc_outline := gc_outline ch; dialogue := dialogue ch;
     content := content ch; word_count := word_count ch;
     validation_score := Some score; validation_feedback := Some feedback |}.

Definition set_characters (v : list Character) (w : StoryWorkflow) : StoryWorkflow :=
  {| id := id w; original_prompt := original_prompt w;
     current_step := current_step w; created_at := created_at w;
     updated_at := updated_at w; characters := v; settings := settings w;
     outline := outline w; chapters := chapters w; model := model w;
     temperature := temperature w; top_p := top_p w;
     total_chapters_planned := total_chapters_planned w;
     chapters_completed := chapters_completed w; is_complete := is_complete w |}.

Definition set_settings (v : option StorySettings) (w : StoryWorkflow) : StoryWorkflow :=
  {| id := id w; original_prompt := original_prompt w;
     current_step := current_step w; created_at := created_at w;
     updated_at := updated_at w; characters := characters w; settings := v;
     outline := outline w; chapters := chapters w; model := model w;
     temperature := temperature w; top_p := top_p w;
     total_chapters_planned := total_chapters_planned w;
     chapters_completed := chapters_completed w; is_complete := is_complete w |}.

Definition set_current_step (v : WorkflowStep) (w : StoryWorkflow) : StoryWorkflow :=
  {| id := id w; original_prompt := original_prompt w;
     current_step := v; created_at := created_at w;
     updated_at := updated_at w; characters := characters w;
     settings := settings w; outline := outline w; chapters := chapters w;
     model := model w; temperature := temperature w; top_p := top_p w;
     total_chapters_planned := total_chapters_planned w;
     chapters_completed := chapters_completed w; is_complete := is_complete w |}.

Definition set_updated_at (v : nat) (w : StoryWorkflow) : StoryWorkflow :=
  {| id := id w; original_prompt := original_prompt w;
     current_step := current_step w; created_at := created_at w;
     updated_at := v; characters := characters w; settings := settings w;
     outline := outline w; chapters := chapters w; model := model w;
     temperature := temperature w; top_p := top_p w;
     total_chapters_planned := total_chapters_planned w;
     chapters_completed := chapters_completed w; is_complete := is_complete w |}.

Definition set_outline (v : option StoryOutline) (w : StoryWorkflow) : StoryWorkflow :=
  {| id := id w; original_prompt := original_prompt w;
     current_step := current_step w; created_at := created_at w;
     updated_at := updated_at w; characters := characters w;
     settings := settings w; outline := v; chapters := chapters w;
     model := model w; temperature := temperature w; top_p := top_p w;
     total_chapters_planned := total_chapters_planned w;
     chapters_completed := chapters_completed w; is_complete := is_complete w |}.

Definition set_total_chapters_planned (v : nat) (w : StoryWorkflow) : StoryWorkflow :=
  {| id := id w; original_prompt := original_prompt w;
     current_step := current_step w; created_at := created_at w;
     updated_at := updated_at w; characters := characters w;
     settings := settings w; outline := outline w; chapters := chapters w;
     model := model w; temperature := temperature w; top_p := top_p w;
     total_chapters_planned := v;
     chapters_completed := chapters_completed w; is_complete := is_complete w |}.

Definition set_chapters (v : list GeneratedChapter) (w : StoryWorkflow) : StoryWorkflow :=
  {| id := id w; original_prompt := original_prompt w;
     current_step := current_step w; created_at := created_at w;
     updated_at := updated_at w; characters := characters w;
     settings := settings w; outline := outline w; chapters := v;
     model := model w; temperature := temperature w; top_p := top_p w;
     total_chapters_planned := total_chapters_planned w;
     chapters_completed := chapters_completed w; is_complete := is_complete w |}.

Definition set_chapters_completed (v : nat) (w : StoryWorkflow) : StoryWorkflow :=
  {| id := id w; original_prompt := original_prompt w;
     current_step := current_step w; created_at := created_at w;
     updated_at := updated_at w; characters := characters w;
     settings := settings w; outline := outline w; chapters := chapters w;
     model := model w; temperature := temperature w; top_p := top_p w;
     total_chapters_planned := total_chapters_planned w;
     chapters_completed := v; is_complete := is_complete w |}.

(** ** The Python runtime and the libraries the service calls

    [json.loads], [float] and the pydantic constructors are not code of
    this repository. The service is written over this interface, and the
    general results hold for every implementation of it. [None] stands for
    a raised exception ([json.JSONDecodeError], [ValueError],
    [pydantic.ValidationError]). *)

Class PyLib := {
  (** [json.loads(text)] *)
  json_loads : string -> option json;
  (** [float(text)] *)
  py_float : string -> option pyfloat;
  (** [Character], built from the keyword arguments of a dict *)
  new_Character : list (string * json) -> option Character;
  (** [StorySettings], built from the keyword arguments of a dict *)
  new_StorySettings : list (string * json) -> option StorySettings;
  (** [ChapterOutline], built from the keyword arguments of a dict *)
  new_ChapterOutline : list (string * json) -> option ChapterOutline;
  (** [StoryOutline], built from its title, premise, plot structure, the
      chapters already built, and the estimated word count *)
  new_StoryOutline :
    json -> json -> json -> list ChapterOutline -> json -> option StoryOutline;
}.

(** ** Exceptions, the text-generation service and the state *)

Inductive exn :=
| ValueError (msg : string)
| IndexError (msg : string)
| AttributeError (msg : string)
| ValidationError (msg : string)
| StopIteration.

(** [str(e)] *)
Definition str_of_exn (e : exn) : string :=
  match e with
  | ValueError msg | IndexError msg | AttributeError msg | ValidationError msg => msg
  | StopIteration => ""
  end.

(** What one [client.post] to [/api/generate] comes to. [RequestFailed] is
    an exception raised inside the [try] block of [generate_story_complete]
    (no connection, a timeout, a body that does not decode), with its text.
    [HttpReply] is a response: its status, its raw text, and the
    ["response"] entry of its decoded body when there is one. That entry
    is a text, as the text-generation service sends it: a body of status
    200 that holds another value under ["response"] is not among the
    outcomes of the model, and what is proved of the stages is proved
    for replies that are texts. *)
Inductive http_outcome :=
| RequestFailed (reason : string)
| HttpReply (status_code : Z) (text : string) (response_field : option string).

(** The prompts, each as the values its template interpolates (the fixed
    wording of the templates is not reproduced). *)
Inductive prompt :=
| PromptCharactersSettings (original_prompt additional_instructions : string)
| PromptOutline (original_prompt : string) (characters : list Character)
    (settings : StorySettings) (target_chapters : option Z)
    (additional_instructions : string)
| PromptChapterOutline (chapter_outline : ChapterOutline)
    (settings : StorySettings) (characters : list Character)
    (additional_instructions : string)
| PromptChapterDialogue (detailed_outline : string)
    (characters_in_chapter : list Character)
| PromptChapterContent (detailed_outline dialogue : string)
    (settings : StorySettings)
| PromptValidation (outline_chapter : ChapterOutline) (chapter_content : string).

(** The JSON payload of a request. *)
Record payload := {
  p_model : string;
  p_prompt : prompt;
  p_stream : bool;
  p_temperature : pyfloat;
  p_top_p : pyfloat;
  p_num_predict : Z;
  p_system : option string;
}.

(** [core/config.py] *)
Module settings_py.
Definition OLLAMA_DEFAULT_MODEL : string := "qwen3:8b".
Definition DEFAULT_TEMPERATURE : pyfloat := PyFloat.of_decimal 7 1.
Definition DEFAULT_TOP_P : pyfloat := PyFloat.of_decimal 9 1.
Definition DEFAULT_VALIDATION_THRESHOLD : pyfloat := PyFloat.of_decimal 7 1.
End settings_py.

(** The state of the process: the workflow store of the service object,
    the requests sent to the text-generation service so far (oldest
    first), and a clock that [datetime.now()] reads and advances. *)
Record state := {
  workflows : gmap string StoryWorkflow;
  requests : list payload;
  clock : nat;
}.

Definition with_workflows (f : gmap string StoryWorkflow -> gmap string StoryWorkflow)
    (s : state) : state :=
  {| workflows := f (workflows s); requests := requests s; clock := clock s |}.

(** A computation that reads and writes the state and returns a value or
    raises; the state it leaves is kept in both cases. *)
Definition M (A : Type) : Type := state -> (exn + A) * state.

Definition ret {A} (a : A) : M A := fun s => (inr a, s).

Definition raise {A} (e : exn) : M A := fun s => (inl e, s).

Definition bind {A B} (m : M A) (k : A -> M B) : M B :=
  fun s =>
    match m s with
    | (inl e, s') => (inl e, s')
    | (inr a, s') => k a s'
    end.

(** What a run returned, if it returned; what it raised, if it raised. *)
Definition returned {A} (run : (exn + A) * state) : option A :=
  match run.1 with
  | inr a => Some a
  | inl _ => None
  end.

Definition raised {A} (run : (exn + A) * state) : option exn :=
  match run.1 with
  | inl e => Some e
  | inr _ => None
  end.

Notation "'let*' x ':=' m 'in' k" := (bind m (fun x => k))
  (at level 10, x binder, k at level 200).

(** [self.workflows.get(workflow_id)] *)
Definition get_workflow (workflow_id : string) : M (option StoryWorkflow) :=
  fun s => (inr (workflows s !! workflow_id), s).

(** An assignment to a field of the stored workflow object. *)
Definition assign (workflow_id : string) (f : StoryWorkflow -> StoryWorkflow) : M unit :=
  fun s => (inr tt, with_workflows (alter f workflow_id) s).

(** [datetime.now()] *)
Definition now : M nat :=
  fun s =>
    (inr (clock s),
     {| workflows := workflows s; requests := requests s; clock := S (clock s) |}).

(** [x or default] on an optional string: [None] and the empty string are
    false. *)
Definition str_or (x : option string) (default : string) : string :=
  match x with
  | Some (String c s) => String c s
  | _ => default
  end.

(** Python indexing [l[i]], negative indices counting from the end;
    [None] is an [IndexError]. *)
Definition py_index {A} (l : list A) (i : Z) : option A :=
  let n := Z.of_nat (length l) in
  if (0 <=? i) && (i <? n) then l !! Z.to_nat i
  else if (- n <=? i) && (i <? 0) then l !! Z.to_nat (n + i)
  else None.

(** ** The services *)

Section Service.

Context `{PyLib}.

(** The text-generation service: the outcome of the [k]-th request of
    the process, counted from 0. *)
Variable ollama : nat -> http_outcome.

(** *** [ollama_service.py] *)

(** The [try] block of [generate_story_complete] with its handler: the
    ["response"] entry of the body on status 200 (the empty string when
    the body has none); on any other status the exception the block
    raises itself, and on a failed request the exception of the client,
    both caught by the handler, which returns ["Error: " + str(e)]. *)
Definition completion_text (outcome : http_outcome) : string :=
  match outcome with
  | HttpReply status_code text response_field =>
      if status_code =? 200 then default "" response_field
      else
        let error_text := text in
        "Error: " +:+ ("Ollama API error: " +:+ pretty status_code
                       +:+ " - " +:+ error_text)
  | RequestFailed reason => "Error: " +:+ reason
  end.

Definition build_payload (prompt : prompt) (model : option string)
    (temperature top_p : pyfloat) (system_prompt : option string) : payload :=
  {| p_model := str_or model settings_py.OLLAMA_DEFAULT_MODEL;
     p_prompt := prompt; p_stream := false;
     p_temperature := temperature; p_top_p := top_p;
     p_num_predict := -1;
     p_system := match system_prompt with
                 | Some (String c r) => Some (String c r)
                 | _ => None
                 end |}.

Definition record_request (p : payload) (s : state) : state :=
  {| workflows := workflows s; requests := requests s ++ [p]; clock := clock s |}.

(** [OllamaService.generate_story_complete]: it always returns a text
    and never raises. *)
Definition generate_story_complete (prompt : prompt) (model : option string)
    (temperature top_p : pyfloat) (system_prompt : option string) : M string :=
  fun s =>
    (inr (completion_text (ollama (length (requests s)))),
     record_request (build_payload prompt model temperature top_p system_prompt) s).

(** *** [story_workflow_service.py]: the parsers *)

(** The keyword arguments of a dict unpacking; anything but a dict is a
    [TypeError]. Also what [data.get] needs: any other value has no
    [get]. *)
Definition as_dict (v : json) : option (list (string * json)) :=
  match v with
  | JDict entries => Some entries
  | _ => None
  end.

(** The values a [for] over a decoded value goes through: the items of a
    list, the keys of a dict, the characters of a string; nothing else is
    iterable. *)
Definition py_iter (v : json) : option (list json) :=
  match v with
  | JList items => Some items
  | JDict entries => Some (map (fun kv => JStr (fst kv)) entries)
  | JStr s => Some (map (fun c => JStr (String c EmptyString)) (list_ascii_of_string s))
  | _ => None
  end.

Definition fallback_characters : list Character :=
  [ {| char_name := "Main Character";
       char_description := "The protagonist of the story";
       char_role := "protagonist";
       char_background := None; char_motivations := None;
       char_relationships := None |} ].

Definition fallback_settings : StorySettings :=
  {| genre := "Fiction"; setting := "Contemporary"; tone := "Engaging";
     themes := []; world_building := None; target_length := Some "medium" |}.

Definition fallback_outline : StoryOutline :=
  {| so_title := "Untitled Story";
     so_premise := "A story premise";
     so_plot_structure := "Basic three-act structure";
     so_chapters :=
       [ {| co_chapter_number := 1; co_title := "Chapter 1";
            co_summary := "Opening chapter"; co_key_events := [];
            co_characters_involved := [];
            co_purpose := "Introduce the story and characters" |} ];
     so_estimated_word_count := None |}.

(** The body of the [try] of [_parse_characters_settings_response];
    [None] is any exception raised in it. *)
Definition try_parse_characters_settings (response : string)
    : option (list Character * StorySettings) :=
  let start := PyStr.find response "{" in
  let end_ := PyStr.rfind response "}" + 1 in
  if negb (start =? -1) && negb (end_ =? 0) then
    let json_str := PyStr.slice response start end_ in
    data ← json_loads json_str;
    entries ← as_dict data;
    items ← py_iter (PyDict.get entries "characters" (JList []));
    characters ← mapM (fun char_data => as_dict char_data ≫= new_Character) items;
    let settings_data := PyDict.get entries "settings" (JDict []) in
    kwargs ← as_dict settings_data;
    settings ← new_StorySettings kwargs;
    Some (characters, settings)
  else
    (* raise ValueError("No valid JSON found in response") *)
    None.

Definition _parse_characters_settings_response (response : string)
    : list Character * StorySettings :=
  match try_parse_characters_settings response with
  | Some result => result
  | None => (fallback_characters, fallback_settings)
  end.

(** The body of the [if] of [_parse_outline_response]; [None] is any
    exception raised in it. *)
Definition try_parse_outline (json_str : string) : option StoryOutline :=
  data ← json_loads json_str;
  entries ← as_dict data;
  let chapters_data := PyDict.get entries "chapters" (JList []) in
  items ← py_iter chapters_data;
  chapters ← mapM (fun chapter_data => as_dict chapter_data ≫= new_ChapterOutline) items;
  new_StoryOutline
    (PyDict.get entries "title" (JStr "Untitled Story"))
    (PyDict.get entries "premise" (JStr ""))
    (PyDict.get entries "plot_structure" (JStr ""))
    chapters
    (PyDict.get entries "estimated_word_count" JNull).

(** [_parse_outline_response]. The [if] has no [else]: when a brace is
    missing nothing is raised, the [try] ends and the function returns
    Python's [None], here [None]. *)
Definition _parse_outline_response (response : string) : option StoryOutline :=
  let start := PyStr.find response "{" in
  let end_ := PyStr.rfind response "}" + 1 in
  if negb (start =? -1) && negb (end_ =? 0) then
    let json_str := PyStr.slice response start end_ in
    match try_parse_outline json_str with
    | Some outline => Some outline
    | None => Some fallback_outline
    end
  else None.

(** The [for] loop of [_parse_validation_response] over the lines that
    remain; [None] is an exception. *)
Fixpoint scan_validation_lines (lines remaining : list string)
    (score : pyfloat) (feedback : string) : option (pyfloat * string) :=
  match remaining with
  | [] => Some (score, feedback)
  | line :: remaining' =>
      if PyStr.startswith line "SCORE:" then
        let score_str := PyStr.strip (PyStr.replace line "SCORE:" "") in
        score ← py_float score_str;
        scan_validation_lines lines remaining' score feedback
      else if PyStr.startswith line "FEEDBACK:" then
        let feedback := PyStr.strip (PyStr.replace line "FEEDBACK:" "") in
        i ← PyStr.index line lines;
        let remaining_lines := drop (S i) lines in
        Some (score,
              match remaining_lines with
              | [] => feedback
              | _ => feedback +:+ PyStr.NL +:+ PyStr.join PyStr.NL remaining_lines
              end)
      else scan_validation_lines lines remaining' score feedback
  end.

Definition _parse_validation_response (response : string) : pyfloat * string :=
  let lines := PyStr.split_char PyStr.newline (PyStr.strip response) in
  match scan_validation_lines lines lines (PyFloat.of_decimal 8 1) response with
  | Some result => result
  | None => (PyFloat.of_decimal 7 1, response)
  end.

(** *** [story_workflow_service.py]: the stages *)

(** The [system_prompt] arguments of the stages. *)
Definition SYSTEM_STORY_PLANNER : string :=
  "You are an expert story planner. Generate detailed characters and settings in the specified JSON format.".
Definition SYSTEM_STORY_OUTLINER : string :=
  "You are an expert story outliner. Create a detailed story outline in the specified JSON format.".
Definition SYSTEM_CHAPTER_OUTLINER : string :=
  "You are an expert chapter outliner. Create detailed, scene-by-scene chapter outlines. Output only the outline content without any headers or explanatory text.".
Definition SYSTEM_DIALOGUE_WRITER : string :=
  "You are an expert dialogue writer. Create realistic, engaging dialogue that advances character and plot. Output only the dialogue content without any headers or explanatory text.".
Definition SYSTEM_NOVELIST : string :=
  "You are an expert novelist. Write engaging, well-crafted chapters with rich description and compelling narrative. Output only the story content without any headers, titles, or explanatory text.".
Definition SYSTEM_STORY_EDITOR : string :=
  "You are an expert story editor. Analyze how well the chapter matches the outline and provide constructive feedback.".


Definition workflow_not_found {A} (workflow_id : string) : M A :=
  raise (ValueError ("Workflow " +:+ workflow_id +:+ " not found")).

Definition none_has_no (attribute : string) : exn :=
  AttributeError ("'NoneType' object has no attribute '" +:+ attribute +:+ "'").

(** The workflow object once the stage is over: the stored one. *)
Definition return_workflow (workflow_id : string) : M StoryWorkflow :=
  let* stored := get_workflow workflow_id in
  match stored with
  | Some workflow => ret workflow
  | None => workflow_not_found workflow_id
  end.

(** [StoryWorkflowService.create_workflow]; [uuid] is what
    [uuid.uuid4()] draws. The pydantic constructor refuses a temperature
    or a top_p that is [None]; the two timestamps are read one after the
    other. *)
Definition create_workflow (uuid : string) (request : CreateWorkflowRequest)
    : M StoryWorkflow :=
  match req_temperature request, req_top_p request with
  | Some temperature, Some top_p =>
      let* created := now in
      let* updated := now in
      let workflow :=
        {| id := uuid; original_prompt := req_prompt request;
           current_step := CHARACTERS_SETTINGS;
           created_at := created; updated_at := updated;
           characters := []; settings := None; outline := None;
           chapters := [];
           model := Some (str_or (req_model request) settings_py.OLLAMA_DEFAULT_MODEL);
           temperature := temperature; top_p := top_p;
           total_chapters_planned := 0; chapters_completed := 0;
           is_complete := false |} in
      fun s => (inr workflow, with_workflows (insert uuid workflow) s)
  | _, _ => raise (ValidationError "Input should be a valid number")
  end.

(** [delete_workflow] of [routes.py] *)
Definition delete_workflow (workflow_id : string) : M unit :=
  let* stored := get_workflow workflow_id in
  match stored with
  | None => raise (ValueError "Workflow not found")
  | Some _ => fun s => (inr tt, with_workflows (delete workflow_id) s)
  end.

Definition _build_characters_settings_prompt (original_prompt : string)
    (additional_instructions : option string) : prompt :=
  PromptCharactersSettings original_prompt (default "" additional_instructions).

(** Step 1 *)
Definition generate_characters_and_settings (workflow_id : string)
    (additional_instructions : option string) : M StoryWorkflow :=
  let* stored := get_workflow workflow_id in
  match stored with
  | None => workflow_not_found workflow_id
  | Some workflow =>
      let prompt :=
        _build_characters_settings_prompt (original_prompt workflow)
          additional_instructions in
      let* response :=
        generate_story_complete prompt (model workflow) (temperature workflow)
          (top_p workflow)
          (Some SYSTEM_STORY_PLANNER) in
      let '(characters, settings) := _parse_characters_settings_response response in
      let* _ := assign workflow_id (set_characters characters) in
      let* _ := assign workflow_id (set_settings (Some settings)) in
      let* _ := assign workflow_id (set_current_step OUTLINE) in
      let* t := now in
      let* _ := assign workflow_id (set_updated_at t) in
      return_workflow workflow_id
  end.

(** [_build_outline_prompt]; reading [workflow.settings.genre] raises
    when the settings are [None]. *)
Definition _build_outline_prompt (workflow : StoryWorkflow)
    (target_chapters : option Z) (additional_instructions : option string)
    : M prompt :=
  match settings workflow with
  | None => raise (none_has_no "genre")
  | Some settings =>
      ret (PromptOutline (original_prompt workflow) (characters workflow)
             settings target_chapters (default "" additional_instructions))
  end.

(** Step 2. The parsed outline is stored before its chapters are
    counted, so the [None] of [_parse_outline_response] is stored too,
    and the count then raises. *)
Definition generate_outline (workflow_id : string) (target_chapters : option Z)
    (additional_instructions : option string) : M StoryWorkflow :=
  let* stored := get_workflow workflow_id in
  match stored with
  | None => workflow_not_found workflow_id
  | Some workflow =>
      match characters workflow, settings workflow with
      | [], _ | _, None =>
          raise (ValueError "Characters and settings must be generated first")
      | _ :: _, Some _ =>
          let* prompt :=
            _build_outline_prompt workflow target_chapters additional_instructions in
          let* response :=
            generate_story_complete prompt (model workflow)
              (temperature workflow) (top_p workflow)
              (Some SYSTEM_STORY_OUTLINER) in
          let outline := _parse_outline_response response in
          let* _ := assign workflow_id (set_outline outline) in
          match outline with
          | None => raise (none_has_no "chapters")
          | Some parsed =>
              let* _ :=
                assign workflow_id
                  (set_total_chapters_planned (length (so_chapters parsed))) in
              let* _ := assign workflow_id (set_current_step CHAPTER_GENERATION) in
              let* t := now in
              let* _ := assign workflow_id (set_updated_at t) in
              return_workflow workflow_id
          end
      end
  end.

Definition _generate_chapter_outline (workflow : StoryWorkflow)
    (chapter_outline : ChapterOutline) (additional_instructions : option string)
    : M string :=
  match settings workflow with
  | None => raise (none_has_no "genre")
  | Some settings =>
      generate_story_complete
        (PromptChapterOutline chapter_outline settings (characters workflow)
           (default "" additional_instructions))
        (model workflow) (temperature workflow) (top_p workflow)
        (Some SYSTEM_CHAPTER_OUTLINER)
  end.

Definition _generate_chapter_dialogue (workflow : StoryWorkflow)
    (chapter_outline : ChapterOutline) (detailed_outline : string) : M string :=
  generate_story_complete
    (PromptChapterDialogue detailed_outline
       (filter (fun char => char_name char ∈ co_characters_involved chapter_outline)
          (characters workflow)))
    (model workflow) (temperature workflow) (top_p workflow)
    (Some SYSTEM_DIALOGUE_WRITER).

Definition _generate_chapter_content (workflow : StoryWorkflow)
    (chapter_outline : ChapterOutline) (detailed_outline dialogue : string)
    : M string :=
  match settings workflow with
  | None => raise (none_has_no "genre")
  | Some settings =>
      generate_story_complete
        (PromptChapterContent detailed_outline dialogue settings)
        (model workflow) (temperature workflow) (top_p workflow)
        (Some SYSTEM_NOVELIST)
  end.

(** The index of the first chapter with this number:
    [next((i for i, ch in enumerate(chapters) if ch.chapter_number == n), None)] *)
Fixpoint existing_chapter_index (chapters : list GeneratedChapter) (n : Z)
    : option nat :=
  match chapters with
  | [] => None
  | ch :: rest =>
      if chapter_number ch =? n then Some O
      else S <$> existing_chapter_index rest n
  end.

(** "Update or add chapter to workflow" *)
Definition store_chapter (generated_chapter : GeneratedChapter)
    (workflow : StoryWorkflow) : StoryWorkflow :=
  match existing_chapter_index (chapters workflow)
          (chapter_number generated_chapter) with
  | Some i =>
      set_chapters (<[i := generated_chapter]> (chapters workflow)) workflow
  | None =>
      set_chapters_completed (chapters_completed workflow + 1)%nat
        (set_chapters (chapters workflow ++ [generated_chapter]) workflow)
  end.

(** Step 3 *)
Definition generate_chapter (workflow_id : string) (chapter_number : Z)
    (additional_instructions : option string) : M StoryWorkflow :=
  let* stored := get_workflow workflow_id in
  match stored with
  | None => workflow_not_found workflow_id
  | Some workflow =>
      match outline workflow with
      | None => raise (ValueError "Story outline must be generated first")
      | Some outline =>
          if chapter_number >? Z.of_nat (length (so_chapters outline)) then
            raise (ValueError ("Chapter " +:+ pretty chapter_number
                               +:+ " not found in outline"))
          else
            match py_index (so_chapters outline) (chapter_number - 1) with
            | None => raise (IndexError "list index out of range")
            | Some chapter_outline =>
                let* outline_response :=
                  _generate_chapter_outline workflow chapter_outline
                    additional_instructions in
                let* dialogue_response :=
                  _generate_chapter_dialogue workflow chapter_outline
                    outline_response in
                let* content_response :=
                  _generate_chapter_content workflow chapter_outline
                    outline_response dialogue_response in
                let generated_chapter :=
                  {| chapter_number := chapter_number;
                     title := co_title chapter_outline;
                     gc_outline := outline_response;
                     dialogue := dialogue_response;
                     content := content_response;
                     word_count := PyStr.word_count content_response;
                     validation_score := None;
                     validation_feedback := None |} in
                let* _ := assign workflow_id (store_chapter generated_chapter) in
                let* t := now in
                let* _ := assign workflow_id (set_updated_at t) in
                return_workflow workflow_id
            end
      end
  end.

Definition _build_validation_prompt (outline_chapter : ChapterOutline)
    (generated_chapter : GeneratedChapter) : prompt :=
  PromptValidation outline_chapter (content generated_chapter).

(** [chapter.validation_score = score; chapter.validation_feedback = feedback]
    on the chapter object that [next(...)] found: the first with the
    number. *)
Definition store_validation (n : Z) (score : pyfloat) (feedback : string)
    (workflow : StoryWorkflow) : StoryWorkflow :=
  match existing_chapter_index (chapters workflow) n with
  | Some i =>
      set_chapters (alter (set_validation score feedback) i (chapters workflow))
        workflow
  | None => workflow
  end.

(** The temperature of every validation request. *)
Definition validation_temperature : pyfloat := PyFloat.of_decimal 3 1.

(** Step 4 *)
Definition validate_chapter (workflow_id : string) (chapter_number : Z)
    : M StoryWorkflow :=
  let* stored := get_workflow workflow_id in
  match stored with
  | None => workflow_not_found workflow_id
  | Some workflow =>
      match existing_chapter_index (chapters workflow) chapter_number
              ≫= (fun i => chapters workflow !! i) with
      | None =>
          raise (ValueError ("Chapter " +:+ pretty chapter_number +:+ " not found"))
      | Some chapter =>
          match outline workflow with
          | None => raise (none_has_no "chapters")
          | Some outline =>
              match py_index (so_chapters outline) (chapter_number - 1) with
              | None => raise (IndexError "list index out of range")
              | Some outline_chapter =>
                  let prompt := _build_validation_prompt outline_chapter chapter in
                  let* response :=
                    generate_story_complete prompt (model workflow)
                      validation_temperature (top_p workflow)
                      (Some SYSTEM_STORY_EDITOR) in
                  let '(score, feedback) := _parse_validation_response response in
                  let* _ :=
                    assign workflow_id
                      (store_validation chapter_number score feedback) in
                  let* t := now in
                  let* _ := assign workflow_id (set_updated_at t) in
                  return_workflow workflow_id
              end
          end
      end
  end.

(** *** [generate_all_chapters_stream]

    The async generator is modelled by the list of the events it yields
    when it is consumed to its end, in the order of the [yield]s. The
    ["message"] entries, texts built from the other entries, are left
    out; the events of the handler keep the exception they report. *)

Inductive event :=
| EvAlreadyGenerated (workflow : StoryWorkflow)
| EvGenerating (chapter_number : Z) (chapter_title : string)
    (current total attempt : nat)
| EvValidating (chapter_number : Z) (chapter_title : string)
    (current total attempt : nat)
| EvCompleted (chapter_number : Z) (chapter_title : string)
    (current total : nat) (validation_score validation_threshold : pyfloat)
    (attempts word_count : nat)
| EvRegenerating (chapter_number : Z) (chapter_title : string)
    (current total : nat) (validation_score validation_threshold : pyfloat)
    (attempt : nat)
| EvCompletedWithWarning (chapter_number : Z) (chapter_title : string)
    (current total : nat) (validation_score validation_threshold : pyfloat)
    (attempts word_count : nat)
| EvRetrying (chapter_number : Z) (chapter_title : string)
    (current total attempt : nat) (error : exn)
| EvFailed (chapter_number : Z) (chapter_title : string)
    (current total attempts : nat) (error : exn)
| EvComplete (generated total_chapters : nat) (workflow : StoryWorkflow).

(** The ["type"] entry of an event, with the ["status"] entry of the
    events that have one. *)
Inductive event_kind :=
| complete
| progress_generating
| progress_validating
| progress_completed
| progress_regenerating
| warning_completed_with_warning
| progress_retrying
| error_failed.

Definition kind_of (e : event) : event_kind :=
  match e with
  | EvAlreadyGenerated _ | EvComplete _ _ _ => complete
  | EvGenerating _ _ _ _ _ => progress_generating
  | EvValidating _ _ _ _ _ => progress_validating
  | EvCompleted _ _ _ _ _ _ _ _ => progress_completed
  | EvRegenerating _ _ _ _ _ _ _ => progress_regenerating
  | EvCompletedWithWarning _ _ _ _ _ _ _ _ => warning_completed_with_warning
  | EvRetrying _ _ _ _ _ _ => progress_retrying
  | EvFailed _ _ _ _ _ _ => error_failed
  end.

(** The ["current"] entry: the 1-based position of the chapter among
    the pending ones. *)
Definition current_of (e : event) : option nat :=
  match e with
  | EvAlreadyGenerated _ | EvComplete _ _ _ => None
  | EvGenerating _ _ current _ _ | EvValidating _ _ current _ _
  | EvCompleted _ _ current _ _ _ _ _ | EvRegenerating _ _ current _ _ _ _
  | EvCompletedWithWarning _ _ current _ _ _ _ _
  | EvRetrying _ _ current _ _ _ | EvFailed _ _ current _ _ _ => Some current
  end.

Definition max_regeneration_attempts : nat := 3.

(** How one pass of the [while] body ends. *)
Inductive pass_end :=
| ChapterCompleted   (* chapter_completed = True *)
| NextAttempt        (* back to the loop test, one more attempt counted *)
| BatchStopped.      (* return *)

(** [chapter.validation_score or 0.0] *)
Definition score_or_zero (score : option pyfloat) : pyfloat :=
  match score with
  | Some x => if PyFloat.truthy x then x else Fin 0
  | None => Fin 0
  end.

Section Batch.

Variable workflow_id : string.
Variable additional_instructions : option string.
Variable validation_threshold : pyfloat.
(** [len(chapters_to_generate)] *)
Variable total : nat.

(** The [except Exception] handler of the loop body. *)
Definition on_exception (chapter_outline : ChapterOutline) (i : nat)
    (regeneration_attempts : nat) (e : exn) : event * pass_end :=
  let chapter_number := co_chapter_number chapter_outline in
  let regeneration_attempts := (regeneration_attempts + 1)%nat in
  if (regeneration_attempts <=? max_regeneration_attempts)%nat then
    (EvRetrying chapter_number (co_title chapter_outline) (i + 1) total
       regeneration_attempts e, NextAttempt)
  else
    (EvFailed chapter_number (co_title chapter_outline) (i + 1) total
       regeneration_attempts e, BatchStopped).

(** One pass of the body of the [while] loop. *)
Definition attempt_chapter (chapter_outline : ChapterOutline) (i : nat)
    (regeneration_attempts : nat) (s : state) : list event * pass_end * state :=
  let chapter_number := co_chapter_number chapter_outline in
  let chapter_title := co_title chapter_outline in
  let generating :=
    EvGenerating chapter_number chapter_title (i + 1) total
      (regeneration_attempts + 1) in
  let validating :=
    EvValidating chapter_number chapter_title (i + 1) total
      (regeneration_attempts + 1) in
  match generate_chapter workflow_id chapter_number additional_instructions s with
  | (inl e, s1) =>
      let '(ev, r) := on_exception chapter_outline i regeneration_attempts e in
      ([generating; ev], r, s1)
  | (inr _, s1) =>
      match validate_chapter workflow_id chapter_number s1 with
      | (inl e, s2) =>
          let '(ev, r) := on_exception chapter_outline i regeneration_attempts e in
          ([generating; validating; ev], r, s2)
      | (inr workflow, s2) =>
          match existing_chapter_index (chapters workflow) chapter_number
                  ≫= (fun k => chapters workflow !! k) with
          | None =>
              let '(ev, r) :=
                on_exception chapter_outline i regeneration_attempts StopIteration in
              ([generating; validating; ev], r, s2)
          | Some chapter =>
              let validation_score := score_or_zero (validation_score chapter) in
              if PyFloat.ge validation_score validation_threshold then
                ([generating; validating;
                  EvCompleted chapter_number chapter_title (i + 1) total
                    validation_score validation_threshold
                    (regeneration_attempts + 1) (word_count chapter)],
                 ChapterCompleted, s2)
              else
                let regeneration_attempts := (regeneration_attempts + 1)%nat in
                if (regeneration_attempts <=? max_regeneration_attempts)%nat then
                  ([generating; validating;
                    EvRegenerating chapter_number chapter_title (i + 1) total
                      validation_score validation_threshold
                      regeneration_attempts],
                   NextAttempt, s2)
                else
                  ([generating; validating;
                    EvCompletedWithWarning chapter_number chapter_title (i + 1)
                      total validation_score validation_threshold
                      regeneration_attempts (word_count chapter)],
                   ChapterCompleted, s2)
          end
      end
  end.

(** The [while] loop of one chapter, entered with [chapter_completed]
    false. [fuel] bounds the number of passes; the result says whether
    the batch was stopped. *)
Fixpoint chapter_loop (fuel : nat) (chapter_outline : ChapterOutline) (i : nat)
    (regeneration_attempts : nat) (s : state) : list event * bool * state :=
  match fuel with
  | O => ([], false, s)
  | S fuel' =>
      if (regeneration_attempts <=? max_regeneration_attempts)%nat then
        match attempt_chapter chapter_outline i regeneration_attempts s with
        | (events, ChapterCompleted, s') => (events, false, s')
        | (events, BatchStopped, s') => (events, true, s')
        | (events, NextAttempt, s') =>
            let '(later, stopped, s'') :=
              chapter_loop fuel' chapter_outline i (S regeneration_attempts) s' in
            (events ++ later, stopped, s'')
        end
      else ([], false, s)
  end.

(** The [for] loop over [enumerate(chapters_to_generate)], from
    position [i] on. Four passes are all a chapter can take. *)
Fixpoint chapters_loop (chapters_to_generate : list ChapterOutline) (i : nat)
    (s : state) : list event * bool * state :=
  match chapters_to_generate with
  | [] => ([], false, s)
  | chapter_outline :: rest =>
      match chapter_loop (S max_regeneration_attempts) chapter_outline i 0 s with
      | (events, true, s') => (events, true, s')
      | (events, false, s') =>
          let '(later, stopped, s'') := chapters_loop rest (S i) s' in
          (events ++ later, stopped, s'')
      end
  end.

End Batch.

(** The outline chapters whose number no generated chapter has. *)
Definition chapters_to_generate (workflow : StoryWorkflow) (outline : StoryOutline)
    : list ChapterOutline :=
  let existing_chapter_numbers := map chapter_number (chapters workflow) in
  filter (fun ch => co_chapter_number ch ∉ existing_chapter_numbers)
    (so_chapters outline).

(** The events of a run consumed to its end, the exception that ends it
    if one does, and the state it leaves. *)
Definition generate_all_chapters_stream (workflow_id : string)
    (additional_instructions : option string)
    (validation_threshold : option pyfloat) (s : state)
    : list event * option exn * state :=
  match workflows s !! workflow_id with
  | None =>
      ([], Some (ValueError ("Workflow " +:+ workflow_id +:+ " not found")), s)
  | Some workflow =>
      match outline workflow with
      | None => ([], Some (ValueError "Story outline must be generated first"), s)
      | Some outline =>
          let validation_threshold :=
            default settings_py.DEFAULT_VALIDATION_THRESHOLD validation_threshold in
          let total_chapters := length (so_chapters outline) in
          let pending := chapters_to_generate workflow outline in
          match pending with
          | [] => ([EvAlreadyGenerated workflow], None, s)
          | _ :: _ =>
              match chapters_loop workflow_id additional_instructions
                      validation_threshold (length pending) pending 0 s with
              | (events, true, s') => (events, None, s')
              | (events, false, s') =>
                  (events ++
                     [EvComplete (length pending) total_chapters
                        (default workflow (workflows s' !! workflow_id))],
                   None, s')
              end
          end
      end
  end.

End Service.

(** [routes.py]: every stage endpoint answers a [ValueError] with status
    404 (its not-found class) and any other exception with status 500. *)
Definition http_status_of_exn (e : exn) : Z :=
  match e with
  | ValueError _ => 404
  | _ => 500
  end.

Definition is_not_found (e : exn) : bool := http_status_of_exn e =? 404.

(** ** A reference implementation of the library interface

    Used to run the service on concrete replies. It covers the JSON texts
    and the number texts written with the characters below 256:
    [json_loads] follows the grammar of the [json] module (objects, arrays,
    strings with their escapes, numbers, [true], [false], [null], [NaN],
    [Infinity]; a repeated key keeps its last value); [py_float] follows
    the grammar of [float]; the constructors check the declared type of
    every field, take the declared default of a missing optional one and
    ignore the entries they do not know. The coercions of pydantic's lax
    mode (a numeric string or a whole float given for an [int]) are not
    reproduced: such a value is refused. *)

Module RefPy.

Local Open Scope char_scope.
Local Open Scope Z_scope.

Definition is_digit (c : ascii) : bool :=
  let n := nat_of_ascii c in ((48 <=? n)%nat && (n <=? 57)%nat).

Definition digit_value (c : ascii) : Z := Z.of_nat (nat_of_ascii c) - 48.

(** A run of digits, single underscores allowed between two digits:
    the number read, how many digits, and the rest. *)
Fixpoint digitpart (s : list ascii) (acc : Z) (n : nat) : Z * nat * list ascii :=
  match s with
  | c :: r =>
      if is_digit c then digitpart r (acc * 10 + digit_value c) (S n)
      else if Ascii.eqb c "_" && (0 <? n)%nat then
        match r with
        | d :: r' =>
            if is_digit d then digitpart r' (acc * 10 + digit_value d) (S n)
            else (acc, n, s)
        | [] => (acc, n, s)
        end
      else (acc, n, s)
  | [] => (acc, n, [])
  end.

(** A run of digits without underscores (JSON). *)
Fixpoint digits (s : list ascii) (acc : Z) (n : nat) : Z * nat * list ascii :=
  match s with
  | c :: r => if is_digit c then digits r (acc * 10 + digit_value c) (S n)
              else (acc, n, s)
  | [] => (acc, n, [])
  end.

(** [mantissa * 10 ^ exponent] *)
Definition scale (mantissa exponent : Z) : pyfloat :=
  if 0 <=? exponent then Fin (Qred (Qmake (mantissa * 10 ^ exponent) 1))
  else Fin (Qred (Qmake mantissa (Z.to_pos (10 ^ (- exponent))))).

Definition signed (negative : bool) (x : Z) : Z := if negative then - x else x.

(** An optional exponent part: [e] or [E], an optional sign, digits. *)
Definition exponent_part (underscores : bool) (s : list ascii)
    : option (Z * list ascii) :=
  match s with
  | c :: r =>
      if Ascii.eqb c "e" || Ascii.eqb c "E" then
        let '(negative, r) :=
          match r with
          | "-" :: r' => (true, r')
          | "+" :: r' => (false, r')
          | _ => (false, r)
          end in
        let '(e, n, rest) := if underscores then digitpart r 0 0 else digits r 0 0 in
        if (0 <? n)%nat then Some (signed negative e, rest) else None
      else Some (0, s)
  | [] => Some (0, [])
  end.

Definition lower (c : ascii) : ascii :=
  let n := nat_of_ascii c in
  if (65 <=? n)%nat && (n <=? 90)%nat then ascii_of_nat (n + 32) else c.

(** [float(text)] *)
Definition float_of_str (text : string) : option pyfloat :=
  let s := list_ascii_of_string (PyStr.strip text) in
  let '(negative, s) :=
    match s with
    | "-" :: r => (true, r)
    | "+" :: r => (false, r)
    | _ => (false, s)
    end in
  let word := string_of_list_ascii (map lower s) in
  if String.eqb word "inf"%string || String.eqb word "infinity"%string
  then Some (Inf negative)
  else if String.eqb word "nan"%string then Some NaN
  else
    let '(int_part, int_digits, s1) := digitpart s 0 0 in
    let '(frac_part, frac_digits, s2) :=
      match s1 with
      | "." :: r => digitpart r 0 0
      | _ => (0, O, s1)
      end in
    if (0 <? int_digits + frac_digits)%nat then
      match exponent_part true s2 with
      | Some (e, []) =>
          Some (scale (signed negative (int_part * 10 ^ Z.of_nat frac_digits + frac_part))
                  (e - Z.of_nat frac_digits))
      | _ => None
      end
    else None.

Definition json_ws (c : ascii) : bool :=
  Ascii.eqb c " " || Ascii.eqb c "009" || Ascii.eqb c "010" || Ascii.eqb c "013".

Fixpoint skip_ws (s : list ascii) : list ascii :=
  match s with
  | c :: r => if json_ws c then skip_ws r else s
  | [] => []
  end.

Definition hex_value (c : ascii) : option nat :=
  let n := nat_of_ascii c in
  if (48 <=? n)%nat && (n <=? 57)%nat then Some (n - 48)%nat
  else if (97 <=? n)%nat && (n <=? 102)%nat then Some (n - 87)%nat
  else if (65 <=? n)%nat && (n <=? 70)%nat then Some (n - 55)%nat
  else None.

(** The double quote. *)
Definition double_quote : ascii := "034".

Definition unescape (c : ascii) : option ascii :=
  if Ascii.eqb c double_quote then Some double_quote
  else if Ascii.eqb c "\" then Some "\"
  else if Ascii.eqb c "/" then Some "/"
  else if Ascii.eqb c "b" then Some "008"
  else if Ascii.eqb c "f" then Some "012"
  else if Ascii.eqb c "n" then Some "010"
  else if Ascii.eqb c "r" then Some "013"
  else if Ascii.eqb c "t" then Some "009"
  else None.

(** The characters of a string after its opening quote, up to the
    closing one. *)
Fixpoint string_body (s : list ascii) : option (string * list ascii) :=
  match s with
  | [] => None
  | c :: r =>
      if Ascii.eqb c double_quote then Some (EmptyString, r)
      else if Ascii.eqb c "\" then
        match r with
        | "u" :: h1 :: h2 :: h3 :: h4 :: r' =>
            a ← hex_value h1; b ← hex_value h2;
            c ← hex_value h3; d ← hex_value h4;
            if ((a =? 0) && (b =? 0))%nat then
              '(body, rest) ← string_body r';
              Some (String (ascii_of_nat (16 * c + d)) body, rest)
            else None
        | e :: r' =>
            ch ← unescape e;
            '(body, rest) ← string_body r';
            Some (String ch body, rest)
        | [] => None
        end
      else if (nat_of_ascii c <? 32)%nat then None
      else
        '(body, rest) ← string_body r;
        Some (String c body, rest)
  end.

(** A number: an optional minus, [0] or a run of digits not starting
    with [0], an optional fraction, an optional exponent. It is a
    [float] when it has a fraction or an exponent, an [int] otherwise. *)
Definition number (s : list ascii) : option (json * list ascii) :=
  let '(negative, s0) :=
    match s with
    | "-" :: r => (true, r)
    | _ => (false, s)
    end in
  let '(int_part, int_digits, s1) :=
    match s0 with
    | "0" :: r => (0, 1%nat, r)
    | _ => digits s0 0 0
    end in
  if (0 <? int_digits)%nat then
    let '(frac_part, frac_digits, s2) :=
      match s1 with
      | "." :: r =>
          let '(f, n, r') := digits r 0 0 in
          if (0 <? n)%nat then (f, n, r') else (0, O, s1)
      | _ => (0, O, s1)
      end in
    let '(has_exponent, e, s3) :=
      match s2 with
      | c :: _ =>
          if Ascii.eqb c "e" || Ascii.eqb c "E" then
            match exponent_part false s2 with
            | Some (e, rest) => (true, e, rest)
            | None => (false, 0, s2)
            end
          else (false, 0, s2)
      | [] => (false, 0, s2)
      end in
    if (0 <? frac_digits)%nat || has_exponent then
      Some (JFloat (scale (signed negative
                             (int_part * 10 ^ Z.of_nat frac_digits + frac_part))
                      (e - Z.of_nat frac_digits)), s3)
    else Some (JInt (signed negative int_part), s3)
  else None.

Definition starts (s : list ascii) (word : string) : option (list ascii) :=
  let w := list_ascii_of_string word in
  if decide (take (length w) s = w) then Some (drop (length w) s) else None.

(** A JSON value at the head of [s], and the characters after it. Each
    call spends one unit of [fuel]. *)
Fixpoint value (fuel : nat) (s : list ascii) : option (json * list ascii) :=
  match fuel with
  | O => None
  | S fuel' =>
      match s with
      | "{" :: r =>
          match skip_ws r with
          | "}" :: rest => Some (JDict [], rest)
          | r' => members fuel' r' []
          end
      | "[" :: r =>
          match skip_ws r with
          | "]" :: rest => Some (JList [], rest)
          | r' => elements fuel' r' []
          end
      | c :: r =>
          if Ascii.eqb c double_quote then
            '(str, rest) ← string_body r; Some (JStr str, rest)
          else
            match starts s "null", starts s "true", starts s "false",
                  starts s "NaN", starts s "Infinity", starts s "-Infinity" with
            | Some rest, _, _, _, _, _ => Some (JNull, rest)
            | _, Some rest, _, _, _, _ => Some (JBool true, rest)
            | _, _, Some rest, _, _, _ => Some (JBool false, rest)
            | _, _, _, Some rest, _, _ => Some (JFloat NaN, rest)
            | _, _, _, _, Some rest, _ => Some (JFloat (Inf false), rest)
            | _, _, _, _, _, Some rest => Some (JFloat (Inf true), rest)
            | _, _, _, _, _, _ => number s
            end
      | [] => None
      end
  end
with members (fuel : nat) (s : list ascii) (acc : list (string * json))
    : option (json * list ascii) :=
  match fuel with
  | O => None
  | S fuel' =>
      match s with
      | c :: r =>
          if Ascii.eqb c double_quote then
            '(key, r1) ← string_body r;
            match skip_ws r1 with
            | ":" :: r2 =>
                '(v, r3) ← value fuel' (skip_ws r2);
                let acc := PyDict.set key v acc in
                match skip_ws r3 with
                | "," :: r4 => members fuel' (skip_ws r4) acc
                | "}" :: rest => Some (JDict acc, rest)
                | _ => None
                end
            | _ => None
            end
          else None
      | [] => None
      end
  end
with elements (fuel : nat) (s : list ascii) (acc : list json)
    : option (json * list ascii) :=
  match fuel with
  | O => None
  | S fuel' =>
      '(v, r1) ← value fuel' s;
      match skip_ws r1 with
      | "," :: r2 => elements fuel' (skip_ws r2) (acc ++ [v])
      | "]" :: rest => Some (JList (acc ++ [v]), rest)
      | _ => None
      end
  end.

(** [json.loads(text)]: one value between optional white space. *)
Definition loads (text : string) : option json :=
  let s := list_ascii_of_string text in
  '(v, rest) ← value (2 * length s + 2) (skip_ws s);
  match skip_ws rest with
  | [] => Some v
  | _ :: _ => None
  end.

Local Open Scope string_scope.

(** A required [str] field. *)
Definition required_str (kwargs : list (string * json)) (key : string)
    : option string :=
  match PyDict.lookup key kwargs with
  | Some (JStr s) => Some s
  | _ => None
  end.

(** An [Optional[str]] field with its default. *)
Definition optional_str (kwargs : list (string * json)) (key : string)
    (default : option string) : option (option string) :=
  match PyDict.lookup key kwargs with
  | None => Some default
  | Some JNull => Some None
  | Some (JStr s) => Some (Some s)
  | Some _ => None
  end.

Definition as_str (v : json) : option string :=
  match v with
  | JStr s => Some s
  | _ => None
  end.

(** A [List[str]] field, empty by default. *)
Definition str_list (kwargs : list (string * json)) (key : string)
    : option (list string) :=
  match PyDict.lookup key kwargs with
  | None => Some []
  | Some (JList items) => mapM as_str items
  | Some _ => None
  end.

(** An [Optional[Dict[str, str]]] field, [None] by default. *)
Definition optional_str_dict (kwargs : list (string * json)) (key : string)
    : option (option (list (string * string))) :=
  match PyDict.lookup key kwargs with
  | None | Some JNull => Some None
  | Some (JDict entries) =>
      Some <$> mapM (fun kv => pair (fst kv) <$> as_str (snd kv)) entries
  | Some _ => None
  end.

Definition Character_of (kwargs : list (string * json)) : option Character :=
  name ← required_str kwargs "name";
  description ← required_str kwargs "description";
  role ← required_str kwargs "role";
  background ← optional_str kwargs "background" None;
  motivations ← optional_str kwargs "motivations" None;
  relationships ← optional_str_dict kwargs "relationships";
  Some {| char_name := name; char_description := description;
          char_role := role; char_background := background;
          char_motivations := motivations;
          char_relationships := relationships |}.

Definition StorySettings_of (kwargs : list (string * json)) : option StorySettings :=
  genre ← required_str kwargs "genre";
  setting ← required_str kwargs "setting";
  tone ← required_str kwargs "tone";
  themes ← str_list kwargs "themes";
  world_building ← optional_str kwargs "world_building" None;
  target_length ← optional_str kwargs "target_length" (Some "medium");
  Some {| genre := genre; setting := setting; tone := tone; themes := themes;
          world_building := world_building; target_length := target_length |}.

Definition ChapterOutline_of (kwargs : list (string * json)) : option ChapterOutline :=
  chapter_number ←
    match PyDict.lookup "chapter_number" kwargs with
    | Some (JInt n) => Some n
    | _ => None
    end;
  title ← required_str kwargs "title";
  summary ← required_str kwargs "summary";
  key_events ← str_list kwargs "key_events";
  characters_involved ← str_list kwargs "characters_involved";
  purpose ← required_str kwargs "purpose";
  Some {| co_chapter_number := chapter_number; co_title := title;
          co_summary := summary; co_key_events := key_events;
          co_characters_involved := characters_involved;
          co_purpose := purpose |}.

Definition StoryOutline_of (title premise plot_structure : json)
    (chapters : list ChapterOutline) (estimated_word_count : json)
    : option StoryOutline :=
  title ← as_str title;
  premise ← as_str premise;
  plot_structure ← as_str plot_structure;
  estimated_word_count ←
    match estimated_word_count with
    | JNull => Some None
    | JInt n => Some (Some n)
    | _ => None
    end;
  Some {| so_title := title; so_premise := premise;
          so_plot_structure := plot_structure; so_chapters := chapters;
          so_estimated_word_count := estimated_word_count |}.

#[global] Instance lib : PyLib :=
  {| json_loads := loads;
     py_float := float_of_str;
     new_Character := Character_of;
     new_StorySettings := StorySettings_of;
     new_ChapterOutline := ChapterOutline_of;
     new_StoryOutline := StoryOutline_of |}.

End RefPy.

(** ** Runs of the service *)

(** The operations a caller runs on the service after it has created a
    workflow. *)
Inductive stage_op :=
| OpCharactersSettings (workflow_id : string) (additional_instructions : option string)
| OpOutline (workflow_id : string) (target_chapters : option Z)
    (additional_instructions : option string)
| OpChapter (workflow_id : string) (chapter_number : Z)
    (additional_instructions : option string)
| OpValidate (workflow_id : string) (chapter_number : Z)
| OpAllChapters (workflow_id : string) (additional_instructions : option string)
    (validation_threshold : option pyfloat).

(** The state an operation leaves, whether it returns or raises. *)
Definition run_op `{PyLib} (ollama : nat -> http_outcome) (op : stage_op)
    (s : state) : state :=
  match op with
  | OpCharactersSettings workflow_id additional_instructions =>
      snd (generate_characters_and_settings ollama workflow_id additional_instructions s)
  | OpOutline workflow_id target_chapters additional_instructions =>
      snd (generate_outline ollama workflow_id target_chapters additional_instructions s)
  | OpChapter workflow_id chapter_number additional_instructions =>
      snd (generate_chapter ollama workflow_id chapter_number additional_instructions s)
  | OpValidate workflow_id chapter_number =>
      snd (validate_chapter ollama workflow_id chapter_number s)
  | OpAllChapters workflow_id additional_instructions validation_threshold =>
      snd (generate_all_chapters_stream ollama workflow_id additional_instructions
             validation_threshold s)
  end.

Definition run_ops `{PyLib} (ollama : nat -> http_outcome) (ops : list stage_op)
    (s : state) : state :=
  fold_left (fun s op => run_op ollama op s) ops s.

(** The service as [StoryWorkflowService()] builds it. *)
Definition initial_state : state :=
  {| workflows := ∅; requests := []; clock := 0 |}.

(** ** Concrete runs

    The service run on scripted replies of the text-generation service,
    with the reference library. *)

Module Scenario.

Import RefPy.

(** The [k]-th request gets the [k]-th outcome of the script; past its
    end the service is unreachable. *)
Definition script (outcomes : list http_outcome) : nat -> http_outcome :=
  fun k => nth k outcomes (RequestFailed "All connection attempts failed").

(** A reply with status 200 whose body holds [text] as its response. *)
Definition reply (text : string) : http_outcome := HttpReply 200 "" (Some text).

Definition wf : string := "wf-1".

Definition request (temperature : pyfloat) : CreateWorkflowRequest :=
  {| req_prompt := "A lighthouse keeper finds a map";
     req_model := None;
     req_temperature := Some temperature;
     req_top_p := Some settings_py.DEFAULT_TOP_P |}.

(** JSON texts: a string between double quotes, an entry of an object,
    an object, an array. *)
Definition quoted (text : string) : string :=
  String "034" text +:+ String "034" EmptyString.

Definition entry (key value : string) : string := quoted key +:+ ": " +:+ value.

Definition object (entries : list string) : string :=
  "{" +:+ PyStr.join ", " entries +:+ "}".

Definition array (items : list string) : string :=
  "[" +:+ PyStr.join ", " items +:+ "]".

Definition characters_json : string :=
  "Here you go: " +:+
  object
    [entry "characters"
       (array [object [entry "name" (quoted "Ada");
                       entry "description" (quoted "The keeper");
                       entry "role" (quoted "protagonist")]]);
     entry "settings"
       (object [entry "genre" (quoted "Mystery");
                entry "setting" (quoted "A northern coast");
                entry "tone" (quoted "Moody");
                entry "themes" (array [quoted "solitude"])])].

Definition chapter_json (n title : string) : string :=
  object [entry "chapter_number" n; entry "title" (quoted title);
          entry "summary" (quoted "s");
          entry "key_events" (array [quoted "e"]);
          entry "characters_involved" (array [quoted "Ada"]);
          entry "purpose" (quoted "p")].

Definition outline_json (title : string) (chapters : list string) : string :=
  object [entry "title" (quoted title); entry "premise" (quoted "A map");
          entry "plot_structure" (quoted "Three acts");
          entry "chapters" (array chapters)].

(** An outline of two chapters, numbered 1 and 2. *)
Definition two_chapters : string :=
  outline_json "The Map" [chapter_json "1" "Arrival"; chapter_json "2" "The Storm"].

(** Another outline, of one chapter. *)
Definition one_chapter : string :=
  outline_json "Second Draft" [chapter_json "1" "Departure"].

(** An outline of three chapters whose second one is numbered 5. *)
Definition misnumbered : string :=
  outline_json "The Map"
    [chapter_json "1" "Arrival"; chapter_json "5" "The Storm";
     chapter_json "3" "The Map"].

(** The outline chapter that [chapter_json] writes. *)
Definition chapter (n : Z) (title : string) : ChapterOutline :=
  {| co_chapter_number := n; co_title := title; co_summary := "s";
     co_key_events := ["e"]; co_characters_involved := ["Ada"];
     co_purpose := "p" |}.

(** The state after a workflow was created with [temperature], then
    given its characters, settings and the outline of [outline_reply];
    the first two requests of the process are spent on that. *)
Definition outlined (ollama : nat -> http_outcome) (temperature : pyfloat) : state :=
  let s := (create_workflow wf (request temperature) initial_state).2 in
  let s := (generate_characters_and_settings ollama wf None s).2 in
  (generate_outline ollama wf None None s).2.

Definition the_workflow (s : state) : option StoryWorkflow := workflows s !! wf.

(** The stored workflow; a blank one when there is none. *)
Definition stored (s : state) : StoryWorkflow :=
  default
    {| id := ""; original_prompt := ""; current_step := CHARACTERS_SETTINGS;
       created_at := 0; updated_at := 0; characters := []; settings := None;
       outline := None; chapters := []; model := None;
       temperature := settings_py.DEFAULT_TEMPERATURE;
       top_p := settings_py.DEFAULT_TOP_P; total_chapters_planned := 0;
       chapters_completed := 0; is_complete := false |}
    (the_workflow s).

(** Characters and settings, an outline, then the first stage again. *)
Definition restart_replies : nat -> http_outcome :=
  script [reply characters_json; reply two_chapters; reply characters_json].

(** Characters and settings, an outline, then another outline. *)
Definition reoutline_replies : nat -> http_outcome :=
  script [reply characters_json; reply two_chapters; reply one_chapter].

(** A workflow just created. *)
Definition created (temperature : pyfloat) : state :=
  (create_workflow wf (request temperature) initial_state).2.

(** The service answers the first request with status 500. *)
Definition failing_replies : nat -> http_outcome :=
  script [HttpReply 500 "Internal Server Error" None].

(** The service cannot be reached. *)
Definition unreachable : nat -> http_outcome := script [].

(** The reply to the outline request has no JSON object in it. *)
Definition prose_outline_replies : nat -> http_outcome :=
  script [reply characters_json; reply "I cannot write an outline."].

(** Characters and settings, an outline of two chapters, the three texts
    of one chapter, then the reply to its validation. *)
Definition chapter_replies (validation_reply : string) : nat -> http_outcome :=
  script [reply characters_json; reply two_chapters;
          reply "Scene one."; reply "ADA: Who is there?";
          reply "The lamp turned over the water.";
          reply validation_reply].

(** The workflow outlined and its chapter 1 generated. *)
Definition drafted (validation_reply : string) (temperature : pyfloat) : state :=
  (generate_chapter (chapter_replies validation_reply) wf 1 None
     (outlined (chapter_replies validation_reply) temperature)).2.

Definition score_two : string :=
  "SCORE: 2" +:+ PyStr.NL +:+ "FEEDBACK: Better than asked for.".

Definition score_good : string :=
  "SCORE: 0.9" +:+ PyStr.NL +:+ "FEEDBACK: Follows the outline.".

(** Characters and settings, the misnumbered outline, the three texts
    of chapter 1 and the reply to its validation. *)
Definition misnumbered_replies : nat -> http_outcome :=
  script [reply characters_json; reply misnumbered;
          reply "Scene one."; reply "ADA: Who is there?";
          reply "The lamp turned over the water.";
          reply score_good].

(** The outline of the stored workflow. *)
Definition stored_outline (s : state) : StoryOutline :=
  default fallback_outline (outline (stored s)).

(** Characters and settings, the outline of one chapter, the three texts
    of that chapter. *)
Definition single_chapter_replies : nat -> http_outcome :=
  script [reply characters_json; reply one_chapter;
          reply "Scene one."; reply "ADA: Who is there?";
          reply "The lamp turned over the water."].

(** The workflow of one chapter with that chapter generated. *)
Definition all_generated : state :=
  (generate_chapter single_chapter_replies wf 1 None
     (outlined single_chapter_replies settings_py.DEFAULT_TEMPERATURE)).2.

End Scenario.

(** ** Tries of a chapter in the batch *)

#[global] Instance event_kind_eq_dec : EqDecision event_kind.
Proof. solve_decision. Defined.

(** One try of a chapter in the batch: the chapter stage, then the
    validation stage. *)
Definition try_chapter `{PyLib} (ollama : nat -> http_outcome)
    (workflow_id : string) (additional_instructions : option string)
    (chapter_number : Z) (s : state) : (exn + StoryWorkflow) * state :=
  match generate_chapter ollama workflow_id chapter_number additional_instructions s with
  | (inl e, s1) => (inl e, s1)
  | (inr _, s1) => validate_chapter ollama workflow_id chapter_number s1
  end.

(** Each of the next [tries] tries of the chapter raises, every try
    starting in the state the one before left. *)
Fixpoint raises_every_try `{PyLib} (ollama : nat -> http_outcome)
    (workflow_id : string) (additional_instructions : option string)
    (chapter_number : Z) (tries : nat) (s : state) : Prop :=
  match tries with
  | O => True
  | S tries' =>
      match try_chapter ollama workflow_id additional_instructions chapter_number s with
      | (inl _, s') =>
          raises_every_try ollama workflow_id additional_instructions
            chapter_number tries' s'
      | (inr _, _) => False
      end
  end.

(** The events of try number [attempt] of a chapter when the try raises
    [e]: the generating event, the validating event when the chapter
    stage had returned, then the retrying event, or the terminal error
    event once the attempts are over. *)
Definition failed_try_events (chapter_outline : ChapterOutline)
    (position total attempt : nat) (validated : bool) (e : exn) : list event :=
  let chapter_number := co_chapter_number chapter_outline in
  let chapter_title := co_title chapter_outline in
  EvGenerating chapter_number chapter_title position total attempt ::
  (if validated
   then [EvValidating chapter_number chapter_title position total attempt]
   else []) ++
  [if (attempt <=? max_regeneration_attempts)%nat
   then EvRetrying chapter_number chapter_title position total attempt e
   else EvFailed chapter_number chapter_title position total attempt e].

(** The events of successive failed tries, numbered from [attempt]. *)
Fixpoint failed_tries_events (chapter_outline : ChapterOutline)
    (position total attempt : nat) (tries : list (bool * exn)) : list event :=
  match tries with
  | [] => []
  | (validated, e) :: tries' =>
      failed_try_events chapter_outline position total attempt validated e ++
      failed_tries_events chapter_outline position total (S attempt) tries'
  end.

(** An event of a chapter whose position among the pending ones is above
    [low] and at most [high]; it is not a [complete] event. *)
Definition chapter_event_at (low high : nat) (e : event) : Prop :=
  kind_of e <> complete /\
  exists c, current_of e = Some c /\ (low < c <= high)%nat.

(** The batch over the pending chapters [before], the first ones of
    [pending]: its events, whether it was stopped, and the state it
    leaves. *)
Definition earlier_chapters `{PyLib} (ollama : nat -> http_outcome)
    (workflow_id : string) (additional_instructions : option string)
    (validation_threshold : option pyfloat) (pending before : list ChapterOutline)
    (s : state) : list event * bool * state :=
  chapters_loop ollama workflow_id additional_instructions
    (default settings_py.DEFAULT_VALIDATION_THRESHOLD validation_threshold)
    (length pending) before 0 s.

(** [alters wid P s s']: from [s] to [s'] the store changed at most at
    [wid], and there from a workflow [w] to one related to it by [P]. *)
Definition alters (wid : string) (P : StoryWorkflow -> StoryWorkflow -> Prop)
    (s s' : state) : Prop :=
  exists f, workflows s' = alter f wid (workflows s) /\
            forall w, workflows s !! wid = Some w -> P w (f w).

(** The chapter stages and the batch keep the step and the outline of
    every workflow. *)
Definition same_step_and_outline (w w' : StoryWorkflow) : Prop :=
  current_step w' = current_step w /\ outline w' = outline w.

(** What an operation does to the workflow stored at its id. *)
Definition op_effect (op : stage_op) (w w' : StoryWorkflow) : Prop :=
  match op with
  | OpCharactersSettings _ _ =>
      current_step w' = OUTLINE /\ outline w' = outline w
  | OpOutline _ _ _ =>
      w' = w \/
      (current_step w' = current_step w /\ outline w' = None) \/
      (current_step w' = CHAPTER_GENERATION /\ is_Some (outline w'))
  | OpChapter _ _ _ | OpValidate _ _ | OpAllChapters _ _ _ =>
      same_step_and_outline w w'
  end.

Definition op_workflow_id (op : stage_op) : string :=
  match op with
  | OpCharactersSettings wid _ | OpOutline wid _ _ | OpChapter wid _ _
  | OpValidate wid _ | OpAllChapters wid _ _ => wid
  end.

(** ** The store and the workflow endpoints of [routes.py] *)

(** [StoryWorkflowService.list_workflows]: the stored workflows. The
    order of the dict (the order of creation) is not kept by the map: the
    list stands for its elements. *)
Definition list_workflows : M (list StoryWorkflow) :=
  fun s => (inr ((map_to_list (workflows s)).*2), s).

(** What an endpoint answers: the body it returns (status 200), or the
    [HTTPException] it raises. *)
Inductive answer (A : Type) :=
| Body (body : A)
| HTTPException (status_code : Z) (detail : string).

Arguments Body {A} body.
Arguments HTTPException {A} status_code detail.

Definition status_of {A} (a : answer A) : Z :=
  match a with
  | Body _ => 200
  | HTTPException status_code _ => status_code
  end.

Record WorkflowResponse := {
  wr_workflow : StoryWorkflow;
  wr_message : string;
}.

Record WorkflowListResponse := {
  wl_workflows : list StoryWorkflow;
  wl_total : nat;
}.

(** The two handlers that every stage endpoint ends with:
    [except ValueError] answers 404 with the text of the exception,
    [except Exception] answers 500 with the text after [failed_to]. *)
Definition answer_exception {A} (failed_to : string) (e : exn) : answer A :=
  match e with
  | ValueError _ => HTTPException 404 (str_of_exn e)
  | _ => HTTPException 500 (failed_to +:+ ": " +:+ str_of_exn e)
  end.

(** [next(ch for ch in workflow.chapters if ch.chapter_number == n)];
    [None] is [StopIteration]. *)
Definition chapter_numbered (workflow : StoryWorkflow) (n : Z)
    : option GeneratedChapter :=
  existing_chapter_index (chapters workflow) n ≫= (fun i => chapters workflow !! i).

Section Routes.

Context `{PyLib}.
Variable ollama : nat -> http_outcome.

(** The text of a score under the format [.2f]. *)
Variable format_2f : pyfloat -> string.

(** [POST /workflow/create] *)
Definition create_story_workflow (uuid : string) (request : CreateWorkflowRequest)
    (s : state) : answer WorkflowResponse * state :=
  match create_workflow uuid request s with
  | (inr workflow, s') =>
      (Body {| wr_workflow := workflow;
               wr_message := "Workflow created successfully. Ready to generate characters and settings." |},
       s')
  | (inl e, s') =>
      (HTTPException 500 ("Failed to create workflow: " +:+ str_of_exn e), s')
  end.

(** [GET /workflow/{workflow_id}] *)
Definition get_workflow_route (workflow_id : string) (s : state)
    : answer WorkflowResponse * state :=
  match workflows s !! workflow_id with
  | None => (HTTPException 404 "Workflow not found", s)
  | Some workflow =>
      (Body {| wr_workflow := workflow;
               wr_message := "Workflow retrieved successfully" |}, s)
  end.

(** [GET /workflows] *)
Definition list_workflows_route (s : state) : answer WorkflowListResponse * state :=
  match list_workflows s with
  | (inr workflows, s') =>
      (Body {| wl_workflows := workflows; wl_total := length workflows |}, s')
  | (inl e, s') => (HTTPException 500 "Internal Server Error", s')
  end.

(** [POST /workflow/{workflow_id}/characters-settings] *)
Definition generate_characters_settings_route (workflow_id : string)
    (additional_instructions : option string) (s : state)
    : answer WorkflowResponse * state :=
  match generate_characters_and_settings ollama workflow_id
          additional_instructions s with
  | (inr workflow, s') =>
      (Body {| wr_workflow := workflow;
               wr_message :=
                 "Generated " +:+ pretty (length (characters workflow))
                 +:+ " characters and story settings. Ready to create outline." |},
       s')
  | (inl e, s') =>
      (answer_exception "Failed to generate characters/settings" e, s')
  end.

(** [POST /workflow/{workflow_id}/outline]; the message reads
    [workflow.outline.chapters] inside the [try]. *)
Definition generate_outline_route (workflow_id : string)
    (target_chapters : option Z) (additional_instructions : option string)
    (s : state) : answer WorkflowResponse * state :=
  match generate_outline ollama workflow_id target_chapters
          additional_instructions s with
  | (inr workflow, s') =>
      match outline workflow with
      | Some outline =>
          (Body {| wr_workflow := workflow;
                   wr_message :=
                     "Generated outline with "
                     +:+ pretty (length (so_chapters outline))
                     +:+ " chapters. Ready to generate chapters." |},
           s')
      | None =>
          (answer_exception "Failed to generate outline" (none_has_no "chapters"), s')
      end
  | (inl e, s') => (answer_exception "Failed to generate outline" e, s')
  end.

(** [POST /workflow/{workflow_id}/chapter/{chapter_number}] *)
Definition generate_chapter_route (workflow_id : string) (chapter_number : Z)
    (additional_instructions : option string) (s : state)
    : answer WorkflowResponse * state :=
  match generate_chapter ollama workflow_id chapter_number
          additional_instructions s with
  | (inr workflow, s') =>
      match chapter_numbered workflow chapter_number with
      | Some chapter =>
          (Body {| wr_workflow := workflow;
                   wr_message :=
                     "Generated Chapter " +:+ pretty chapter_number +:+ ": "
                     +:+ title chapter +:+ " (" +:+ pretty (word_count chapter)
                     +:+ " words)" |},
           s')
      | None => (answer_exception "Failed to generate chapter" StopIteration, s')
      end
  | (inl e, s') => (answer_exception "Failed to generate chapter" e, s')
  end.

(** [POST /workflow/{workflow_id}/chapter/{chapter_number}/validate];
    formatting a score that is [None] is a [TypeError], which the second
    handler answers. *)
Definition validate_chapter_route (workflow_id : string) (chapter_number : Z)
    (s : state) : answer WorkflowResponse * state :=
  match validate_chapter ollama workflow_id chapter_number s with
  | (inr workflow, s') =>
      match chapter_numbered workflow chapter_number with
      | Some chapter =>
          match validation_score chapter with
          | Some score =>
              (Body {| wr_workflow := workflow;
                       wr_message :=
                         "Chapter " +:+ pretty chapter_number
                         +:+ " validated. Score: " +:+ format_2f score |},
               s')
          | None =>
              (HTTPException 500
                 "Failed to validate chapter: unsupported format string passed to NoneType.__format__",
               s')
          end
      | None => (answer_exception "Failed to validate chapter" StopIteration, s')
      end
  | (inl e, s') => (answer_exception "Failed to validate chapter" e, s')
  end.

(** [DELETE /workflow/{workflow_id}] *)
Definition delete_workflow_route (workflow_id : string) (s : state)
    : answer string * state :=
  match workflows s !! workflow_id with
  | None => (HTTPException 404 "Workflow not found", s)
  | Some _ =>
      (Body "Workflow deleted successfully",
       with_workflows (delete workflow_id) s)
  end.

End Routes.

(** ** Calls of the service over its lifetime *)

(** A call on the service: the creation of a workflow ([uuid] is the
    identifier drawn for it), a stage, or a deletion. *)
Inductive api_call :=
| CallCreate (uuid : string) (request : CreateWorkflowRequest)
| CallStage (op : stage_op)
| CallDelete (workflow_id : string).

(** The state a call leaves, whether it returns or raises. *)
Definition run_call `{PyLib} (ollama : nat -> http_outcome) (call : api_call)
    (s : state) : state :=
  match call with
  | CallCreate uuid request => (create_workflow uuid request s).2
  | CallStage op => run_op ollama op s
  | CallDelete workflow_id => (delete_workflow workflow_id s).2
  end.

Definition run_calls `{PyLib} (ollama : nat -> http_outcome) (calls : list api_call)
    (s : state) : state :=
  fold_left (fun s call => run_call ollama call s) calls s.

(** What holds of a workflow stored under [key] in every state the
    service can reach. *)
Definition sound (key : string) (w : StoryWorkflow) : Prop :=
  id w = key /\
  is_complete w = false /\
  (exists name, model w = Some name /\ name <> "") /\
  chapters_completed w = length (chapters w) /\
  NoDup (map chapter_number (chapters w)) /\
  (forall o, outline w = Some o ->
             total_chapters_planned w = length (so_chapters o) /\
             is_Some (settings w)).

(** Two chapter entries that differ at most in their validation score
    and feedback. *)
Definition same_but_validation (ch ch' : GeneratedChapter) : Prop :=
  chapter_number ch' = chapter_number ch /\ title ch' = title ch /\
  gc_outline ch' = gc_outline ch /\ dialogue ch' = dialogue ch /\
  content ch' = content ch /\ word_count ch' = word_count ch.

(** ** The stream of the batch *)

(** An event that ends the stream: a [complete] event or the error
    event. *)
Definition terminal (e : event) : Prop :=
  kind_of e = complete \/ kind_of e = error_failed.

(** From [s] to [s'] at most [n] requests were sent, and none was
    forgotten. *)
Definition sent_at_most (n : nat) (s s' : state) : Prop :=
  exists sent, requests s' = requests s ++ sent /\ (length sent <= n)%nat.

(** From [w] to [w'] the outline is the same and no chapter number was
    lost. *)
Definition keeps_chapters (w w' : StoryWorkflow) : Prop :=
  outline w' = outline w /\
  forall n, n ∈ map chapter_number (chapters w) ->
            n ∈ map chapter_number (chapters w').

(** Each of the next [tries] tries of the chapter returns, and the score
    stored for the chapter is under the threshold, every try starting in
    the state the one before left. *)
Fixpoint scores_below_every_try `{PyLib} (ollama : nat -> http_outcome)
    (workflow_id : string) (additional_instructions : option string)
    (validation_threshold : pyfloat) (chapter_number : Z) (tries : nat)
    (s : state) : Prop :=
  match tries with
  | O => True
  | S tries' =>
      match try_chapter ollama workflow_id additional_instructions chapter_number s with
      | (inr workflow, s') =>
          match chapter_numbered workflow chapter_number with
          | Some chapter =>
              PyFloat.ge (score_or_zero (validation_score chapter))
                validation_threshold = false
          | None => False
          end /\
          scores_below_every_try ollama workflow_id additional_instructions
            validation_threshold chapter_number tries' s'
      | (inl _, _) => False
      end
  end.

(** The events of try number [attempt] of a chapter whose score is under
    the threshold: the generating event, the validating event, then the
    regenerating event, or the warning that completes the chapter once
    the attempts are over. *)
Definition low_try_events (chapter_outline : ChapterOutline)
    (position total attempt : nat) (validation_threshold score : pyfloat)
    (words : nat) : list event :=
  let chapter_number := co_chapter_number chapter_outline in
  let chapter_title := co_title chapter_outline in
  [EvGenerating chapter_number chapter_title position total attempt;
   EvValidating chapter_number chapter_title position total attempt;
   if (attempt <=? max_regeneration_attempts)%nat
   then EvRegenerating chapter_number chapter_title position total score
          validation_threshold attempt
   else EvCompletedWithWarning chapter_number chapter_title position total score
          validation_threshold attempt words].

(** The events of successive tries under the threshold, numbered from
    [attempt]; each try comes with its score and its word count. *)
Fixpoint low_tries_events (chapter_outline : ChapterOutline)
    (position total : nat) (validation_threshold : pyfloat) (attempt : nat)
    (tries : list (pyfloat * nat)) : list event :=
  match tries with
  | [] => []
  | (score, words) :: tries' =>
      low_try_events chapter_outline position total attempt
        validation_threshold score words ++
      low_tries_events chapter_outline position total validation_threshold
        (S attempt) tries'
  end.

(** Characters and settings, an outline of two chapters, then four tries
    of chapter 1, each validated with a score of 0.2. *)
Definition low_score_replies : nat -> http_outcome :=
  let try :=
    [Scenario.reply "Scene one."; Scenario.reply "ADA: Who is there?";
     Scenario.reply "The lamp turned over the water.";
     Scenario.reply ("SCORE: 0.2" +:+ PyStr.NL +:+ "FEEDBACK: Off the outline.")] in
  Scenario.script
    ([Scenario.reply Scenario.characters_json;
      Scenario.reply Scenario.two_chapters] ++ try ++ try ++ try ++ try).

(** ** [OllamaService.generate_story_stream] and the streaming endpoint *)

(** What the streamed POST to [/api/generate] comes to: the request
    fails before a response; a response whose status is not 200, with
    the text Python shows for the bytes of its body; or a response of
    status 200 read line by line, where [broken], if any, is the text of
    the exception that the transport raises once [lines] have been
    read. *)
Inductive stream_outcome :=
| StreamFailed (reason : string)
| StreamRefused (status_code : Z) (body_repr : string)
| StreamLines (lines : list string) (broken : option string).

(** [bool(v)] on a decoded value *)
Definition json_truthy (v : json) : bool :=
  match v with
  | JNull => false
  | JBool b => b
  | JInt n => negb (n =? 0)
  | JFloat x => PyFloat.truthy x
  | JStr s => negb (String.eqb s "")
  | JList items => match items with [] => false | _ => true end
  | JDict entries => match entries with [] => false | _ => true end
  end.

(** [StoryChunk] *)
Record StoryChunk := {
  sc_content : string;
  sc_is_complete : bool;
}.

Section Stream.

Context `{PyLib}.

(** The text of the exception that Python raises when a decoded line
    that is not an object is used as one, by [in], by the subscript or
    by [get]. *)
Variable misuse_text : json -> string.

(** The [async for] over the lines: the fragments it yields, and the
    text of the exception that leaves it, if one does. A blank line is
    passed over, a line that does not decode is skipped by the handler
    of [JSONDecodeError], and a line whose ["done"] entry is true ends
    the loop. *)
Fixpoint aiter_lines (lines : list string) (broken : option string)
    : list json * option string :=
  match lines with
  | [] => ([], broken)
  | line :: rest =>
      if String.eqb (PyStr.strip line) "" then aiter_lines rest broken
      else
        match json_loads line with
        | None => aiter_lines rest broken
        | Some (JDict data) =>
            let yielded :=
              match PyDict.lookup "response" data with
              | Some response => [response]
              | None => []
              end in
            if json_truthy (PyDict.get data "done" (JBool false)) then
              (yielded, None)
            else
              let '(later, e) := aiter_lines rest broken in
              (yielded ++ later, e)
        | Some data => ([], Some (misuse_text data))
        end
  end.

(** [OllamaService.generate_story_stream]: the fragments it yields when
    it is consumed to its end. Every exception is caught by its handler,
    which yields one last fragment, the text of the error. The payload
    of the request, which differs from the one of
    [generate_story_complete] by its [stream] entry, is left out. *)
Definition generate_story_stream (outcome : stream_outcome) : list json :=
  match outcome with
  | StreamFailed reason => [JStr ("Error: " +:+ reason)]
  | StreamRefused status_code body_repr =>
      [JStr ("Error: " +:+ ("Ollama API error: " +:+ pretty status_code
                            +:+ " - " +:+ body_repr))]
  | StreamLines lines broken =>
      let '(fragments, e) := aiter_lines lines broken in
      fragments ++
      match e with
      | Some text => [JStr ("Error: " +:+ text)]
      | None => []
      end
  end.

(** The text of the error of [StoryChunk(content=v)] for a [v] that is
    not a string. *)
Variable validation_text : json -> string.

(** [stream_generator] of the endpoint [POST /generate/stream], as the
    chunks it sends: one chunk for each fragment, then the completion
    chunk; a fragment that is not a string raises in the constructor of
    the chunk, and the handler sends the error as the last chunk. *)
Fixpoint stream_generator (fragments : list json) : list StoryChunk :=
  match fragments with
  | [] => [{| sc_content := ""; sc_is_complete := true |}]
  | JStr chunk :: rest =>
      {| sc_content := chunk; sc_is_complete := false |} :: stream_generator rest
  | v :: _ =>
      [{| sc_content := "Error: " +:+ validation_text v; sc_is_complete := true |}]
  end.

(** [POST /generate/stream] *)
Definition generate_story_stream_route (outcome : stream_outcome)
    : list StoryChunk :=
  stream_generator (generate_story_stream outcome).

End Stream.

(** A line that the loop reads: not blank, and decoded by [json.loads]. *)
Definition decodes `{PyLib} (line : string) : bool :=
  negb (String.eqb (PyStr.strip line) "") &&
  match json_loads line with
  | Some _ => true
  | None => false
  end.

(** * Properties *)

(** ** What each stage does to the store *)

Section StageLemmas.

Context `{PyLib}.
Variable ollama : nat -> http_outcome.

Lemma lookup_alter_Some (f : StoryWorkflow -> StoryWorkflow) wid
    (m : gmap string StoryWorkflow) w :
  m !! wid = Some w -> alter f wid m !! wid = Some (f w).
Proof. intros Hw. rewrite lookup_alter_eq, Hw. reflexivity. Qed.

Lemma alter_alter (f g : StoryWorkflow -> StoryWorkflow) wid
    (m : gmap string StoryWorkflow) :
  alter f wid (alter g wid m) = alter (f ∘ g) wid m.
Proof.
  apply map_eq; intros i. destruct (decide (wid = i)) as [->|Hne].
  - rewrite !lookup_alter_eq. destruct (m !! i); reflexivity.
  - rewrite !lookup_alter_ne by assumption. reflexivity.
Qed.

Ltac unfold_stage :=
  unfold generate_characters_and_settings, generate_outline, generate_chapter,
    validate_chapter, _generate_chapter_outline, _generate_chapter_dialogue,
    _generate_chapter_content, _build_outline_prompt, return_workflow,
    workflow_not_found, generate_story_complete, bind, ret, raise,
    get_workflow, assign, now, with_workflows, record_request; cbn.

(** [generate_chapter] either raises and leaves the state as it was, or
    returns after it has stored one generated chapter. *)
Lemma generate_chapter_outcome wid n addl s :
  (exists e, generate_chapter ollama wid n addl s = (inl e, s)) \/
  (exists w o co g t s',
      generate_chapter ollama wid n addl s
        = (inr (set_updated_at t (store_chapter g w)), s') /\
      workflows s' = alter (set_updated_at t ∘ store_chapter g) wid (workflows s) /\
      workflows s !! wid = Some w /\ outline w = Some o /\
      (n <= Z.of_nat (length (so_chapters o))) /\
      py_index (so_chapters o) (n - 1) = Some co /\
      is_Some (settings w) /\
      chapter_number g = n /\ title g = co_title co /\
      validation_score g = None /\
      gc_outline g = completion_text (ollama (length (requests s)))).
Proof.
  unfold_stage.
  destruct (workflows s !! wid) as [w|] eqn:Hw; [|left; eauto].
  destruct (outline w) as [o|] eqn:Ho; [|left; eauto].
  destruct (n >? _) eqn:Hn; [left; eauto|].
  destruct (py_index _ _) as [co|] eqn:Hco; [|left; eauto].
  destruct (settings w) as [st|] eqn:Hst; [|left; eauto].
  cbn. right. rewrite !alter_alter.
  rewrite (lookup_alter_Some _ _ _ _ Hw).
  eexists w, o, co, _, _, _.
  split; [reflexivity|]. cbn.
  repeat split; eauto; lia.
Qed.

(** [validate_chapter] either raises and leaves the state as it was, or
    sends one request and returns after it has stored the score and the
    feedback parsed from the reply. *)
Lemma validate_chapter_outcome wid n s :
  (exists e, validate_chapter ollama wid n s = (inl e, s)) \/
  (exists w i chapter o co t s',
      validate_chapter ollama wid n s
        = (inr (set_updated_at t
                  (store_validation n
                     (_parse_validation_response
                        (completion_text (ollama (length (requests s))))).1
                     (_parse_validation_response
                        (completion_text (ollama (length (requests s))))).2 w)), s') /\
      workflows s' =
        alter (set_updated_at t ∘
               store_validation n
                 (_parse_validation_response
                    (completion_text (ollama (length (requests s))))).1
                 (_parse_validation_response
                    (completion_text (ollama (length (requests s))))).2)
          wid (workflows s) /\
      requests s' =
        requests s ++
          [build_payload (_build_validation_prompt co chapter) (model w)
             validation_temperature (top_p w) (Some SYSTEM_STORY_EDITOR)] /\
      workflows s !! wid = Some w /\
      existing_chapter_index (chapters w) n = Some i /\
      chapters w !! i = Some chapter /\
      outline w = Some o /\
      py_index (so_chapters o) (n - 1) = Some co).
Proof.
  unfold_stage.
  destruct (workflows s !! wid) as [w|] eqn:Hw; [|left; eauto].
  destruct (existing_chapter_index (chapters w) n) as [i|] eqn:Hi; cbn;
    [|left; eauto].
  destruct (chapters w !! i) as [chapter|] eqn:Hch; [|left; eauto].
  destruct (outline w) as [o|] eqn:Ho; [|left; eauto].
  destruct (py_index _ _) as [co|] eqn:Hco; [|left; eauto].
  destruct (_parse_validation_response _) as [score feedback] eqn:Hparse.
  cbn. right. rewrite !alter_alter.
  rewrite (lookup_alter_Some _ _ _ _ Hw).
  eexists w, i, chapter, o, co, _, _.
  split; [reflexivity|]. cbn. repeat split; eauto.
Qed.

(** [generate_characters_and_settings] raises only when the workflow is
    unknown; otherwise it returns, with the characters and the settings
    parsed from the reply stored and the step set to [OUTLINE]. *)
Lemma generate_characters_and_settings_outcome wid addl s :
  (exists e, generate_characters_and_settings ollama wid addl s = (inl e, s) /\
             workflows s !! wid = None) \/
  (exists w t s',
      let parsed :=
        _parse_characters_settings_response
          (completion_text (ollama (length (requests s)))) in
      let f := set_updated_at t ∘ set_current_step OUTLINE ∘
               set_settings (Some parsed.2) ∘ set_characters parsed.1 in
      generate_characters_and_settings ollama wid addl s = (inr (f w), s') /\
      workflows s' = alter f wid (workflows s) /\
      workflows s !! wid = Some w).
Proof.
  unfold_stage.
  destruct (workflows s !! wid) as [w|] eqn:Hw; [|left; eauto].
  destruct (_parse_characters_settings_response _) as [cs st] eqn:Hparse.
  cbn. right. rewrite !alter_alter.
  rewrite (lookup_alter_Some _ _ _ _ Hw).
  eexists w, _, _. cbn.
  split; [reflexivity|]. cbn. split; [reflexivity|]. reflexivity.
Qed.

(** [generate_outline] raises on an unknown workflow or a missing
    prerequisite and leaves the state as it was; or the parser gave
    [None], which is stored before the count of its chapters raises; or
    it returns with the parsed outline stored. *)
Lemma generate_outline_outcome wid target addl s :
  (exists e, generate_outline ollama wid target addl s = (inl e, s)) \/
  (exists w e s',
      generate_outline ollama wid target addl s = (inl e, s') /\
      workflows s' = alter (set_outline None) wid (workflows s) /\
      workflows s !! wid = Some w /\
      _parse_outline_response (completion_text (ollama (length (requests s))))
        = None) \/
  (exists w parsed t s',
      let f := set_updated_at t ∘ set_current_step CHAPTER_GENERATION ∘
               set_total_chapters_planned (length (so_chapters parsed)) ∘
               set_outline (Some parsed) in
      generate_outline ollama wid target addl s = (inr (f w), s') /\
      workflows s' = alter f wid (workflows s) /\
      workflows s !! wid = Some w /\
      characters w <> [] /\ is_Some (settings w) /\
      _parse_outline_response (completion_text (ollama (length (requests s))))
        = Some parsed).
Proof.
  unfold_stage.
  destruct (workflows s !! wid) as [w|] eqn:Hw; [|left; eauto].
  destruct (characters w) as [|c cs] eqn:Hcs; [left; eauto|].
  destruct (settings w) as [st|] eqn:Hst; [|left; eauto].
  cbn.
  destruct (_parse_outline_response _) as [parsed|] eqn:Hparse; cbn.
  - right; right. rewrite !alter_alter.
    rewrite (lookup_alter_Some _ _ _ _ Hw).
    eexists w, parsed, _, _. cbn.
    split; [reflexivity|]. cbn.
    repeat split; rewrite ?Hcs, ?Hst; eauto; discriminate.
  - right; left. eexists w, _, _. split; [reflexivity|]. cbn. eauto.
Qed.

(** *** Stores that change at one workflow only *)

Lemma alters_lookup wid P s s' wid' w :
  alters wid P s s' ->
  workflows s !! wid' = Some w ->
  exists w', workflows s' !! wid' = Some w' /\
             (wid' = wid /\ P w w' \/ wid' <> wid /\ w' = w).
Proof.
  intros (f & Hf & HP) Hw. rewrite Hf.
  destruct (decide (wid' = wid)) as [->|Hne].
  - exists (f w). split; [apply lookup_alter_Some, Hw|]. left. auto.
  - exists w. split; [|right; auto].
    rewrite lookup_alter_ne by congruence. exact Hw.
Qed.

Lemma alters_lookup_inv wid P s s' wid' w' :
  alters wid P s s' ->
  workflows s' !! wid' = Some w' ->
  exists w, workflows s !! wid' = Some w /\
            (wid' = wid /\ P w w' \/ wid' <> wid /\ w' = w).
Proof.
  intros (f & Hf & HP) Hw'. rewrite Hf in Hw'.
  destruct (decide (wid' = wid)) as [->|Hne].
  - rewrite lookup_alter_eq in Hw'.
    destruct (workflows s !! wid) as [w|] eqn:Hw; [|discriminate].
    injection Hw' as <-. exists w. split; [reflexivity|]. left. auto.
  - rewrite lookup_alter_ne in Hw' by congruence.
    exists w'. split; [exact Hw'|]. right. auto.
Qed.

Lemma alters_weaken wid (P Q : StoryWorkflow -> StoryWorkflow -> Prop) s s' :
  (forall w w', P w w' -> Q w w') -> alters wid P s s' -> alters wid Q s s'.
Proof. intros HPQ (f & Hf & HP). exists f. split; auto. Qed.

Section Preorder.

Variable wid : string.
Variable P : StoryWorkflow -> StoryWorkflow -> Prop.
Hypothesis P_refl : forall w, P w w.
Hypothesis P_trans : forall a b c, P a b -> P b c -> P a c.

Lemma alters_refl s : alters wid P s s.
Proof.
  exists (fun w => w). split; [|auto].
  symmetry. apply alter_id. reflexivity.
Qed.

Lemma alters_trans s1 s2 s3 :
  alters wid P s1 s2 -> alters wid P s2 s3 -> alters wid P s1 s3.
Proof.
  intros (f & Hf & HPf) (g & Hg & HPg). exists (g ∘ f). split.
  - rewrite Hg, Hf. apply alter_alter.
  - intros w Hw. cbn. apply P_trans with (f w); [auto|].
    apply HPg. rewrite Hf. apply lookup_alter_Some, Hw.
Qed.

(** A relation that the storing of a chapter and the storing of a
    validation respect is respected by the chapter stages and by the
    whole batch. *)
Hypothesis P_chapter :
  forall w g t, P w (set_updated_at t (store_chapter g w)).
Hypothesis P_validation :
  forall w n score feedback t,
    P w (set_updated_at t (store_validation n score feedback w)).

Lemma generate_chapter_alters n addl s :
  alters wid P s (generate_chapter ollama wid n addl s).2.
Proof.
  destruct (generate_chapter_outcome wid n addl s)
    as [(e & ->)|(w & o & co & g & t & s' & -> & Hs' & _)]; cbn.
  - apply alters_refl.
  - eexists. split; [exact Hs'|]. intros w' _. apply P_chapter.
Qed.

Lemma validate_chapter_alters n s :
  alters wid P s (validate_chapter ollama wid n s).2.
Proof.
  destruct (validate_chapter_outcome wid n s)
    as [(e & ->)|(w & i & ch & o & co & t & s' & -> & Hs' & _)]; cbn.
  - apply alters_refl.
  - eexists. split; [exact Hs'|]. intros w' _. apply P_validation.
Qed.

Lemma attempt_chapter_alters addl threshold total co i k s :
  alters wid P s (attempt_chapter ollama wid addl threshold total co i k s).2.
Proof.
  unfold attempt_chapter.
  pose proof (generate_chapter_alters (co_chapter_number co) addl s) as Hg.
  destruct (generate_chapter _ _ _ _ s) as [[e|w1] s1]; cbn in Hg.
  { destruct (on_exception _ _ _ _ _); exact Hg. }
  pose proof (validate_chapter_alters (co_chapter_number co) s1) as Hv.
  destruct (validate_chapter _ _ _ s1) as [[e|w2] s2]; cbn in Hv.
  { destruct (on_exception _ _ _ _ _); cbn. eapply alters_trans; eauto. }
  assert (alters wid P s s2) as Hs2 by (eapply alters_trans; eauto).
  destruct (_ ≫= _); [|destruct (on_exception _ _ _ _ _); exact Hs2].
  destruct (PyFloat.ge _ _); [exact Hs2|].
  destruct (_ <=? _)%nat; exact Hs2.
Qed.

Lemma chapter_loop_alters addl threshold total fuel co i k s :
  alters wid P s
    (chapter_loop ollama wid addl threshold total fuel co i k s).2.
Proof.
  revert k s. induction fuel as [|fuel IH]; intros k s; cbn.
  - apply alters_refl.
  - destruct (_ <=? _)%nat; [|apply alters_refl].
    pose proof (attempt_chapter_alters addl threshold total co i k s) as Ha.
    destruct (attempt_chapter _ _ _ _ _ _ _ _ s) as [[events r] s1]; cbn in Ha.
    destruct r; cbn; try exact Ha.
    specialize (IH (S k) s1).
    destruct (chapter_loop _ _ _ _ _ _ _ _ _ s1) as [[later stopped] s2].
    cbn in *. eapply alters_trans; eauto.
Qed.

Lemma chapters_loop_alters addl threshold total pending i s :
  alters wid P s
    (chapters_loop ollama wid addl threshold total pending i s).2.
Proof.
  revert i s. induction pending as [|co rest IH]; intros i s;
    cbn [chapters_loop].
  - apply alters_refl.
  - pose proof (chapter_loop_alters addl threshold total
                  (S max_regeneration_attempts) co i 0 s) as Hc.
    destruct (chapter_loop _ _ _ _ _ _ _ _ _ s) as [[events stopped] s1].
    cbn in Hc. destruct stopped; [exact Hc|].
    specialize (IH (S i) s1).
    destruct (chapters_loop _ _ _ _ _ _ _ s1) as [[later stopped] s2].
    cbn in *. eapply alters_trans; eauto.
Qed.

Lemma generate_all_chapters_stream_alters addl threshold s :
  alters wid P s (generate_all_chapters_stream ollama wid addl threshold s).2.
Proof.
  unfold generate_all_chapters_stream.
  destruct (workflows s !! wid) as [w|]; [|apply alters_refl].
  destruct (outline w) as [o|]; [|apply alters_refl].
  destruct (chapters_to_generate w o) as [|co rest] eqn:Hp; [apply alters_refl|].
  rewrite <- Hp.
  pose proof (chapters_loop_alters addl
                (default settings_py.DEFAULT_VALIDATION_THRESHOLD threshold)
                (length (chapters_to_generate w o))
                (chapters_to_generate w o) 0 s) as Hl.
  destruct (chapters_loop _ _ _ _ _ _ _ s) as [[events stopped] s1].
  destruct stopped; exact Hl.
Qed.

End Preorder.

(** *** The fields each stage leaves alone *)

Lemma store_chapter_keeps g w :
  current_step (store_chapter g w) = current_step w /\
  outline (store_chapter g w) = outline w /\
  settings (store_chapter g w) = settings w /\
  temperature (store_chapter g w) = temperature w.
Proof. unfold store_chapter. destruct (existing_chapter_index _ _); auto. Qed.

Lemma store_validation_keeps n score feedback w :
  current_step (store_validation n score feedback w) = current_step w /\
  outline (store_validation n score feedback w) = outline w /\
  settings (store_validation n score feedback w) = settings w /\
  temperature (store_validation n score feedback w) = temperature w /\
  chapters_completed (store_validation n score feedback w) = chapters_completed w.
Proof. unfold store_validation. destruct (existing_chapter_index _ _); auto. Qed.

Lemma chapter_stages_keep_step_and_outline :
  (forall w, same_step_and_outline w w) /\
  (forall a b c, same_step_and_outline a b -> same_step_and_outline b c ->
                 same_step_and_outline a c) /\
  (forall w g t, same_step_and_outline w (set_updated_at t (store_chapter g w))) /\
  (forall w n score feedback t,
      same_step_and_outline w
        (set_updated_at t (store_validation n score feedback w))).
Proof.
  unfold same_step_and_outline.
  split; [auto|]. split; [intros a b c [? ?] [? ?]; split; congruence|].
  split; intros; cbn.
  - split; apply store_chapter_keeps.
  - split; apply store_validation_keeps.
Qed.

Lemma run_op_alters op s :
  alters (op_workflow_id op) (op_effect op) s (run_op ollama op s).
Proof.
  destruct chapter_stages_keep_step_and_outline as (Hr & Ht & Hc & Hv).
  destruct op as [wid addl|wid target addl|wid n addl|wid n|wid addl thr];
    cbn [run_op op_workflow_id op_effect].
  - destruct (generate_characters_and_settings_outcome wid addl s)
      as [(e & -> & Hnone)|(w & t & s' & Hrun & Hs' & Hw)].
    + exists (fun w => w). split.
      * symmetry. apply alter_id. reflexivity.
      * intros w Hw. cbn in Hw. congruence.
    + cbn zeta in Hrun. rewrite Hrun. eexists. split; [exact Hs'|].
      intros w' _. cbn. auto.
  - destruct (generate_outline_outcome wid target addl s)
      as [(e & ->)|[(w & e & s' & -> & Hs' & Hw & _)
                   |(w & parsed & t & s' & Hrun & Hs' & Hw & _)]].
    + exists (fun w => w). split; [|intros w _; left; reflexivity].
      symmetry. apply alter_id. reflexivity.
    + eexists. split; [exact Hs'|]. intros w' _. cbn. auto.
    + cbn zeta in Hrun. rewrite Hrun. eexists. split; [exact Hs'|].
      intros w' _. cbn. right; right. eauto.
  - apply generate_chapter_alters; assumption.
  - apply validate_chapter_alters; assumption.
  - apply generate_all_chapters_stream_alters; assumption.
Qed.

End StageLemmas.

(** ** The step of a workflow *)

(** The step that the outline stage leaves: ChapterGeneration on the
    workflow it ran on when it returns; the step as it was on that
    workflow when it raises, and on every other workflow. *)
Lemma generate_outline_step `{PyLib} (ollama : nat -> http_outcome)
    (wid0 : string) (target : option Z) (addl : option string) (s : state)
    (wid : string) (w w' : StoryWorkflow) :
  workflows s !! wid = Some w ->
  workflows (generate_outline ollama wid0 target addl s).2 !! wid = Some w' ->
  current_step w'
  = if decide (wid0 = wid)
    then match returned (generate_outline ollama wid0 target addl s) with
         | Some _ => CHAPTER_GENERATION
         | None => current_step w
         end
    else current_step w.
Proof.
  intros Hw.
  destruct (generate_outline_outcome ollama wid0 target addl s)
    as [(e & ->)|[(w0 & e & s' & -> & Hs' & Hw0 & _)
                 |(w0 & parsed & t & s' & Hrun & Hs' & Hw0 & _)]];
    unfold returned; cbn [fst snd].
  - rewrite Hw. intros [= <-]. destruct (decide (wid0 = wid)); reflexivity.
  - rewrite Hs'. destruct (decide (wid0 = wid)) as [->|Hne].
    + rewrite (lookup_alter_Some _ _ _ _ Hw). intros [= <-]. reflexivity.
    + rewrite lookup_alter_ne, Hw by assumption. intros [= <-]. reflexivity.
  - cbn zeta in Hrun, Hs'. rewrite Hrun. cbn [fst snd]. rewrite Hs'.
    destruct (decide (wid0 = wid)) as [->|Hne].
    + rewrite (lookup_alter_Some _ _ _ _ Hw). intros [= <-]. reflexivity.
    + rewrite lookup_alter_ne, Hw by assumption. intros [= <-]. reflexivity.
Qed.

(** C1, as the code has it. For every workflow whose [current_step] is
    one of the three steps the service ever assigns (CharactersSettings,
    Outline, ChapterGeneration) and every stage operation, the workflow
    stays stored and its step stays among these three; the outline stage
    never moves the step backward: it sets ChapterGeneration on its
    workflow when it returns, and leaves the step as it was when it
    raises and on every other workflow; the chapter stage, the validation
    stage and the batch never change it; the characters/settings stage
    has no guard on the step and sets it to Outline whenever it runs on
    the workflow, whatever the step was. *)
Theorem current_step_after_stage `{PyLib} (ollama : nat -> http_outcome)
    (op : stage_op) (s : state) (wid : string) (w : StoryWorkflow) :
  workflows s !! wid = Some w ->
  (step_rank (current_step w) <= 2)%nat ->
  exists w', workflows (run_op ollama op s) !! wid = Some w' /\
    (step_rank (current_step w') <= 2)%nat /\
    match op with
    | OpCharactersSettings wid0 _ =>
        current_step w' = if decide (wid0 = wid) then OUTLINE else current_step w
    | OpOutline wid0 target_chapters additional_instructions =>
        (step_rank (current_step w) <= step_rank (current_step w'))%nat /\
        current_step w'
        = if decide (wid0 = wid)
          then match returned (generate_outline ollama wid0 target_chapters
                                 additional_instructions s) with
               | Some _ => CHAPTER_GENERATION
               | None => current_step w
               end
          else current_step w
    | OpChapter _ _ _ | OpValidate _ _ | OpAllChapters _ _ _ =>
        current_step w' = current_step w
    end.
Proof.
  intros Hw Hrank.
  destruct (alters_lookup _ _ _ _ wid w (run_op_alters ollama op s) Hw)
    as (w' & Hw' & Heff).
  exists w'. split; [exact Hw'|].
  destruct op as [wid0 addl|wid0 target addl|wid0 n addl|wid0 n|wid0 addl thr];
    cbn [op_workflow_id op_effect] in Heff.
  - destruct (decide (wid0 = wid)) as [->|Hne].
    + destruct Heff as [(_ & Hstep & _)|(Hne & _)]; [|congruence].
      rewrite Hstep. cbn. split; [lia|reflexivity].
    + destruct Heff as [(-> & _)|(_ & ->)]; [congruence|]. auto.
  - split; [|split; [|exact (generate_outline_step ollama wid0 target addl s
                                wid w w' Hw Hw')]].
    + destruct Heff as [(_ & [->|[(Hstep & _)|(Hstep & _)]])|(_ & ->)];
        rewrite ?Hstep; cbn; lia.
    + destruct Heff as [(_ & [->|[(Hstep & _)|(Hstep & _)]])|(_ & ->)];
        rewrite ?Hstep; cbn; lia.
  - destruct Heff as [(_ & Hstep & _)|(_ & ->)]; [rewrite Hstep|]; auto.
  - destruct Heff as [(_ & Hstep & _)|(_ & ->)]; [rewrite Hstep|]; auto.
  - destruct Heff as [(_ & Hstep & _)|(_ & ->)]; [rewrite Hstep|]; auto.
Qed.

Lemma current_step_after_stage_witness :
  let s := Scenario.outlined Scenario.restart_replies settings_py.DEFAULT_TEMPERATURE in
  workflows s !! Scenario.wf = Some (Scenario.stored s) /\
  (step_rank (current_step (Scenario.stored s)) <= 2)%nat /\
  exists w',
    workflows (run_op Scenario.restart_replies
                 (OpCharactersSettings Scenario.wf None) s) !! Scenario.wf = Some w' /\
    (step_rank (current_step w') <= 2)%nat /\
    current_step w' =
      if decide (Scenario.wf = Scenario.wf) then OUTLINE
      else current_step (Scenario.stored s).
Proof.
  cbv zeta.
  assert (workflows (Scenario.outlined Scenario.restart_replies
                       settings_py.DEFAULT_TEMPERATURE) !! Scenario.wf
          = Some (Scenario.stored
                    (Scenario.outlined Scenario.restart_replies
                       settings_py.DEFAULT_TEMPERATURE))) as Hw
    by (vm_compute; reflexivity).
  assert (step_rank (current_step
            (Scenario.stored
               (Scenario.outlined Scenario.restart_replies
                  settings_py.DEFAULT_TEMPERATURE))) <= 2)%nat as Hrank
    by (vm_compute; lia).
  split; [exact Hw|]. split; [exact Hrank|].
  exact (current_step_after_stage Scenario.restart_replies
           (OpCharactersSettings Scenario.wf None) _ _ _ Hw Hrank).
Defined.

(** The outline stage on a workflow at step Outline: when it returns the
    step is ChapterGeneration; when it raises, here on a reply without a
    brace, the step is still Outline. *)
Example outline_stage_sets_chapter_generation :
  let ready replies :=
    (generate_characters_and_settings replies Scenario.wf None
       (Scenario.created settings_py.DEFAULT_TEMPERATURE)).2 in
  current_step <$> Scenario.the_workflow (ready Scenario.restart_replies)
  = Some OUTLINE /\
  current_step <$>
    returned (generate_outline Scenario.restart_replies Scenario.wf None None
                (ready Scenario.restart_replies))
  = Some CHAPTER_GENERATION /\
  is_Some (raised (generate_outline Scenario.prose_outline_replies Scenario.wf
                     None None (ready Scenario.prose_outline_replies))) /\
  current_step <$>
    Scenario.the_workflow
      (generate_outline Scenario.prose_outline_replies Scenario.wf None None
         (ready Scenario.prose_outline_replies)).2
  = Some OUTLINE.
Proof. vm_compute. repeat split. eexists. reflexivity. Qed.

(** C1 as stated fails: the characters/settings stage runs on a workflow
    whose step is ChapterGeneration, returns, and leaves the step at
    Outline, which is earlier in the order. *)
Lemma current_step_moves_back :
  current_step <$>
    Scenario.the_workflow
      (Scenario.outlined Scenario.restart_replies settings_py.DEFAULT_TEMPERATURE)
  = Some CHAPTER_GENERATION /\
  current_step <$>
    returned
      (generate_characters_and_settings Scenario.restart_replies Scenario.wf None
         (Scenario.outlined Scenario.restart_replies
            settings_py.DEFAULT_TEMPERATURE))
  = Some OUTLINE /\
  (step_rank OUTLINE < step_rank CHAPTER_GENERATION)%nat.
Proof. vm_compute. repeat split; lia. Qed.


(** ** The outline of a workflow *)

(** C4, as the code has it. The characters/settings stage, the chapter
    stage, the validation stage and the batch never change the outline of
    any workflow, and the outline stage never changes the outline of
    another workflow. The outline stage itself has no guard on an outline
    that is already set: whenever it returns, the outline of its workflow
    is the one parsed from the new reply, whatever it was before. *)
Theorem outline_after_stage `{PyLib} (ollama : nat -> http_outcome)
    (op : stage_op) (s : state) (wid : string) (w : StoryWorkflow) :
  workflows s !! wid = Some w ->
  exists w', workflows (run_op ollama op s) !! wid = Some w' /\
    match op with
    | OpOutline wid0 target_chapters additional_instructions =>
        if decide (wid0 = wid) then
          is_Some (returned (generate_outline ollama wid0 target_chapters
                               additional_instructions s)) ->
          is_Some (outline w') /\
          outline w' =
            _parse_outline_response (completion_text (ollama (length (requests s))))
        else outline w' = outline w
    | _ => outline w' = outline w
    end.
Proof.
  intros Hw.
  destruct (alters_lookup _ _ _ _ wid w (run_op_alters ollama op s) Hw)
    as (w' & Hw' & Heff).
  exists w'. split; [exact Hw'|].
  destruct op as [wid0 addl|wid0 target addl|wid0 n addl|wid0 n|wid0 addl thr];
    cbn [op_workflow_id op_effect] in Heff.
  - destruct Heff as [(_ & _ & Ho)|(_ & ->)]; auto.
  - destruct (decide (wid0 = wid)) as [->|Hne].
    + clear Heff. cbn [run_op] in Hw'. unfold returned.
      destruct (generate_outline_outcome ollama wid target addl s)
        as [(e & ->)|[(w0 & e & s' & -> & _)
                     |(w0 & parsed & t & s' & Hrun & Hs' & Hw0 & _ & _ & Hparse)]].
      * cbn. intros [? ?]; discriminate.
      * cbn. intros [? ?]; discriminate.
      * cbn zeta in Hrun. rewrite Hrun in Hw' |- *. cbn in Hw'.
        rewrite Hs', (lookup_alter_Some _ _ _ _ Hw) in Hw'.
        injection Hw' as <-. intros _. cbn. rewrite Hparse. eauto.
    + destruct Heff as [(-> & _)|(_ & ->)]; [congruence|]. reflexivity.
  - destruct Heff as [(_ & _ & Ho)|(_ & ->)]; auto.
  - destruct Heff as [(_ & _ & Ho)|(_ & ->)]; auto.
  - destruct Heff as [(_ & _ & Ho)|(_ & ->)]; auto.
Qed.

Lemma outline_after_stage_witness :
  let s := Scenario.outlined Scenario.reoutline_replies settings_py.DEFAULT_TEMPERATURE in
  workflows s !! Scenario.wf = Some (Scenario.stored s) /\
  exists w',
    workflows (run_op Scenario.reoutline_replies
                 (OpOutline Scenario.wf None None) s) !! Scenario.wf = Some w' /\
    if decide (Scenario.wf = Scenario.wf) then
      is_Some (returned (generate_outline Scenario.reoutline_replies Scenario.wf
                           None None s)) ->
      is_Some (outline w') /\
      outline w' =
        _parse_outline_response
          (completion_text (Scenario.reoutline_replies (length (requests s))))
    else outline w' = outline (Scenario.stored s).
Proof.
  cbv zeta.
  assert (workflows (Scenario.outlined Scenario.reoutline_replies
                       settings_py.DEFAULT_TEMPERATURE) !! Scenario.wf
          = Some (Scenario.stored
                    (Scenario.outlined Scenario.reoutline_replies
                       settings_py.DEFAULT_TEMPERATURE))) as Hw
    by (vm_compute; reflexivity).
  split; [exact Hw|].
  exact (outline_after_stage Scenario.reoutline_replies
           (OpOutline Scenario.wf None None) _ _ _ Hw).
Defined.

(** C4 as stated fails: the outline stage runs on a workflow whose outline
    is set, returns, and leaves another outline. *)
Lemma outline_replaced :
  so_title <$>
    (Scenario.the_workflow
       (Scenario.outlined Scenario.reoutline_replies settings_py.DEFAULT_TEMPERATURE)
     ≫= outline)
  = Some "The Map" /\
  so_title <$>
    (returned
       (generate_outline Scenario.reoutline_replies Scenario.wf None None
          (Scenario.outlined Scenario.reoutline_replies
             settings_py.DEFAULT_TEMPERATURE))
     ≫= outline)
  = Some "Second Draft" /\
  length <$>
    (so_chapters <$>
       (Scenario.the_workflow
          (generate_outline Scenario.reoutline_replies Scenario.wf None None
             (Scenario.outlined Scenario.reoutline_replies
                settings_py.DEFAULT_TEMPERATURE)).2
        ≫= outline))
  = Some 1%nat.
Proof. vm_compute. repeat split. Qed.

(** ** Failures of the text-generation service *)

(** C2 on the code: the service answers the request of the
    characters/settings stage with status 500 (or cannot be reached). The
    exception is caught inside [generate_story_complete] and comes back as
    a text; the stage does not raise: it parses that text, finds no JSON
    in it, and returns with the placeholder character and settings stored
    and the step advanced to Outline. *)
Lemma failed_generation_completes_the_stage :
  completion_text (Scenario.failing_replies 0)
  = "Error: Ollama API error: 500 - Internal Server Error" /\
  raised (generate_characters_and_settings Scenario.failing_replies Scenario.wf None
            (Scenario.created settings_py.DEFAULT_TEMPERATURE)) = None /\
  (fun w => (current_step w, characters w, settings w)) <$>
    returned (generate_characters_and_settings Scenario.failing_replies Scenario.wf
                None (Scenario.created settings_py.DEFAULT_TEMPERATURE))
  = Some (OUTLINE, fallback_characters, Some fallback_settings) /\
  completion_text (Scenario.unreachable 0)
  = "Error: All connection attempts failed" /\
  (fun w => (current_step w, characters w, settings w)) <$>
    returned (generate_characters_and_settings Scenario.unreachable Scenario.wf
                None (Scenario.created settings_py.DEFAULT_TEMPERATURE))
  = Some (OUTLINE, fallback_characters, Some fallback_settings).
Proof. vm_compute. repeat split. Qed.

(** ** Chapter numbers outside the outline *)

(** C3 on the code: the outline has two chapters. Chapter number 3 is
    refused with a [ValueError] (status 404). Chapter number 0 is not: the
    index -1 selects the last outline chapter, the stage returns and a
    chapter numbered 0 is stored. Chapter number -5 raises an
    [IndexError], which the route answers with status 500, not 404. *)
Lemma chapter_zero_is_generated :
  length <$>
    (so_chapters <$>
       (Scenario.the_workflow
          (Scenario.outlined (Scenario.chapter_replies "")
             settings_py.DEFAULT_TEMPERATURE) ≫= outline))
  = Some 2%nat /\
  raised (generate_chapter (Scenario.chapter_replies "") Scenario.wf 3 None
            (Scenario.outlined (Scenario.chapter_replies "")
               settings_py.DEFAULT_TEMPERATURE))
  = Some (ValueError "Chapter 3 not found in outline") /\
  raised (generate_chapter (Scenario.chapter_replies "") Scenario.wf 0 None
            (Scenario.outlined (Scenario.chapter_replies "")
               settings_py.DEFAULT_TEMPERATURE))
  = None /\
  (fun w => (map (fun ch => (chapter_number ch, title ch)) (chapters w),
             chapters_completed w)) <$>
    returned (generate_chapter (Scenario.chapter_replies "") Scenario.wf 0 None
                (Scenario.outlined (Scenario.chapter_replies "")
                   settings_py.DEFAULT_TEMPERATURE))
  = Some ([(0, "The Storm")], 1%nat) /\
  http_status_of_exn <$>
    raised (generate_chapter (Scenario.chapter_replies "") Scenario.wf (-5) None
              (Scenario.outlined (Scenario.chapter_replies "")
                 settings_py.DEFAULT_TEMPERATURE))
  = Some 500.
Proof. vm_compute. repeat split. Qed.

(** ** The parsers *)

(** C5 on the code: a reply with no brace in it. The outline parser
    raises nothing and returns nothing ([None]), where the
    characters/settings parser raises into its own handler and returns
    its fallback. The outline stage then stores [None] as the outline and
    raises on the count of its chapters. *)
Lemma outline_parser_returns_nothing :
  _parse_outline_response "I cannot write an outline." = None /\
  _parse_characters_settings_response "I cannot write an outline."
  = (fallback_characters, fallback_settings) /\
  raised (generate_outline Scenario.prose_outline_replies Scenario.wf None None
            (generate_characters_and_settings Scenario.prose_outline_replies
               Scenario.wf None
               (Scenario.created settings_py.DEFAULT_TEMPERATURE)).2)
  = Some (AttributeError "'NoneType' object has no attribute 'chapters'").
Proof. vm_compute. repeat split. Qed.

(** ** Validation *)

(** C9 on the code: the reply to the validation request says
    ["SCORE: 2"]. The parser returns 2.0 and the stage stores it as the
    validation score of the chapter; 2.0 is not in [0, 1]. *)
Lemma score_outside_unit_interval_is_stored :
  (_parse_validation_response Scenario.score_two).1 = Fin 2 /\
  map validation_score <$>
    (chapters <$>
       returned (validate_chapter (Scenario.chapter_replies Scenario.score_two)
                   Scenario.wf 1
                   (Scenario.drafted Scenario.score_two
                      settings_py.DEFAULT_TEMPERATURE)))
  = Some [Some (Fin 2)] /\
  PyFloat.in_unit_interval (Fin 2) = false.
Proof. vm_compute. repeat split. Qed.

(** C10, as the code has it. A validation sends at most one request; it
    sends exactly one when it returns, none when it raises; and the
    request carries the temperature 0.3 whatever the temperature of the
    workflow is, so that it is lower than the temperature of the workflow
    exactly when 0.3 is. *)
Theorem validation_request_temperature `{PyLib} (ollama : nat -> http_outcome)
    (workflow_id : string) (chapter_number : Z) (s : state) :
  (is_Some (raised (validate_chapter ollama workflow_id chapter_number s)) /\
   requests (validate_chapter ollama workflow_id chapter_number s).2 = requests s) \/
  (is_Some (returned (validate_chapter ollama workflow_id chapter_number s)) /\
   exists p,
     requests (validate_chapter ollama workflow_id chapter_number s).2
     = requests s ++ [p] /\
     p_temperature p = validation_temperature /\
     validation_temperature = PyFloat.of_decimal 3 1 /\
     forall w, workflows s !! workflow_id = Some w ->
               PyFloat.lt (p_temperature p) (temperature w)
               = PyFloat.lt (PyFloat.of_decimal 3 1) (temperature w)).
Proof.
  destruct (validate_chapter_outcome ollama workflow_id chapter_number s)
    as [(e & ->)|(w & i & ch & o & co & t & s' & -> & _ & Hreq & _)].
  - left. split; [eexists; reflexivity|reflexivity].
  - right. split; [eexists; reflexivity|]. eexists. split; [exact Hreq|].
    repeat split.
Qed.

(** C10 as stated fails: the workflow was created with temperature 0.2;
    the request of its validation carries 0.3, which is not lower. *)
Lemma validation_temperature_not_lower :
  temperature <$>
    Scenario.the_workflow (Scenario.drafted Scenario.score_good (PyFloat.of_decimal 2 1))
  = Some (PyFloat.of_decimal 2 1) /\
  p_temperature <$>
    last (requests
            (validate_chapter (Scenario.chapter_replies Scenario.score_good)
               Scenario.wf 1
               (Scenario.drafted Scenario.score_good (PyFloat.of_decimal 2 1))).2)
  = Some (PyFloat.of_decimal 3 1) /\
  PyFloat.lt (PyFloat.of_decimal 3 1) (PyFloat.of_decimal 2 1) = false.
Proof. vm_compute. repeat split. Qed.


(** *** Replies without a score line *)

Lemma index_of_member (x : string) (l : list string) :
  x ∈ l -> is_Some (PyStr.index x l).
Proof.
  induction l as [|y l IH]; intros Hin.
  - inversion Hin.
  - cbn. destruct (String.eqb y x) eqn:Hyx; [eauto|].
    apply elem_of_cons in Hin as [->|Hin].
    + rewrite String.eqb_refl in Hyx. discriminate.
    + destruct (IH Hin) as [i ->]. cbn. eauto.
Qed.

Lemma scan_without_score_line `{PyLib} (lines remaining : list string)
    (score : pyfloat) (feedback : string) :
  (forall line, line ∈ remaining -> line ∈ lines) ->
  (forall line, line ∈ remaining -> PyStr.startswith line "SCORE:" = false) ->
  exists text,
    scan_validation_lines lines remaining score feedback = Some (score, text) /\
    ((forall line, line ∈ remaining -> PyStr.startswith line "FEEDBACK:" = false) ->
     text = feedback).
Proof.
  induction remaining as [|line remaining IH]; intros Hsub Hscore.
  - exists feedback. split; [reflexivity|auto].
  - cbn [scan_validation_lines].
    rewrite (Hscore line) by apply list_elem_of_here.
    destruct (PyStr.startswith line "FEEDBACK:") eqn:Hfb.
    + destruct (index_of_member line lines) as [i Hi];
        [apply Hsub, list_elem_of_here|].
      rewrite Hi. cbn. eexists. split; [reflexivity|].
      intros Hno. rewrite (Hno line) in Hfb by apply list_elem_of_here.
      discriminate.
    + destruct IH as (text & Hscan & Htext).
      * intros l Hl. apply Hsub, list_elem_of_further, Hl.
      * intros l Hl. apply Hscore, list_elem_of_further, Hl.
      * exists text. split; [exact Hscan|].
        intros Hno. apply Htext. intros l Hl.
        apply Hno, list_elem_of_further, Hl.
Qed.

Lemma index_of_first (x : string) (before after : list string) :
  x ∉ before -> PyStr.index x (before ++ x :: after) = Some (length before).
Proof.
  induction before as [|y before IH]; intros Hnot; cbn.
  - rewrite String.eqb_refl. reflexivity.
  - destruct (String.eqb y x) eqn:Hyx.
    + apply String.eqb_eq in Hyx. subst y.
      exfalso. apply Hnot, list_elem_of_here.
    + rewrite IH; [reflexivity|].
      intros Hin. apply Hnot, list_elem_of_further, Hin.
Qed.

Lemma drop_after_middle {A} (before : list A) (x : A) (after : list A) :
  drop (S (length before)) (before ++ x :: after) = after.
Proof. induction before as [|y before IH]; [reflexivity|exact IH]. Qed.

(** The scan of lines without a score line that reaches a first feedback
    line. *)
Lemma scan_first_feedback_line `{PyLib} (before : list string) (line : string)
    (after done todo : list string) (score : pyfloat) (feedback : string) :
  before = done ++ todo ->
  (forall l, l ∈ before -> PyStr.startswith l "SCORE:" = false) ->
  (forall l, l ∈ before -> PyStr.startswith l "FEEDBACK:" = false) ->
  PyStr.startswith line "SCORE:" = false ->
  PyStr.startswith line "FEEDBACK:" = true ->
  scan_validation_lines (before ++ line :: after) (todo ++ line :: after)
    score feedback
  = Some (score,
          match after with
          | [] => PyStr.strip (PyStr.replace line "FEEDBACK:" "")
          | _ => PyStr.strip (PyStr.replace line "FEEDBACK:" "")
                 +:+ PyStr.NL +:+ PyStr.join PyStr.NL after
          end).
Proof.
  intros Hbefore Hscore Hfeedback Hline_score Hline_feedback.
  revert done Hbefore. induction todo as [|l todo IH]; intros done Hbefore.
  - cbn [app scan_validation_lines]. rewrite Hline_score, Hline_feedback.
    rewrite index_of_first.
    + cbn [mbind option_bind]. rewrite drop_after_middle. reflexivity.
    + intros Hin. rewrite (Hfeedback line Hin) in Hline_feedback. discriminate.
  - assert (l ∈ before) as Hl
      by (rewrite Hbefore; apply elem_of_app; right; apply list_elem_of_here).
    cbn [app scan_validation_lines].
    rewrite (Hscore l Hl), (Hfeedback l Hl).
    apply (IH (done ++ [l])). rewrite <- app_assoc. exact Hbefore.
Qed.

(** C6, as the code has it. For every reply none of whose lines (the reply
    stripped of surrounding white space, split at line feeds) starts with
    [SCORE:], the parser returns the default score 0.8. The feedback is
    the full raw reply when no line starts with [FEEDBACK:] either.
    Otherwise it comes from the first line that starts with [FEEDBACK:]:
    that line with every [FEEDBACK:] removed and the white space around
    what is left stripped, followed, when lines come after it, by a line
    feed and these lines joined by line feeds. *)
Theorem no_score_line_gives_default `{PyLib} (response : string) :
  (forall line,
      line ∈ PyStr.split_char PyStr.newline (PyStr.strip response) ->
      PyStr.startswith line "SCORE:" = false) ->
  (_parse_validation_response response).1 = PyFloat.of_decimal 8 1 /\
  ((forall line,
       line ∈ PyStr.split_char PyStr.newline (PyStr.strip response) ->
       PyStr.startswith line "FEEDBACK:" = false) ->
   (_parse_validation_response response).2 = response) /\
  (forall before line after,
      PyStr.split_char PyStr.newline (PyStr.strip response)
      = before ++ line :: after ->
      (forall l, l ∈ before -> PyStr.startswith l "FEEDBACK:" = false) ->
      PyStr.startswith line "FEEDBACK:" = true ->
      (_parse_validation_response response).2
      = match after with
        | [] => PyStr.strip (PyStr.replace line "FEEDBACK:" "")
        | _ => PyStr.strip (PyStr.replace line "FEEDBACK:" "")
               +:+ PyStr.NL +:+ PyStr.join PyStr.NL after
        end).
Proof.
  intros Hscore. split; [|split].
  - unfold _parse_validation_response.
    destruct (scan_without_score_line
                (PyStr.split_char PyStr.newline (PyStr.strip response))
                (PyStr.split_char PyStr.newline (PyStr.strip response))
                (PyFloat.of_decimal 8 1) response)
      as (text & -> & Htext); auto.
  - unfold _parse_validation_response.
    destruct (scan_without_score_line
                (PyStr.split_char PyStr.newline (PyStr.strip response))
                (PyStr.split_char PyStr.newline (PyStr.strip response))
                (PyFloat.of_decimal 8 1) response)
      as (text & -> & Htext); auto.
  - intros before line after Hlines Hbefore Hline.
    unfold _parse_validation_response. rewrite Hlines.
    rewrite Hlines in Hscore.
    rewrite (scan_first_feedback_line before line after [] before
               (PyFloat.of_decimal 8 1) response eq_refl); [reflexivity| |exact Hbefore| |exact Hline].
    + intros l Hl. apply Hscore, elem_of_app. left. exact Hl.
    + apply Hscore, elem_of_app. right. apply list_elem_of_here.
Qed.

Lemma no_score_line_gives_default_witness :
  let response :=
    "Notes." +:+ PyStr.NL +:+ "FEEDBACK: Tighten the opening." +:+ PyStr.NL
    +:+ "Cut the prologue." in
  (forall line,
      line ∈ PyStr.split_char PyStr.newline (PyStr.strip response) ->
      PyStr.startswith line "SCORE:" = false) /\
  (_parse_validation_response response).1 = PyFloat.of_decimal 8 1 /\
  ((forall line,
       line ∈ PyStr.split_char PyStr.newline (PyStr.strip response) ->
       PyStr.startswith line "FEEDBACK:" = false) ->
   (_parse_validation_response response).2 = response) /\
  (forall before line after,
      PyStr.split_char PyStr.newline (PyStr.strip response)
      = before ++ line :: after ->
      (forall l, l ∈ before -> PyStr.startswith l "FEEDBACK:" = false) ->
      PyStr.startswith line "FEEDBACK:" = true ->
      (_parse_validation_response response).2
      = match after with
        | [] => PyStr.strip (PyStr.replace line "FEEDBACK:" "")
        | _ => PyStr.strip (PyStr.replace line "FEEDBACK:" "")
               +:+ PyStr.NL +:+ PyStr.join PyStr.NL after
        end).
Proof.
  intros response.
  assert (forall line,
             line ∈ PyStr.split_char PyStr.newline (PyStr.strip response) ->
             PyStr.startswith line "SCORE:" = false) as Hscore.
  { intros line Hin.
    change (line ∈ ["Notes."; "FEEDBACK: Tighten the opening.";
                    "Cut the prologue."]) in Hin.
    repeat (apply elem_of_cons in Hin as [-> | Hin]; [reflexivity|]).
    inversion Hin. }
  split; [exact Hscore|].
  exact (no_score_line_gives_default (H := RefPy.lib) response Hscore).
Defined.

(** That reply, parsed. *)
Example feedback_after_the_prefix :
  _parse_validation_response
    ("Notes." +:+ PyStr.NL +:+ "FEEDBACK: Tighten the opening." +:+ PyStr.NL
     +:+ "Cut the prologue.")
  = (PyFloat.of_decimal 8 1,
     "Tighten the opening." +:+ PyStr.NL +:+ "Cut the prologue.").
Proof. vm_compute. reflexivity. Qed.

(** White space around the reply is stripped before its lines are read,
    the no-break space included: a reply that starts with one, followed
    by a score line, has a score line, and its score is read. *)
Example score_line_after_a_no_break_space :
  PyStr.split_char PyStr.newline (PyStr.strip (String "160" "SCORE: 0.5"))
  = ["SCORE: 0.5"] /\
  (_parse_validation_response (String "160" "SCORE: 0.5")).1
  = PyFloat.of_decimal 5 1 /\
  PyStr.word_count (String "160" ("a" +:+ String "133" ("b c" +:+ String "160" "")))
  = 3%nat.
Proof. vm_compute. repeat split. Qed.

(** C6 as stated fails: a reply without a [SCORE:] line gets the score
    0.8, not 0.7; and when one of its lines starts with [FEEDBACK:] the
    feedback is what follows that prefix, not the full reply. *)
Lemma no_score_line_default_is_not_0_7 :
  _parse_validation_response "A fine chapter."
  = (PyFloat.of_decimal 8 1, "A fine chapter.") /\
  PyFloat.lt (PyFloat.of_decimal 7 1) (PyFloat.of_decimal 8 1) = true /\
  _parse_validation_response "FEEDBACK: Tighten the opening."
  = (PyFloat.of_decimal 8 1, "Tighten the opening.").
Proof. vm_compute. repeat split. Qed.

(** ** Regenerating a chapter *)

Lemma existing_chapter_index_lookup (l : list GeneratedChapter) (n : Z) (i : nat) :
  existing_chapter_index l n = Some i ->
  exists ch, l !! i = Some ch /\ chapter_number ch = n.
Proof.
  revert i. induction l as [|ch l IH]; intros i; cbn; [discriminate|].
  destruct (chapter_number ch =? n) eqn:Hn.
  - intros [= <-]. exists ch. split; [reflexivity|lia].
  - destruct (existing_chapter_index l n) as [j|]; cbn; [|discriminate].
    intros [= <-]. apply (IH j). reflexivity.
Qed.

Lemma existing_chapter_index_of_member (l : list GeneratedChapter) (n : Z) :
  n ∈ map chapter_number l -> is_Some (existing_chapter_index l n).
Proof.
  induction l as [|ch l IH]; cbn; intros Hin.
  - inversion Hin.
  - destruct (chapter_number ch =? n) eqn:Hn; [eauto|].
    apply elem_of_cons in Hin as [->|Hin]; [lia|].
    destruct (IH Hin) as [j ->]. cbn. eauto.
Qed.

Lemma existing_chapter_index_None (l : list GeneratedChapter) (n : Z) :
  existing_chapter_index l n = None -> n ∉ map chapter_number l.
Proof.
  intros Hnone Hin.
  destruct (existing_chapter_index_of_member l n Hin) as [i Hi]. congruence.
Qed.

Lemma chapter_numbers_insert (l : list GeneratedChapter) (i : nat)
    (g ch : GeneratedChapter) :
  l !! i = Some ch -> chapter_number g = chapter_number ch ->
  map chapter_number (<[i := g]> l) = map chapter_number l.
Proof.
  intros Hi Hg.
  change (chapter_number <$> <[i := g]> l = chapter_number <$> l).
  rewrite list_fmap_insert. apply list_insert_id.
  rewrite list_lookup_fmap, Hi. cbn. congruence.
Qed.

Lemma py_index_in_range {A} (l : list A) (n : Z) :
  1 <= n <= Z.of_nat (length l) -> is_Some (py_index l (n - 1)).
Proof.
  intros Hn. unfold py_index.
  replace (0 <=? n - 1) with true by lia.
  replace (n - 1 <? Z.of_nat (length l)) with true by lia. cbn.
  apply lookup_lt_is_Some. lia.
Qed.

(** The chapter stage returns whenever its workflow is stored with an
    outline and settings and the chapter number is in the range of the
    outline. *)
Lemma generate_chapter_returns `{PyLib} (ollama : nat -> http_outcome)
    wid n addl s w o :
  workflows s !! wid = Some w -> outline w = Some o -> is_Some (settings w) ->
  1 <= n <= Z.of_nat (length (so_chapters o)) ->
  is_Some (returned (generate_chapter ollama wid n addl s)).
Proof.
  intros Hw Ho [st Hst] Hn.
  destruct (py_index_in_range (so_chapters o) n Hn) as [co Hco].
  unfold returned, generate_chapter, bind, get_workflow, raise. cbn.
  rewrite Hw, Ho. replace (n >? _) with false by lia. rewrite Hco.
  unfold _generate_chapter_outline, _generate_chapter_dialogue,
    _generate_chapter_content, generate_story_complete, bind, assign, now,
    return_workflow, get_workflow, ret, with_workflows, record_request.
  rewrite Hst. cbn.
  rewrite !lookup_alter_eq, Hw. cbn. eauto.
Qed.

(** C8. Running the chapter stage for a number that a stored chapter
    already has leaves the list of chapters at its length, the chapter
    numbers in place (hence unique if they were), [chapters_completed] at
    its value and every entry with another number as it was. Whenever the
    stage returns, the first entry of that number has been replaced by the
    chapter generated from the new replies, and the workflow it returns is
    the stored one; and it does return when the number is in the range of
    the outline and the settings are present. *)
Theorem regenerated_chapter_replaces_entry `{PyLib} (ollama : nat -> http_outcome)
    (wid : string) (n : Z) (addl : option string) (s : state) (w : StoryWorkflow) :
  workflows s !! wid = Some w ->
  n ∈ map chapter_number (chapters w) ->
  exists w',
    workflows (generate_chapter ollama wid n addl s).2 !! wid = Some w' /\
    length (chapters w') = length (chapters w) /\
    map chapter_number (chapters w') = map chapter_number (chapters w) /\
    (NoDup (map chapter_number (chapters w)) ->
     NoDup (map chapter_number (chapters w'))) /\
    chapters_completed w' = chapters_completed w /\
    (forall i ch, chapters w !! i = Some ch -> chapter_number ch <> n ->
                  chapters w' !! i = Some ch) /\
    (forall w1, returned (generate_chapter ollama wid n addl s) = Some w1 ->
                w1 = w' /\
                exists i g,
                  existing_chapter_index (chapters w) n = Some i /\
                  chapters w' = <[i := g]> (chapters w) /\
                  chapter_number g = n /\
                  gc_outline g = completion_text (ollama (length (requests s))) /\
                  validation_score g = None) /\
    (forall o, outline w = Some o -> is_Some (settings w) ->
               1 <= n <= Z.of_nat (length (so_chapters o)) ->
               is_Some (returned (generate_chapter ollama wid n addl s))).
Proof.
  intros Hw Hin.
  destruct (existing_chapter_index_of_member _ _ Hin) as [i Hi].
  destruct (existing_chapter_index_lookup _ _ _ Hi) as (old & Hold & Hnum).
  destruct (generate_chapter_outcome ollama wid n addl s)
    as [(e & Hrun)|(w0 & o & co & g & t & s' & Hrun & Hs' & Hw0 & Ho & Hle
                    & Hco & Hst & Hg & _ & Hscore & Htext)].
  - exists w. split; [rewrite Hrun; exact Hw|].
    do 5 (split; [auto|]). split.
    + intros w1 Hret. unfold returned in Hret. rewrite Hrun in Hret. discriminate.
    + intros o Ho Hst Hn.
      exact (generate_chapter_returns ollama wid n addl s w o Hw Ho Hst Hn).
  - rewrite Hw in Hw0. injection Hw0 as <-.
    assert (chapters (set_updated_at t (store_chapter g w))
            = <[i := g]> (chapters w)) as Hchapters
      by (unfold store_chapter; rewrite Hg, Hi; reflexivity).
    assert (chapters_completed (set_updated_at t (store_chapter g w))
            = chapters_completed w) as Hcompleted
      by (unfold store_chapter; rewrite Hg, Hi; reflexivity).
    assert (map chapter_number (<[i := g]> (chapters w))
            = map chapter_number (chapters w)) as Hnums
      by (apply chapter_numbers_insert with old; congruence).
    exists (set_updated_at t (store_chapter g w)).
    rewrite Hchapters, Hcompleted.
    split; [rewrite Hrun; cbn [snd]; rewrite Hs', (lookup_alter_Some _ _ _ _ Hw);
            reflexivity|].
    split; [apply length_insert|].
    split; [exact Hnums|].
    split; [rewrite Hnums; auto|].
    split; [reflexivity|].
    split; [|split].
    + intros j ch Hj Hne. rewrite list_lookup_insert_ne; [exact Hj|].
      intros <-. congruence.
    + intros w1 Hret. unfold returned in Hret. rewrite Hrun in Hret.
      injection Hret as <-.
      split; [reflexivity|]. exists i, g. auto.
    + intros o' Ho' Hst' Hn.
      exact (generate_chapter_returns ollama wid n addl s w o' Hw Ho' Hst' Hn).
Qed.

Lemma regenerated_chapter_replaces_entry_witness :
  let replies := Scenario.chapter_replies Scenario.score_good in
  let s := Scenario.drafted Scenario.score_good settings_py.DEFAULT_TEMPERATURE in
  workflows s !! Scenario.wf = Some (Scenario.stored s) /\
  1 ∈ map chapter_number (chapters (Scenario.stored s)) /\
  exists w',
    workflows (generate_chapter replies Scenario.wf 1 None s).2 !! Scenario.wf
    = Some w' /\
    length (chapters w') = length (chapters (Scenario.stored s)) /\
    map chapter_number (chapters w') = map chapter_number (chapters (Scenario.stored s)) /\
    (NoDup (map chapter_number (chapters (Scenario.stored s))) ->
     NoDup (map chapter_number (chapters w'))) /\
    chapters_completed w' = chapters_completed (Scenario.stored s) /\
    (forall i ch, chapters (Scenario.stored s) !! i = Some ch ->
                  chapter_number ch <> 1 -> chapters w' !! i = Some ch) /\
    (forall w1, returned (generate_chapter replies Scenario.wf 1 None s) = Some w1 ->
                w1 = w' /\
                exists i g,
                  existing_chapter_index (chapters (Scenario.stored s)) 1 = Some i /\
                  chapters w' = <[i := g]> (chapters (Scenario.stored s)) /\
                  chapter_number g = 1 /\
                  gc_outline g = completion_text (replies (length (requests s))) /\
                  validation_score g = None) /\
    (forall o, outline (Scenario.stored s) = Some o ->
               is_Some (settings (Scenario.stored s)) ->
               1 <= 1 <= Z.of_nat (length (so_chapters o)) ->
               is_Some (returned (generate_chapter replies Scenario.wf 1 None s))).
Proof.
  cbv zeta.
  assert (workflows (Scenario.drafted Scenario.score_good
                       settings_py.DEFAULT_TEMPERATURE) !! Scenario.wf
          = Some (Scenario.stored
                    (Scenario.drafted Scenario.score_good
                       settings_py.DEFAULT_TEMPERATURE))) as Hw
    by (vm_compute; reflexivity).
  assert (1 ∈ map chapter_number
                (chapters (Scenario.stored
                             (Scenario.drafted Scenario.score_good
                                settings_py.DEFAULT_TEMPERATURE)))) as Hin
    by (vm_compute; apply list_elem_of_here).
  split; [exact Hw|]. split; [exact Hin|].
  exact (regenerated_chapter_replaces_entry
           (Scenario.chapter_replies Scenario.score_good)
           Scenario.wf 1 None _ _ Hw Hin).
Defined.

(** ** The batch *)

Section BatchLemmas.

Context `{PyLib}.
Variable ollama : nat -> http_outcome.
Variable wid : string.
Variable addl : option string.
Variable threshold : pyfloat.
Variable total : nat.

Lemma attempt_chapter_when_try_raises co i k s e s' :
  try_chapter ollama wid addl (co_chapter_number co) s = (inl e, s') ->
  exists validated,
    attempt_chapter ollama wid addl threshold total co i k s
    = (failed_try_events co (i + 1) total (k + 1) validated e,
       if (k + 1 <=? max_regeneration_attempts)%nat then NextAttempt
       else BatchStopped,
       s').
Proof.
  unfold try_chapter, attempt_chapter, failed_try_events, on_exception.
  destruct (generate_chapter _ _ _ _ s) as [[e1|w1] s1].
  - intros [= -> ->]. exists false.
    destruct (k + 1 <=? max_regeneration_attempts)%nat; reflexivity.
  - destruct (validate_chapter _ _ _ s1) as [[e2|w2] s2]; [|discriminate].
    intros [= -> ->]. exists true.
    destruct (k + 1 <=? max_regeneration_attempts)%nat; reflexivity.
Qed.

(** When every try raises, the loop of the chapter makes its four
    passes and stops the batch. *)
Lemma chapter_loop_when_every_try_raises co i fuel k s :
  (k + fuel = S max_regeneration_attempts)%nat -> (0 < fuel)%nat ->
  raises_every_try ollama wid addl (co_chapter_number co) fuel s ->
  exists tries s',
    length tries = fuel /\
    chapter_loop ollama wid addl threshold total fuel co i k s
    = (failed_tries_events co (i + 1) total (k + 1) tries, true, s').
Proof.
  revert k s. induction fuel as [|fuel IH]; intros k s Hk Hpos Hraises; [lia|].
  cbn [chapter_loop]. cbn [raises_every_try] in Hraises.
  replace (k <=? max_regeneration_attempts)%nat with true
    by (symmetry; apply Nat.leb_le; lia).
  destruct (try_chapter ollama wid addl (co_chapter_number co) s)
    as [[e|w] s1] eqn:Htry; [|contradiction].
  destruct (attempt_chapter_when_try_raises co i k s e s1 Htry)
    as (validated & ->).
  destruct fuel as [|fuel].
  - replace (k + 1 <=? max_regeneration_attempts)%nat with false
      by (symmetry; apply Nat.leb_gt; lia).
    exists [(validated, e)], s1. split; [reflexivity|].
    cbn [failed_tries_events]. rewrite app_nil_r. reflexivity.
  - replace (k + 1 <=? max_regeneration_attempts)%nat with true
      by (symmetry; apply Nat.leb_le; lia).
    destruct (IH (S k) s1) as (tries & s' & Hlen & Hloop); [lia|lia|exact Hraises|].
    rewrite Hloop.
    exists ((validated, e) :: tries), s'. split; [cbn; lia|].
    cbn [failed_tries_events]. replace (S k + 1)%nat with (S (k + 1)) by lia.
    reflexivity.
Qed.

(** The loop over a list of pending chapters that ends in the chapters
    [rest], entered at position [i]. *)
Lemma chapters_loop_app before rest i s :
  chapters_loop ollama wid addl threshold total (before ++ rest) i s
  = match chapters_loop ollama wid addl threshold total before i s with
    | (events, true, s1) => (events, true, s1)
    | (events, false, s1) =>
        let '(later, stopped, s2) :=
          chapters_loop ollama wid addl threshold total rest
            (i + length before) s1 in
        (events ++ later, stopped, s2)
    end.
Proof.
  revert i s. induction before as [|co before IH]; intros i s.
  - cbn [app chapters_loop length]. rewrite Nat.add_0_r.
    destruct (chapters_loop _ _ _ _ _ rest i s) as [[later stopped] s2].
    reflexivity.
  - cbn [app chapters_loop length].
    destruct (chapter_loop _ _ _ _ _ _ co i 0 s) as [[events stopped] s1].
    destruct stopped; [reflexivity|].
    rewrite IH. replace (S i + length before)%nat with (i + S (length before))%nat by lia.
    destruct (chapters_loop _ _ _ _ _ before (S i) s1) as [[ev1 stopped1] s2].
    destruct stopped1; [reflexivity|].
    destruct (chapters_loop _ _ _ _ _ rest _ s2) as [[ev2 stopped2] s3].
    rewrite app_assoc. reflexivity.
Qed.

Lemma attempt_chapter_events co i k s :
  Forall (chapter_event_at i (i + 1))
    (attempt_chapter ollama wid addl threshold total co i k s).1.1.
Proof.
  assert (forall e, kind_of e <> complete -> current_of e = Some (i + 1)%nat ->
                    chapter_event_at i (i + 1) e) as Hev.
  { intros e Hk Hc. split; [exact Hk|]. exists (i + 1)%nat. split; [exact Hc|lia]. }
  unfold attempt_chapter, on_exception.
  destruct (generate_chapter _ _ _ _ s) as [[e1|w1] s1].
  { destruct (_ <=? _)%nat; cbn; repeat constructor; apply Hev; cbn; congruence. }
  destruct (validate_chapter _ _ _ s1) as [[e2|w2] s2].
  { destruct (_ <=? _)%nat; cbn; repeat constructor; apply Hev; cbn; congruence. }
  destruct (_ ≫= _).
  - destruct (PyFloat.ge _ _);
      [cbn; repeat constructor; apply Hev; cbn; congruence|].
    destruct (_ <=? _)%nat; cbn; repeat constructor; apply Hev; cbn; congruence.
  - destruct (_ <=? _)%nat; cbn; repeat constructor; apply Hev; cbn; congruence.
Qed.

Lemma chapter_loop_events fuel co i k s :
  Forall (chapter_event_at i (i + 1))
    (chapter_loop ollama wid addl threshold total fuel co i k s).1.1.
Proof.
  revert k s. induction fuel as [|fuel IH]; intros k s; cbn [chapter_loop].
  - constructor.
  - destruct (_ <=? _)%nat; [|constructor].
    pose proof (attempt_chapter_events co i k s) as Ha.
    destruct (attempt_chapter _ _ _ _ _ co i k s) as [[events r] s1].
    cbn in Ha. destruct r; cbn; try exact Ha.
    specialize (IH (S k) s1).
    destruct (chapter_loop _ _ _ _ _ fuel co i (S k) s1) as [[later stopped] s2].
    cbn in *. apply Forall_app. split; assumption.
Qed.

Lemma chapters_loop_events pending i s :
  Forall (chapter_event_at i (i + length pending))
    (chapters_loop ollama wid addl threshold total pending i s).1.1.
Proof.
  revert i s. induction pending as [|co rest IH]; intros i s;
    cbn [chapters_loop length].
  - constructor.
  - pose proof (chapter_loop_events (S max_regeneration_attempts) co i 0 s) as Hc.
    destruct (chapter_loop _ _ _ _ _ _ co i 0 s) as [[events stopped] s1].
    cbn in Hc.
    assert (Forall (chapter_event_at i (i + S (length rest))) events) as Hc'.
    { eapply Forall_impl; [exact Hc|].
      intros e (Hk & c & Hcur & Hr). split; [exact Hk|]. exists c. split; [exact Hcur|lia]. }
    destruct stopped; [exact Hc'|].
    specialize (IH (S i) s1).
    destruct (chapters_loop _ _ _ _ _ rest (S i) s1) as [[later stopped] s2].
    cbn in *. apply Forall_app. split; [exact Hc'|].
    eapply Forall_impl; [exact IH|].
    intros e (Hk & c & Hcur & Hr). split; [exact Hk|]. exists c. split; [exact Hcur|lia].
Qed.

Lemma chapter_loop_S co i fuel k s :
  chapter_loop ollama wid addl threshold total (S fuel) co i k s
  = if (k <=? max_regeneration_attempts)%nat then
      match attempt_chapter ollama wid addl threshold total co i k s with
      | (events, ChapterCompleted, s') => (events, false, s')
      | (events, BatchStopped, s') => (events, true, s')
      | (events, NextAttempt, s') =>
          let '(later, stopped, s'') :=
            chapter_loop ollama wid addl threshold total fuel co i (S k) s' in
          (events ++ later, stopped, s'')
      end
    else ([], false, s).
Proof. reflexivity. Qed.

(** Four passes are all the loop of a chapter can make: more fuel
    changes nothing. *)
Lemma chapter_loop_enough_fuel co i fuel k s :
  (S max_regeneration_attempts <= k + fuel)%nat ->
  chapter_loop ollama wid addl threshold total (S fuel) co i k s
  = chapter_loop ollama wid addl threshold total fuel co i k s.
Proof.
  revert k s. induction fuel as [|fuel IH]; intros k s Hk.
  - cbn [chapter_loop].
    replace (k <=? max_regeneration_attempts)%nat with false
      by (symmetry; apply Nat.leb_gt; unfold max_regeneration_attempts in *; lia).
    reflexivity.
  - rewrite (chapter_loop_S co i (S fuel)), (chapter_loop_S co i fuel).
    destruct (k <=? max_regeneration_attempts)%nat; [|reflexivity].
    destruct (attempt_chapter _ _ _ _ _ co i k s) as [[events r] s1].
    destruct r; try reflexivity.
    rewrite (IH (S k) s1) by lia. reflexivity.
Qed.

End BatchLemmas.

(** C7. In a batch run, let [co] be a pending chapter that the run
    reaches (the chapters before it did not stop the batch) and whose
    every try raises, in the chapter stage or in the validation stage,
    until the four tries are spent. Then the stream is the events of the
    earlier chapters followed by the events of the four tries: each a
    generating event (and a validating event when the chapter stage had
    returned), then a retrying event after the first three and the error
    event after the fourth. The error event is the last one of the stream;
    the stream has no [complete] event and no event of a later pending
    chapter. *)
Theorem batch_stops_when_every_try_raises `{PyLib} (ollama : nat -> http_outcome)
    (wid : string) (addl : option string) (thr : option pyfloat) (s : state)
    (w : StoryWorkflow) (o : StoryOutline)
    (before : list ChapterOutline) (co : ChapterOutline)
    (after : list ChapterOutline) :
  workflows s !! wid = Some w ->
  outline w = Some o ->
  chapters_to_generate w o = before ++ co :: after ->
  (earlier_chapters ollama wid addl thr (before ++ co :: after) before s).1.2 = false ->
  raises_every_try ollama wid addl (co_chapter_number co)
    (S max_regeneration_attempts)
    (earlier_chapters ollama wid addl thr (before ++ co :: after) before s).2 ->
  exists v1 e1 v2 e2 v3 e3 v4 e4,
    let position := (length before + 1)%nat in
    let total := length (before ++ co :: after) in
    let stream := (generate_all_chapters_stream ollama wid addl thr s).1.1 in
    stream =
      (earlier_chapters ollama wid addl thr (before ++ co :: after) before s).1.1
      ++ failed_try_events co position total 1 v1 e1
      ++ failed_try_events co position total 2 v2 e2
      ++ failed_try_events co position total 3 v3 e3
      ++ failed_try_events co position total 4 v4 e4 /\
    (generate_all_chapters_stream ollama wid addl thr s).1.2 = None /\
    filter (fun e => kind_of e = progress_retrying \/ kind_of e = error_failed)
      (failed_try_events co position total 1 v1 e1
       ++ failed_try_events co position total 2 v2 e2
       ++ failed_try_events co position total 3 v3 e3
       ++ failed_try_events co position total 4 v4 e4)
    = [EvRetrying (co_chapter_number co) (co_title co) position total 1 e1;
       EvRetrying (co_chapter_number co) (co_title co) position total 2 e2;
       EvRetrying (co_chapter_number co) (co_title co) position total 3 e3;
       EvFailed (co_chapter_number co) (co_title co) position total 4 e4] /\
    last stream
    = Some (EvFailed (co_chapter_number co) (co_title co) position total 4 e4) /\
    Forall (chapter_event_at 0 position) stream.
Proof.
  intros Hw Ho Hpending Hearlier Hraises.
  unfold earlier_chapters in *.
  set (threshold := default settings_py.DEFAULT_VALIDATION_THRESHOLD thr) in *.
  set (total := length (before ++ co :: after)) in *.
  pose proof (chapters_loop_events ollama wid addl threshold total before 0 s) as Hev.
  destruct (chapters_loop ollama wid addl threshold total before 0 s)
    as [[events stopped] s1] eqn:Hloop.
  cbn in Hearlier, Hraises, Hev. subst stopped.
  destruct (chapter_loop_when_every_try_raises ollama wid addl threshold total
              co (0 + length before) (S max_regeneration_attempts) 0 s1)
    as (tries & s' & Hlen & Hchapter); [reflexivity|unfold max_regeneration_attempts; lia|exact Hraises|].
  destruct tries as [|[v1 e1] [|[v2 e2] [|[v3 e3] [|[v4 e4] [|? ?]]]]];
    try discriminate Hlen.
  exists v1, e1, v2, e2, v3, e3, v4, e4. cbv zeta.
  assert ((generate_all_chapters_stream ollama wid addl thr s).1
          = (events ++ failed_tries_events co (length before + 1) total 1
                         [(v1, e1); (v2, e2); (v3, e3); (v4, e4)], None)) as Hstream.
  { unfold generate_all_chapters_stream. rewrite Hw, Ho, Hpending.
    fold threshold. fold total.
    destruct (before ++ co :: after) as [|c0 l0] eqn:Happ;
      [destruct before; discriminate|].
    rewrite <- Happ, chapters_loop_app, Hloop.
    cbn [chapters_loop]. rewrite Hchapter. reflexivity. }
  cbn [failed_tries_events] in Hstream. rewrite app_nil_r in Hstream.
  split; [rewrite Hstream; reflexivity|].
  split; [rewrite Hstream; reflexivity|].
  split; [destruct v1, v2, v3, v4; reflexivity|].
  rewrite Hstream. cbn [fst].
  split.
  - change (failed_try_events co (length before + 1) total 4 v4 e4)
      with ((EvGenerating (co_chapter_number co) (co_title co)
               (length before + 1) total 4 ::
             (if v4
              then [EvValidating (co_chapter_number co) (co_title co)
                      (length before + 1) total 4]
              else [])) ++
            [EvFailed (co_chapter_number co) (co_title co)
               (length before + 1) total 4 e4]).
    rewrite !app_assoc. apply last_snoc.
  - apply Forall_app. split.
    + eapply Forall_impl; [exact Hev|].
      intros e (Hk & c & Hcur & Hr). split; [exact Hk|].
      exists c. split; [exact Hcur|lia].
    + assert (forall e, kind_of e <> complete ->
                        current_of e = Some (length before + 1)%nat ->
                        chapter_event_at 0 (length before + 1) e) as Hone.
      { intros e Hk Hc. split; [exact Hk|]. eexists. split; [exact Hc|lia]. }
      destruct v1, v2, v3, v4; repeat constructor; apply Hone; cbn; congruence.
Qed.

Lemma batch_stops_when_every_try_raises_witness :
  let replies := Scenario.misnumbered_replies in
  let s := Scenario.outlined replies settings_py.DEFAULT_TEMPERATURE in
  let before := [Scenario.chapter 1 "Arrival"] in
  let co := Scenario.chapter 5 "The Storm" in
  let after := [Scenario.chapter 3 "The Map"] in
  (workflows s !! Scenario.wf = Some (Scenario.stored s) /\
   outline (Scenario.stored s) = Some (Scenario.stored_outline s) /\
   chapters_to_generate (Scenario.stored s) (Scenario.stored_outline s)
   = before ++ co :: after /\
   (earlier_chapters replies Scenario.wf None None (before ++ co :: after) before s).1.2
   = false /\
   raises_every_try replies Scenario.wf None (co_chapter_number co)
     (S max_regeneration_attempts)
     (earlier_chapters replies Scenario.wf None None (before ++ co :: after) before s).2) /\
  exists v1 e1 v2 e2 v3 e3 v4 e4,
    let position := (length before + 1)%nat in
    let total := length (before ++ co :: after) in
    let stream := (generate_all_chapters_stream replies Scenario.wf None None s).1.1 in
    stream =
      (earlier_chapters replies Scenario.wf None None (before ++ co :: after) before s).1.1
      ++ failed_try_events co position total 1 v1 e1
      ++ failed_try_events co position total 2 v2 e2
      ++ failed_try_events co position total 3 v3 e3
      ++ failed_try_events co position total 4 v4 e4 /\
    (generate_all_chapters_stream replies Scenario.wf None None s).1.2 = None /\
    filter (fun e => kind_of e = progress_retrying \/ kind_of e = error_failed)
      (failed_try_events co position total 1 v1 e1
       ++ failed_try_events co position total 2 v2 e2
       ++ failed_try_events co position total 3 v3 e3
       ++ failed_try_events co position total 4 v4 e4)
    = [EvRetrying (co_chapter_number co) (co_title co) position total 1 e1;
       EvRetrying (co_chapter_number co) (co_title co) position total 2 e2;
       EvRetrying (co_chapter_number co) (co_title co) position total 3 e3;
       EvFailed (co_chapter_number co) (co_title co) position total 4 e4] /\
    last stream
    = Some (EvFailed (co_chapter_number co) (co_title co) position total 4 e4) /\
    Forall (chapter_event_at 0 position) stream.
Proof.
  intros replies s before co after.
  assert (workflows s !! Scenario.wf = Some (Scenario.stored s)) as Hw
    by (vm_compute; reflexivity).
  assert (outline (Scenario.stored s) = Some (Scenario.stored_outline s)) as Ho
    by (vm_compute; reflexivity).
  assert (chapters_to_generate (Scenario.stored s) (Scenario.stored_outline s)
          = before ++ co :: after) as Hpending
    by (vm_compute; reflexivity).
  assert ((earlier_chapters replies Scenario.wf None None (before ++ co :: after)
             before s).1.2 = false) as Hearlier
    by (vm_compute; reflexivity).
  assert (raises_every_try replies Scenario.wf None (co_chapter_number co)
            (S max_regeneration_attempts)
            (earlier_chapters replies Scenario.wf None None (before ++ co :: after)
               before s).2) as Hraises
    by (vm_compute; exact I).
  split; [auto|].
  exact (batch_stops_when_every_try_raises replies Scenario.wf None None s
           (Scenario.stored s) (Scenario.stored_outline s) before co after
           Hw Ho Hpending Hearlier Hraises).
Defined.

(** The stream of that run, event by event. *)
Example batch_stream_of_misnumbered_outline :
  (generate_all_chapters_stream Scenario.misnumbered_replies Scenario.wf None None
     (Scenario.outlined Scenario.misnumbered_replies settings_py.DEFAULT_TEMPERATURE)).1
  = ([EvGenerating 1 "Arrival" 1 3 1;
      EvValidating 1 "Arrival" 1 3 1;
      EvCompleted 1 "Arrival" 1 3 (PyFloat.of_decimal 9 1) (PyFloat.of_decimal 7 1) 1 6;
      EvGenerating 5 "The Storm" 2 3 1;
      EvRetrying 5 "The Storm" 2 3 1 (ValueError "Chapter 5 not found in outline");
      EvGenerating 5 "The Storm" 2 3 2;
      EvRetrying 5 "The Storm" 2 3 2 (ValueError "Chapter 5 not found in outline");
      EvGenerating 5 "The Storm" 2 3 3;
      EvRetrying 5 "The Storm" 2 3 3 (ValueError "Chapter 5 not found in outline");
      EvGenerating 5 "The Storm" 2 3 4;
      EvFailed 5 "The Storm" 2 3 4 (ValueError "Chapter 5 not found in outline")],
     None).
Proof. vm_compute. reflexivity. Qed.

(** ** Further properties of the stages *)

(** A chapter number above the length of the outline is refused: the
    chapter stage raises the [ValueError] that the route answers with
    status 404, and the state is as it was. *)
Theorem chapter_number_above_outline_is_refused `{PyLib}
    (ollama : nat -> http_outcome) (wid : string) (n : Z) (addl : option string)
    (s : state) (w : StoryWorkflow) (o : StoryOutline) :
  workflows s !! wid = Some w ->
  outline w = Some o ->
  Z.of_nat (length (so_chapters o)) < n ->
  generate_chapter ollama wid n addl s
  = (inl (ValueError ("Chapter " +:+ pretty n +:+ " not found in outline")), s) /\
  is_not_found (ValueError ("Chapter " +:+ pretty n +:+ " not found in outline")) = true.
Proof.
  intros Hw Ho Hn. split; [|reflexivity].
  unfold generate_chapter, bind, get_workflow, raise. cbn.
  rewrite Hw, Ho. replace (n >? _) with true by lia. reflexivity.
Qed.

Lemma chapter_number_above_outline_is_refused_witness :
  let s := Scenario.outlined (Scenario.chapter_replies Scenario.score_good)
             settings_py.DEFAULT_TEMPERATURE in
  (workflows s !! Scenario.wf = Some (Scenario.stored s) /\
   outline (Scenario.stored s) = Some (Scenario.stored_outline s) /\
   Z.of_nat (length (so_chapters (Scenario.stored_outline s))) < 3) /\
  generate_chapter (Scenario.chapter_replies Scenario.score_good) Scenario.wf 3 None s
  = (inl (ValueError ("Chapter " +:+ pretty 3 +:+ " not found in outline")), s) /\
  is_not_found (ValueError ("Chapter " +:+ pretty 3 +:+ " not found in outline")) = true.
Proof.
  intros s.
  assert (workflows s !! Scenario.wf = Some (Scenario.stored s)) as Hw
    by (vm_compute; reflexivity).
  assert (outline (Scenario.stored s) = Some (Scenario.stored_outline s)) as Ho
    by (vm_compute; reflexivity).
  assert (Z.of_nat (length (so_chapters (Scenario.stored_outline s))) < 3) as Hn
    by (vm_compute; reflexivity).
  split; [auto|].
  exact (chapter_number_above_outline_is_refused
           (Scenario.chapter_replies Scenario.score_good) Scenario.wf 3 None s
           _ _ Hw Ho Hn).
Defined.

(** The characters/settings parser returns its fallback, one protagonist
    and the settings of genre Fiction, whenever the reply has no opening
    brace, or no closing brace, or the text between its first opening and
    its last closing brace does not decode. *)
Theorem characters_parser_falls_back `{PyLib} (response : string) :
  PyStr.find response "{" = -1 \/
  PyStr.rfind response "}" = -1 \/
  json_loads (PyStr.slice response (PyStr.find response "{")
                (PyStr.rfind response "}" + 1)) = None ->
  _parse_characters_settings_response response
  = (fallback_characters, fallback_settings).
Proof.
  intros Hcase.
  unfold _parse_characters_settings_response, try_parse_characters_settings.
  destruct (PyStr.find response "{" =? -1) eqn:Hstart; [reflexivity|].
  destruct (PyStr.rfind response "}" + 1 =? 0) eqn:Hend; [reflexivity|].
  destruct Hcase as [Hs|[He|Hjson]]; [lia|lia|].
  cbn. rewrite Hjson. reflexivity.
Qed.

Lemma characters_parser_falls_back_witness :
  (PyStr.find "Once upon a time" "{" = -1 \/
   PyStr.rfind "Once upon a time" "}" = -1 \/
   json_loads (PyStr.slice "Once upon a time" (PyStr.find "Once upon a time" "{")
                 (PyStr.rfind "Once upon a time" "}" + 1)) = None) /\
  _parse_characters_settings_response "Once upon a time"
  = (fallback_characters, fallback_settings).
Proof.
  assert (PyStr.find "Once upon a time" "{" = -1 \/
          PyStr.rfind "Once upon a time" "}" = -1 \/
          json_loads (PyStr.slice "Once upon a time"
                        (PyStr.find "Once upon a time" "{")
                        (PyStr.rfind "Once upon a time" "}" + 1)) = None) as Hcase
    by (left; vm_compute; reflexivity).
  split; [exact Hcase|].
  exact (characters_parser_falls_back "Once upon a time" Hcase).
Defined.

(** The chapter stage keeps the chapter numbers of a workflow unique: an
    existing number is replaced in place, a new one is appended once. *)
Theorem chapter_numbers_stay_unique `{PyLib} (ollama : nat -> http_outcome)
    (wid : string) (n : Z) (addl : option string) (s : state) (w : StoryWorkflow) :
  workflows s !! wid = Some w ->
  NoDup (map chapter_number (chapters w)) ->
  exists w',
    workflows (generate_chapter ollama wid n addl s).2 !! wid = Some w' /\
    NoDup (map chapter_number (chapters w')).
Proof.
  intros Hw Hnodup.
  destruct (generate_chapter_outcome ollama wid n addl s)
    as [(e & Hrun)|(w0 & o & co & g & t & s' & Hrun & Hs' & Hw0 & _ & _ & _ & _
                    & Hg & _)].
  - exists w. rewrite Hrun. auto.
  - rewrite Hw in Hw0. injection Hw0 as <-.
    exists (set_updated_at t (store_chapter g w)).
    split; [rewrite Hrun; cbn [snd]; rewrite Hs', (lookup_alter_Some _ _ _ _ Hw);
            reflexivity|].
    unfold store_chapter. rewrite Hg.
    destruct (existing_chapter_index (chapters w) n) as [i|] eqn:Hi; cbn.
    + destruct (existing_chapter_index_lookup _ _ _ Hi) as (old & Hold & Hnum).
      rewrite (chapter_numbers_insert _ _ _ old) by congruence. exact Hnodup.
    + rewrite map_app. cbn. apply NoDup_app. split; [exact Hnodup|]. split.
      * intros x Hx Hx'. apply list_elem_of_singleton in Hx'. subst x.
        rewrite Hg in Hx. exact (existing_chapter_index_None _ _ Hi Hx).
      * apply NoDup_singleton.
Qed.

Lemma chapter_numbers_stay_unique_witness :
  let replies := Scenario.chapter_replies Scenario.score_good in
  let s := Scenario.outlined replies settings_py.DEFAULT_TEMPERATURE in
  (workflows s !! Scenario.wf = Some (Scenario.stored s) /\
   NoDup (map chapter_number (chapters (Scenario.stored s)))) /\
  exists w',
    workflows (generate_chapter replies Scenario.wf 1 None s).2 !! Scenario.wf
    = Some w' /\
    NoDup (map chapter_number (chapters w')).
Proof.
  intros replies s.
  assert (workflows s !! Scenario.wf = Some (Scenario.stored s)) as Hw
    by (vm_compute; reflexivity).
  assert (NoDup (map chapter_number (chapters (Scenario.stored s)))) as Hnodup
    by (vm_compute; apply NoDup_nil_2).
  split; [auto|].
  exact (chapter_numbers_stay_unique replies Scenario.wf 1 None s _ Hw Hnodup).
Defined.

(** A batch with no pending chapter yields one [complete] event, sends no
    request and changes nothing. *)
Theorem batch_with_nothing_pending `{PyLib} (ollama : nat -> http_outcome)
    (wid : string) (addl : option string) (thr : option pyfloat) (s : state)
    (w : StoryWorkflow) (o : StoryOutline) :
  workflows s !! wid = Some w ->
  outline w = Some o ->
  chapters_to_generate w o = [] ->
  generate_all_chapters_stream ollama wid addl thr s
  = ([EvAlreadyGenerated w], None, s) /\
  kind_of (EvAlreadyGenerated w) = complete.
Proof.
  intros Hw Ho Hpending. split; [|reflexivity].
  unfold generate_all_chapters_stream. rewrite Hw, Ho, Hpending. reflexivity.
Qed.

Lemma batch_with_nothing_pending_witness :
  (workflows Scenario.all_generated !! Scenario.wf
   = Some (Scenario.stored Scenario.all_generated) /\
   outline (Scenario.stored Scenario.all_generated)
   = Some (Scenario.stored_outline Scenario.all_generated) /\
   chapters_to_generate (Scenario.stored Scenario.all_generated)
     (Scenario.stored_outline Scenario.all_generated) = []) /\
  generate_all_chapters_stream Scenario.single_chapter_replies Scenario.wf None None
    Scenario.all_generated
  = ([EvAlreadyGenerated (Scenario.stored Scenario.all_generated)], None,
     Scenario.all_generated) /\
  kind_of (EvAlreadyGenerated (Scenario.stored Scenario.all_generated)) = complete.
Proof.
  assert (workflows Scenario.all_generated !! Scenario.wf
          = Some (Scenario.stored Scenario.all_generated)) as Hw
    by (vm_compute; reflexivity).
  assert (outline (Scenario.stored Scenario.all_generated)
          = Some (Scenario.stored_outline Scenario.all_generated)) as Ho
    by (vm_compute; reflexivity).
  assert (chapters_to_generate (Scenario.stored Scenario.all_generated)
            (Scenario.stored_outline Scenario.all_generated) = []) as Hpending
    by (vm_compute; reflexivity).
  split; [auto|].
  exact (batch_with_nothing_pending Scenario.single_chapter_replies Scenario.wf
           None None _ _ _ Hw Ho Hpending).
Defined.

(** The outline stage is refused while the characters are empty or the
    settings are absent: it raises the [ValueError] that the route answers
    with status 404, sends no request and changes nothing. *)
Theorem outline_needs_characters_and_settings `{PyLib}
    (ollama : nat -> http_outcome) (wid : string) (target : option Z)
    (addl : option string) (s : state) (w : StoryWorkflow) :
  workflows s !! wid = Some w ->
  characters w = [] \/ settings w = None ->
  generate_outline ollama wid target addl s
  = (inl (ValueError "Characters and settings must be generated first"), s).
Proof.
  intros Hw Hmissing.
  unfold generate_outline, bind, get_workflow, raise. cbn. rewrite Hw.
  destruct (characters w) as [|c cs]; [reflexivity|].
  destruct Hmissing as [? | ->]; [discriminate|reflexivity].
Qed.

Lemma outline_needs_characters_and_settings_witness :
  let s := Scenario.created settings_py.DEFAULT_TEMPERATURE in
  (workflows s !! Scenario.wf = Some (Scenario.stored s) /\
   (characters (Scenario.stored s) = [] \/ settings (Scenario.stored s) = None)) /\
  generate_outline Scenario.restart_replies Scenario.wf None None s
  = (inl (ValueError "Characters and settings must be generated first"), s).
Proof.
  intros s.
  assert (workflows s !! Scenario.wf = Some (Scenario.stored s)) as Hw
    by (vm_compute; reflexivity).
  assert (characters (Scenario.stored s) = [] \/ settings (Scenario.stored s) = None)
    as Hmissing by (left; vm_compute; reflexivity).
  split; [auto|].
  exact (outline_needs_characters_and_settings Scenario.restart_replies Scenario.wf
           None None s _ Hw Hmissing).
Defined.

(** The validation stage is refused for a chapter that was not generated:
    it raises the [ValueError] that the route answers with status 404,
    sends no request and changes nothing. *)
Theorem validation_needs_the_chapter `{PyLib} (ollama : nat -> http_outcome)
    (wid : string) (n : Z) (s : state) (w : StoryWorkflow) :
  workflows s !! wid = Some w ->
  n ∉ map chapter_number (chapters w) ->
  validate_chapter ollama wid n s
  = (inl (ValueError ("Chapter " +:+ pretty n +:+ " not found")), s).
Proof.
  intros Hw Hnot.
  unfold validate_chapter, bind, get_workflow, raise. cbn. rewrite Hw.
  destruct (existing_chapter_index (chapters w) n) as [i|] eqn:Hi; [|reflexivity].
  destruct (existing_chapter_index_lookup _ _ _ Hi) as (ch & Hch & Hnum).
  exfalso. apply Hnot. subst n.
  apply (list_elem_of_fmap_2 chapter_number). eapply list_elem_of_lookup_2, Hch.
Qed.

Lemma validation_needs_the_chapter_witness :
  let replies := Scenario.chapter_replies Scenario.score_good in
  let s := Scenario.outlined replies settings_py.DEFAULT_TEMPERATURE in
  (workflows s !! Scenario.wf = Some (Scenario.stored s) /\
   1 ∉ map chapter_number (chapters (Scenario.stored s))) /\
  validate_chapter replies Scenario.wf 1 s
  = (inl (ValueError ("Chapter " +:+ pretty 1 +:+ " not found")), s).
Proof.
  intros replies s.
  assert (workflows s !! Scenario.wf = Some (Scenario.stored s)) as Hw
    by (vm_compute; reflexivity).
  assert (1 ∉ map chapter_number (chapters (Scenario.stored s))) as Hnot
    by (vm_compute; apply not_elem_of_nil).
  split; [auto|].
  exact (validation_needs_the_chapter replies Scenario.wf 1 s _ Hw Hnot).
Defined.

(** The steps Validation and Completed are never assigned: along every
    run of stage operations, a store whose workflows are all at
    CharactersSettings, Outline or ChapterGeneration stays such a store. *)
Theorem current_step_stays_below_validation `{PyLib} (ollama : nat -> http_outcome)
    (ops : list stage_op) (s : state) :
  (forall wid w, workflows s !! wid = Some w ->
                 (step_rank (current_step w) <= 2)%nat) ->
  forall wid w, workflows (run_ops ollama ops s) !! wid = Some w ->
                (step_rank (current_step w) <= 2)%nat.
Proof.
  revert s. induction ops as [|op ops IH]; intros s Hs; [exact Hs|].
  cbn [run_ops fold_left]. apply IH. intros wid w' Hw'.
  destruct (alters_lookup_inv _ _ _ _ wid w' (run_op_alters ollama op s) Hw')
    as (w & Hw & Heff).
  specialize (Hs wid w Hw).
  destruct op as [wid0 addl|wid0 target addl|wid0 n addl|wid0 n|wid0 addl thr];
    cbn [op_workflow_id op_effect] in Heff.
  - destruct Heff as [(_ & Hstep & _)|(_ & ->)]; [rewrite Hstep; cbn; lia|exact Hs].
  - destruct Heff as [(_ & [->|[(Hstep & _)|(Hstep & _)]])|(_ & ->)];
      rewrite ?Hstep; cbn; lia.
  - destruct Heff as [(_ & Hstep & _)|(_ & ->)]; [rewrite Hstep|]; exact Hs.
  - destruct Heff as [(_ & Hstep & _)|(_ & ->)]; [rewrite Hstep|]; exact Hs.
  - destruct Heff as [(_ & Hstep & _)|(_ & ->)]; [rewrite Hstep|]; exact Hs.
Qed.

Lemma current_step_stays_below_validation_witness :
  let replies := Scenario.chapter_replies Scenario.score_good in
  let ops := [OpCharactersSettings Scenario.wf None;
              OpOutline Scenario.wf None None;
              OpAllChapters Scenario.wf None None] in
  let s := Scenario.created settings_py.DEFAULT_TEMPERATURE in
  (forall wid w, workflows s !! wid = Some w ->
                 (step_rank (current_step w) <= 2)%nat) /\
  forall wid w, workflows (run_ops replies ops s) !! wid = Some w ->
                (step_rank (current_step w) <= 2)%nat.
Proof.
  intros replies ops s.
  assert (forall wid w, workflows s !! wid = Some w ->
                        (step_rank (current_step w) <= 2)%nat) as Hs.
  { intros wid w Hw.
    destruct (decide (wid = Scenario.wf)) as [->|Hne].
    - assert (workflows s !! Scenario.wf = Some (Scenario.stored s)) as Hstored
        by (vm_compute; reflexivity).
      rewrite Hstored in Hw. injection Hw as <-. vm_compute. lia.
    - unfold s, Scenario.created, create_workflow in Hw. cbn in Hw.
      rewrite lookup_insert_ne in Hw by congruence.
      rewrite lookup_empty in Hw. discriminate. }
  split; [exact Hs|].
  exact (current_step_stays_below_validation replies ops s Hs).
Defined.

(** ** The stages, case by case *)

Section StageCases.

Context `{PyLib}.
Variable ollama : nat -> http_outcome.

Ltac unfold_run :=
  unfold generate_characters_and_settings, generate_outline, generate_chapter,
    validate_chapter, _generate_chapter_outline, _generate_chapter_dialogue,
    _generate_chapter_content, _build_outline_prompt, return_workflow,
    workflow_not_found, generate_story_complete, bind, ret, raise,
    get_workflow, assign, now, with_workflows, record_request; cbn.

(** The chapter stage, with the reason of each exception and with the
    requests it sends. *)
Lemma generate_chapter_cases wid n addl s :
  (workflows s !! wid = None /\
   generate_chapter ollama wid n addl s
   = (inl (ValueError ("Workflow " +:+ wid +:+ " not found")), s)) \/
  (exists w, workflows s !! wid = Some w /\ outline w = None /\
             generate_chapter ollama wid n addl s
             = (inl (ValueError "Story outline must be generated first"), s)) \/
  (exists w o, workflows s !! wid = Some w /\ outline w = Some o /\
               Z.of_nat (length (so_chapters o)) < n /\
               generate_chapter ollama wid n addl s
               = (inl (ValueError ("Chapter " +:+ pretty n
                                   +:+ " not found in outline")), s)) \/
  (exists w o, workflows s !! wid = Some w /\ outline w = Some o /\
               n <= Z.of_nat (length (so_chapters o)) /\
               py_index (so_chapters o) (n - 1) = None /\
               generate_chapter ollama wid n addl s
               = (inl (IndexError "list index out of range"), s)) \/
  (exists w o co, workflows s !! wid = Some w /\ outline w = Some o /\
                  n <= Z.of_nat (length (so_chapters o)) /\
                  py_index (so_chapters o) (n - 1) = Some co /\
                  settings w = None /\
                  generate_chapter ollama wid n addl s
                  = (inl (none_has_no "genre"), s)) \/
  (exists w o co g p1 p2 p3 s',
      workflows s !! wid = Some w /\ outline w = Some o /\
      n <= Z.of_nat (length (so_chapters o)) /\
      py_index (so_chapters o) (n - 1) = Some co /\
      is_Some (settings w) /\
      generate_chapter ollama wid n addl s
      = (inr (set_updated_at (clock s) (store_chapter g w)), s') /\
      workflows s'
      = alter (set_updated_at (clock s) ∘ store_chapter g) wid (workflows s) /\
      requests s' = requests s ++ [p1; p2; p3] /\
      clock s' = S (clock s) /\
      Forall (fun p => p_temperature p = temperature w /\ p_top_p p = top_p w /\
                       p_model p = str_or (model w) settings_py.OLLAMA_DEFAULT_MODEL /\
                       p_stream p = false)
        [p1; p2; p3] /\
      chapter_number g = n /\ title g = co_title co /\
      gc_outline g = completion_text (ollama (length (requests s))) /\
      dialogue g = completion_text (ollama (length (requests s) + 1)%nat) /\
      content g = completion_text (ollama (length (requests s) + 2)%nat) /\
      word_count g = PyStr.word_count (content g) /\
      validation_score g = None /\ validation_feedback g = None).
Proof.
  unfold_run.
  destruct (workflows s !! wid) as [w|] eqn:Hw; [|left; auto].
  right.
  destruct (outline w) as [o|] eqn:Ho; [|left; eauto].
  right.
  destruct (n >? _) eqn:Hn; [left; exists w, o; repeat split; auto; lia|].
  right.
  destruct (py_index _ _) as [co|] eqn:Hco;
    [|left; exists w, o; repeat split; auto; lia].
  right.
  destruct (settings w) as [st|] eqn:Hst;
    [|left; exists w, o, co; repeat split; auto; lia].
  right. cbn. rewrite !alter_alter.
  rewrite (lookup_alter_Some _ _ _ _ Hw).
  eexists w, o, co, _, _, _, _, _.
  split; [reflexivity|]. split; [exact Ho|]. split; [lia|].
  split; [exact Hco|]. split; [eauto|].
  split; [reflexivity|]. cbn.
  split; [reflexivity|].
  split; [rewrite <- !app_assoc; reflexivity|].
  split; [reflexivity|].
  split; [repeat constructor|].
  rewrite !length_app. cbn. rewrite <- Nat.add_assoc. cbn.
  repeat split.
Qed.

(** The characters and settings stage. *)
Lemma generate_characters_and_settings_cases wid addl s :
  (workflows s !! wid = None /\
   generate_characters_and_settings ollama wid addl s
   = (inl (ValueError ("Workflow " +:+ wid +:+ " not found")), s)) \/
  (exists w s',
      let parsed :=
        _parse_characters_settings_response
          (completion_text (ollama (length (requests s)))) in
      let f := set_updated_at (clock s) ∘ set_current_step OUTLINE ∘
               set_settings (Some parsed.2) ∘ set_characters parsed.1 in
      workflows s !! wid = Some w /\
      generate_characters_and_settings ollama wid addl s = (inr (f w), s') /\
      workflows s' = alter f wid (workflows s) /\
      requests s'
      = requests s ++
          [build_payload
             (_build_characters_settings_prompt (original_prompt w) addl)
             (model w) (temperature w) (top_p w) (Some SYSTEM_STORY_PLANNER)] /\
      clock s' = S (clock s)).
Proof.
  unfold_run.
  destruct (workflows s !! wid) as [w|] eqn:Hw; [|left; auto].
  destruct (_parse_characters_settings_response _) as [cs st] eqn:Hparse.
  cbn. right. rewrite !alter_alter.
  rewrite (lookup_alter_Some _ _ _ _ Hw).
  eexists w, _. cbn.
  split; [reflexivity|]. split; [reflexivity|]. cbn. auto.
Qed.

(** The outline stage. *)
Lemma generate_outline_cases wid target addl s :
  (workflows s !! wid = None /\
   generate_outline ollama wid target addl s
   = (inl (ValueError ("Workflow " +:+ wid +:+ " not found")), s)) \/
  (exists w, workflows s !! wid = Some w /\
             (characters w = [] \/ settings w = None) /\
             generate_outline ollama wid target addl s
             = (inl (ValueError "Characters and settings must be generated first"),
                s)) \/
  (exists w st s',
      workflows s !! wid = Some w /\ characters w <> [] /\
      settings w = Some st /\
      _parse_outline_response (completion_text (ollama (length (requests s))))
      = None /\
      generate_outline ollama wid target addl s
      = (inl (none_has_no "chapters"), s') /\
      workflows s' = alter (set_outline None) wid (workflows s) /\
      requests s'
      = requests s ++
          [build_payload
             (PromptOutline (original_prompt w) (characters w) st target
                (default "" addl))
             (model w) (temperature w) (top_p w) (Some SYSTEM_STORY_OUTLINER)] /\
      clock s' = clock s) \/
  (exists w st parsed s',
      let f := set_updated_at (clock s) ∘ set_current_step CHAPTER_GENERATION ∘
               set_total_chapters_planned (length (so_chapters parsed)) ∘
               set_outline (Some parsed) in
      workflows s !! wid = Some w /\ characters w <> [] /\
      settings w = Some st /\
      _parse_outline_response (completion_text (ollama (length (requests s))))
      = Some parsed /\
      generate_outline ollama wid target addl s = (inr (f w), s') /\
      workflows s' = alter f wid (workflows s) /\
      requests s'
      = requests s ++
          [build_payload
             (PromptOutline (original_prompt w) (characters w) st target
                (default "" addl))
             (model w) (temperature w) (top_p w) (Some SYSTEM_STORY_OUTLINER)] /\
      clock s' = S (clock s)).
Proof.
  unfold_run.
  destruct (workflows s !! wid) as [w|] eqn:Hw; [|left; auto].
  right.
  destruct (characters w) as [|c cs] eqn:Hcs; [left; eauto|].
  destruct (settings w) as [st|] eqn:Hst; [|left; eauto].
  right. cbn.
  destruct (_parse_outline_response _) as [parsed|] eqn:Hparse; cbn.
  - right. rewrite !alter_alter.
    rewrite (lookup_alter_Some _ _ _ _ Hw).
    eexists w, st, parsed, _. cbn.
    split; [reflexivity|]. split; [rewrite Hcs; discriminate|].
    split; [exact Hst|]. split; [reflexivity|]. split; [reflexivity|].
    cbn. rewrite Hcs. auto.
  - left. eexists w, st, _.
    split; [reflexivity|]. split; [rewrite Hcs; discriminate|].
    split; [exact Hst|]. split; [reflexivity|]. split; [reflexivity|].
    cbn. rewrite Hcs. auto.
Qed.

(** The validation stage. *)
Lemma validate_chapter_cases wid n s :
  (workflows s !! wid = None /\
   validate_chapter ollama wid n s
   = (inl (ValueError ("Workflow " +:+ wid +:+ " not found")), s)) \/
  (exists w, workflows s !! wid = Some w /\ chapter_numbered w n = None /\
             validate_chapter ollama wid n s
             = (inl (ValueError ("Chapter " +:+ pretty n +:+ " not found")), s)) \/
  (exists w ch, workflows s !! wid = Some w /\ chapter_numbered w n = Some ch /\
                outline w = None /\
                validate_chapter ollama wid n s
                = (inl (none_has_no "chapters"), s)) \/
  (exists w ch o, workflows s !! wid = Some w /\ chapter_numbered w n = Some ch /\
                  outline w = Some o /\
                  py_index (so_chapters o) (n - 1) = None /\
                  validate_chapter ollama wid n s
                  = (inl (IndexError "list index out of range"), s)) \/
  (exists w ch o co s',
      let parsed :=
        _parse_validation_response
          (completion_text (ollama (length (requests s)))) in
      let f := set_updated_at (clock s) ∘ store_validation n parsed.1 parsed.2 in
      workflows s !! wid = Some w /\ chapter_numbered w n = Some ch /\
      outline w = Some o /\
      py_index (so_chapters o) (n - 1) = Some co /\
      validate_chapter ollama wid n s = (inr (f w), s') /\
      workflows s' = alter f wid (workflows s) /\
      requests s'
      = requests s ++
          [build_payload (_build_validation_prompt co ch) (model w)
             validation_temperature (top_p w) (Some SYSTEM_STORY_EDITOR)] /\
      clock s' = S (clock s)).
Proof.
  unfold chapter_numbered. unfold_run.
  destruct (workflows s !! wid) as [w|] eqn:Hw; [|left; auto].
  right.
  destruct (existing_chapter_index (chapters w) n ≫= _) as [ch|] eqn:Hch;
    [|left; exists w; repeat split; auto].
  right.
  destruct (outline w) as [o|] eqn:Ho; [|left; exists w, ch; repeat split; auto].
  right.
  destruct (py_index _ _) as [co|] eqn:Hco;
    [|left; exists w, ch, o; repeat split; auto].
  right.
  destruct (_parse_validation_response _) as [score feedback] eqn:Hparse.
  cbn. rewrite !alter_alter.
  rewrite (lookup_alter_Some _ _ _ _ Hw).
  eexists w, ch, o, co, _. cbn.
  split; [reflexivity|]. split; [exact Hch|]. split; [exact Ho|].
  split; [exact Hco|]. split; [reflexivity|]. cbn. auto.
Qed.

End StageCases.

(** ** The chapter with a given number *)

Lemma existing_chapter_index_numbers (l l' : list GeneratedChapter) (n : Z) :
  map chapter_number l = map chapter_number l' ->
  existing_chapter_index l n = existing_chapter_index l' n.
Proof.
  revert l'. induction l as [|ch l IH]; intros [|ch' l'] Hmap;
    try discriminate; [reflexivity|].
  cbn in *. injection Hmap as Hch Hmap. rewrite Hch, (IH l' Hmap). reflexivity.
Qed.

Lemma existing_chapter_index_insert (l : list GeneratedChapter) (n : Z) (i : nat)
    (g : GeneratedChapter) :
  existing_chapter_index l n = Some i -> chapter_number g = n ->
  existing_chapter_index (<[i := g]> l) n = Some i.
Proof.
  intros Hi Hg.
  destruct (existing_chapter_index_lookup l n i Hi) as (old & Hold & Hnum).
  rewrite <- Hi. apply existing_chapter_index_numbers.
  apply (chapter_numbers_insert l i g old Hold). congruence.
Qed.

Lemma existing_chapter_index_app (l : list GeneratedChapter) (n : Z)
    (g : GeneratedChapter) :
  existing_chapter_index l n = None -> chapter_number g = n ->
  existing_chapter_index (l ++ [g]) n = Some (length l).
Proof.
  intros Hnone Hg. induction l as [|ch l IH]; cbn in *.
  - replace (chapter_number g =? n) with true by lia. reflexivity.
  - destruct (chapter_number ch =? n); [discriminate|].
    destruct (existing_chapter_index l n); [discriminate|].
    rewrite IH by reflexivity. reflexivity.
Qed.

(** Once stored, a generated chapter is the one its number finds. *)
Lemma chapter_numbered_store_chapter (g : GeneratedChapter) (w : StoryWorkflow) t :
  chapter_numbered (set_updated_at t (store_chapter g w)) (chapter_number g)
  = Some g.
Proof.
  unfold chapter_numbered, store_chapter.
  destruct (existing_chapter_index (chapters w) (chapter_number g)) as [i|] eqn:Hi;
    cbn.
  - rewrite (existing_chapter_index_insert _ _ _ g Hi eq_refl). cbn.
    destruct (existing_chapter_index_lookup _ _ _ Hi) as (old & Hold & _).
    apply list_lookup_insert_eq. eapply lookup_lt_Some, Hold.
  - rewrite (existing_chapter_index_app _ _ g Hi eq_refl). cbn.
    rewrite lookup_app_r by lia. rewrite Nat.sub_diag. reflexivity.
Qed.

Lemma chapter_numbered_number (w : StoryWorkflow) (n : Z) ch :
  chapter_numbered w n = Some ch -> chapter_number ch = n /\ ch ∈ chapters w.
Proof.
  unfold chapter_numbered.
  destruct (existing_chapter_index (chapters w) n) as [i|] eqn:Hi; [|discriminate].
  cbn. intros Hch.
  destruct (existing_chapter_index_lookup _ _ _ Hi) as (ch' & Hch' & Hnum).
  rewrite Hch in Hch'. injection Hch' as <-.
  split; [exact Hnum|]. eapply list_elem_of_lookup_2, Hch.
Qed.

(** The guards, the requests and the result of the chapter stage. When
    one of its guards fails (the workflow is unknown, it has no outline,
    the number is above the length of the outline or below the range of
    its indices, or the settings are absent) the stage raises before any
    request, and the state is as it was. Otherwise exactly three requests
    are sent, not streamed, each with the model, the temperature and the
    top_p of the workflow, and no other workflow changes; and whenever
    the stage returns, what it returns is the stored workflow, and the
    chapter that the number now finds is the new one: it has the title of
    the outline chapter, its content is the third reply, its word count
    is the count of the words of its content, and it has no score and no
    feedback yet. *)
Theorem chapter_stage_guards_requests_and_result `{PyLib} (ollama : nat -> http_outcome)
    (wid : string) (n : Z) (addl : option string) (s : state) :
  ((workflows s !! wid = None \/
    exists w, workflows s !! wid = Some w /\
              (outline w = None \/
               exists o, outline w = Some o /\
                         (Z.of_nat (length (so_chapters o)) < n \/
                          py_index (so_chapters o) (n - 1) = None \/
                          settings w = None))) /\
   is_Some (raised (generate_chapter ollama wid n addl s)) /\
   (generate_chapter ollama wid n addl s).2 = s) \/
  (exists w o co p1 p2 p3,
      workflows s !! wid = Some w /\ outline w = Some o /\
      n <= Z.of_nat (length (so_chapters o)) /\
      py_index (so_chapters o) (n - 1) = Some co /\
      is_Some (settings w) /\
      requests (generate_chapter ollama wid n addl s).2
      = requests s ++ [p1; p2; p3] /\
      Forall (fun p => p_model p = str_or (model w) settings_py.OLLAMA_DEFAULT_MODEL /\
                       p_temperature p = temperature w /\
                       p_top_p p = top_p w /\ p_stream p = false)
        [p1; p2; p3] /\
      (forall wid', wid' <> wid ->
          workflows (generate_chapter ollama wid n addl s).2 !! wid'
          = workflows s !! wid') /\
      (forall w',
          returned (generate_chapter ollama wid n addl s) = Some w' ->
          workflows (generate_chapter ollama wid n addl s).2 !! wid = Some w' /\
          exists ch,
            chapter_numbered w' n = Some ch /\
            title ch = co_title co /\
            content ch = completion_text (ollama (length (requests s) + 2)%nat) /\
            word_count ch = PyStr.word_count (content ch) /\
            validation_score ch = None /\ validation_feedback ch = None)).
Proof.
  destruct (generate_chapter_cases ollama wid n addl s)
    as [(Hw & ->)|[(w & Hw & Ho & ->)|[(w & o & Hw & Ho & Hn & ->)
       |[(w & o & Hw & Ho & Hn & Hco & ->)
       |[(w & o & co & Hw & Ho & Hn & Hco & Hst & ->)
       |(w & o & co & g & p1 & p2 & p3 & s' & Hw & Ho & Hn & Hco & Hst & -> & Hs'
         & Hreq & Hclock & Hp & Hnum & Htitle & Hgo & Hd & Hc & Hwc & Hvs & Hvf)]]]]].
  - left. split; [left; exact Hw|]. split; [eexists; reflexivity|reflexivity].
  - left. split; [|split; [eexists; reflexivity|reflexivity]].
    right. exists w. split; [exact Hw|]. left. exact Ho.
  - left. split; [|split; [eexists; reflexivity|reflexivity]].
    right. exists w. split; [exact Hw|]. right. exists o. auto.
  - left. split; [|split; [eexists; reflexivity|reflexivity]].
    right. exists w. split; [exact Hw|]. right. exists o. auto.
  - left. split; [|split; [eexists; reflexivity|reflexivity]].
    right. exists w. split; [exact Hw|]. right. exists o. auto.
  - right. exists w, o, co, p1, p2, p3. cbn [snd].
    split; [exact Hw|]. split; [exact Ho|]. split; [exact Hn|].
    split; [exact Hco|]. split; [exact Hst|]. split; [exact Hreq|].
    split.
    { eapply Forall_impl; [exact Hp|]. cbn. intros p (Ht & Htp & Hm & Hstream).
      repeat split; assumption. }
    split; [intros wid' Hne; rewrite Hs'; apply lookup_alter_ne; congruence|].
    intros w' [= <-].
    split; [rewrite Hs', (lookup_alter_Some _ _ _ _ Hw); reflexivity|].
    exists g. rewrite <- Hnum.
    split; [apply chapter_numbered_store_chapter|].
    repeat split; assumption.
Qed.

(** ** The answers of the stage endpoints *)

Lemma py_index_None {A} (l : list A) (i : Z) :
  py_index l i = None <-> i < - Z.of_nat (length l) \/ Z.of_nat (length l) <= i.
Proof.
  unfold py_index.
  destruct (Z.leb_spec 0 i); destruct (Z.ltb_spec i (Z.of_nat (length l)));
    destruct (Z.leb_spec (- Z.of_nat (length l)) i);
    destruct (Z.ltb_spec i 0); cbn; try lia;
    try (split; [lia|reflexivity]);
    (split; [|lia]); intros Hnone; apply lookup_ge_None in Hnone; lia.
Qed.

(** What the chapter endpoint answers. It answers 404, and nothing has
    changed, when the workflow is unknown, has no outline, or the number
    is above the length of the outline. It answers 500, and nothing has
    changed, when the number is at or below minus the length of the
    outline, or the number passes but the settings are absent. In every
    other case, which includes zero and the negative numbers above minus
    the length, three requests are sent; and whenever the endpoint then
    answers 200, its body is the stored workflow with a message that
    names the number, the title of the outline chapter that Python's
    indexing finds and the word count of the third reply. *)
Theorem chapter_route_answers `{PyLib} (ollama : nat -> http_outcome)
    (wid : string) (n : Z) (addl : option string) (s : state) :
  (status_of (generate_chapter_route ollama wid n addl s).1 = 404 /\
   (generate_chapter_route ollama wid n addl s).2 = s /\
   (workflows s !! wid = None \/
    exists w, workflows s !! wid = Some w /\
              (outline w = None \/
               exists o, outline w = Some o /\
                         Z.of_nat (length (so_chapters o)) < n))) \/
  (status_of (generate_chapter_route ollama wid n addl s).1 = 500 /\
   (generate_chapter_route ollama wid n addl s).2 = s /\
   exists w o, workflows s !! wid = Some w /\ outline w = Some o /\
               (n <= - Z.of_nat (length (so_chapters o)) \/
                - Z.of_nat (length (so_chapters o)) < n
                  <= Z.of_nat (length (so_chapters o)) /\ settings w = None)) \/
  (exists w o co p1 p2 p3,
      workflows s !! wid = Some w /\ outline w = Some o /\
      - Z.of_nat (length (so_chapters o)) < n <= Z.of_nat (length (so_chapters o)) /\
      is_Some (settings w) /\
      py_index (so_chapters o) (n - 1) = Some co /\
      requests (generate_chapter_route ollama wid n addl s).2
      = requests s ++ [p1; p2; p3] /\
      forall body,
        (generate_chapter_route ollama wid n addl s).1 = Body body ->
        workflows (generate_chapter_route ollama wid n addl s).2 !! wid
        = Some (wr_workflow body) /\
        wr_message body
        = "Generated Chapter " +:+ pretty n +:+ ": " +:+ co_title co
          +:+ " (" +:+
          pretty (PyStr.word_count
                    (completion_text (ollama (length (requests s) + 2)%nat)))
          +:+ " words)").
Proof.
  unfold generate_chapter_route.
  destruct (generate_chapter_cases ollama wid n addl s)
    as [(Hw & ->)|[(w & Hw & Ho & ->)|[(w & o & Hw & Ho & Hn & ->)
       |[(w & o & Hw & Ho & Hn & Hco & ->)
       |[(w & o & co & Hw & Ho & Hn & Hco & Hst & ->)
       |(w & o & co & g & p1 & p2 & p3 & s' & Hw & Ho & Hn & Hco & Hst & -> & Hs'
         & Hreq & Hclock & Hp & Hnum & Htitle & Hgo & Hd & Hc & Hwc & Hvs & Hvf)]]]]];
    cbn [fst snd answer_exception status_of].
  - left. split; [reflexivity|]. split; [reflexivity|]. left. exact Hw.
  - left. split; [reflexivity|]. split; [reflexivity|]. right.
    exists w. split; [exact Hw|]. left. exact Ho.
  - left. split; [reflexivity|]. split; [reflexivity|]. right.
    exists w. split; [exact Hw|]. right. exists o. split; [exact Ho|exact Hn].
  - right; left. split; [reflexivity|]. split; [reflexivity|].
    exists w, o. split; [exact Hw|]. split; [exact Ho|]. left.
    apply py_index_None in Hco. lia.
  - right; left. split; [reflexivity|]. split; [reflexivity|].
    exists w, o. split; [exact Hw|]. split; [exact Ho|]. right.
    split; [|exact Hst].
    destruct (Z_lt_le_dec (- Z.of_nat (length (so_chapters o))) n) as [?|Hlow];
      [lia|].
    assert (py_index (so_chapters o) (n - 1) = None) as Hnone
      by (apply py_index_None; lia).
    congruence.
  - right; right.
    assert (chapter_numbered (set_updated_at (clock s) (store_chapter g w)) n
            = Some g) as ->
      by (rewrite <- Hnum; apply chapter_numbered_store_chapter).
    exists w, o, co, p1, p2, p3. cbn [fst snd].
    split; [exact Hw|]. split; [exact Ho|].
    split.
    { destruct (Z_lt_le_dec (- Z.of_nat (length (so_chapters o))) n) as [?|Hlow];
        [lia|].
      assert (py_index (so_chapters o) (n - 1) = None) as Hnone
        by (apply py_index_None; lia).
      congruence. }
    split; [exact Hst|]. split; [exact Hco|]. split; [exact Hreq|].
    intros body [= <-]. cbn [wr_workflow wr_message].
    split; [rewrite Hs', (lookup_alter_Some _ _ _ _ Hw); reflexivity|].
    rewrite Htitle, Hwc, Hc. reflexivity.
Qed.

Lemma chapter_numbers_alter_validation (l : list GeneratedChapter) (i : nat)
    score feedback :
  map chapter_number (alter (set_validation score feedback) i l)
  = map chapter_number l.
Proof.
  revert i. induction l as [|ch l IH]; intros [|i]; cbn; try reflexivity.
  f_equal. apply IH.
Qed.

(** Once validated, the chapter that the number finds is the one it found
    before, with the score and the feedback set. *)
Lemma chapter_numbered_store_validation (w : StoryWorkflow) (n : Z) ch
    score feedback t :
  chapter_numbered w n = Some ch ->
  chapter_numbered (set_updated_at t (store_validation n score feedback w)) n
  = Some (set_validation score feedback ch).
Proof.
  unfold chapter_numbered, store_validation.
  destruct (existing_chapter_index (chapters w) n) as [i|] eqn:Hi; [|discriminate].
  cbn. intros Hch.
  rewrite (existing_chapter_index_numbers _ (chapters w))
    by apply chapter_numbers_alter_validation.
  rewrite Hi. cbn. rewrite list_lookup_alter_eq, Hch. reflexivity.
Qed.

(** The characters and settings endpoint answers 404 for an unknown
    workflow, and nothing has changed; for a stored workflow it always
    answers 200, after one request at the temperature of the workflow,
    with the stored workflow at step Outline, its settings present, and
    a message that counts its characters. It never answers 500, whatever
    the text-generation service did. *)
Theorem characters_route_answers `{PyLib} (ollama : nat -> http_outcome)
    (wid : string) (addl : option string) (s : state) :
  (workflows s !! wid = None /\
   generate_characters_settings_route ollama wid addl s
   = (HTTPException 404 ("Workflow " +:+ wid +:+ " not found"), s)) \/
  (exists w w' p,
      workflows s !! wid = Some w /\
      (generate_characters_settings_route ollama wid addl s).1
      = Body {| wr_workflow := w';
                wr_message :=
                  "Generated " +:+ pretty (length (characters w'))
                  +:+ " characters and story settings. Ready to create outline." |} /\
      workflows (generate_characters_settings_route ollama wid addl s).2 !! wid
      = Some w' /\
      current_step w' = OUTLINE /\ is_Some (settings w') /\
      (characters w', settings w')
      = (let parsed := _parse_characters_settings_response
                         (completion_text (ollama (length (requests s)))) in
         (parsed.1, Some parsed.2)) /\
      requests (generate_characters_settings_route ollama wid addl s).2
      = requests s ++ [p] /\
      p_temperature p = temperature w /\ p_top_p p = top_p w).
Proof.
  unfold generate_characters_settings_route.
  destruct (generate_characters_and_settings_cases ollama wid addl s)
    as [(Hw & ->)|(w & s' & Hw & Hrun & Hs' & Hreq & Hclock)].
  - left. split; [exact Hw|reflexivity].
  - right. cbn zeta in Hrun, Hs'. rewrite Hrun. cbn [fst snd].
    eexists w, _, _. split; [exact Hw|]. split; [reflexivity|].
    split; [rewrite Hs', (lookup_alter_Some _ _ _ _ Hw); reflexivity|].
    cbn. split; [reflexivity|]. split; [eauto|]. split; [reflexivity|].
    split; [exact Hreq|]. split; reflexivity.
Qed.

(** What the outline endpoint answers. It answers 404, and nothing
    has changed, exactly when the workflow is unknown, has no character
    or has no settings. Otherwise one request is sent; when the reply has
    no opening or no closing brace the endpoint answers 500, and the
    stored outline has been erased; in every other case it answers 200
    with the stored workflow at step ChapterGeneration, whose outline is
    the parsed one, and a message that counts its chapters. *)
Theorem outline_route_answers `{PyLib} (ollama : nat -> http_outcome)
    (wid : string) (target : option Z) (addl : option string) (s : state) :
  (status_of (generate_outline_route ollama wid target addl s).1 = 404 /\
   (generate_outline_route ollama wid target addl s).2 = s /\
   (workflows s !! wid = None \/
    exists w, workflows s !! wid = Some w /\
              (characters w = [] \/ settings w = None))) \/
  (exists w w' p,
      workflows s !! wid = Some w /\ characters w <> [] /\ is_Some (settings w) /\
      (PyStr.find (completion_text (ollama (length (requests s)))) "{" = -1 \/
       PyStr.rfind (completion_text (ollama (length (requests s)))) "}" = -1) /\
      (generate_outline_route ollama wid target addl s).1
      = HTTPException 500
          "Failed to generate outline: 'NoneType' object has no attribute 'chapters'" /\
      workflows (generate_outline_route ollama wid target addl s).2 !! wid
      = Some w' /\
      w' = set_outline None w /\
      requests (generate_outline_route ollama wid target addl s).2
      = requests s ++ [p]) \/
  (exists w w' parsed p,
      workflows s !! wid = Some w /\ characters w <> [] /\ is_Some (settings w) /\
      PyStr.find (completion_text (ollama (length (requests s)))) "{" <> -1 /\
      PyStr.rfind (completion_text (ollama (length (requests s)))) "}" <> -1 /\
      (generate_outline_route ollama wid target addl s).1
      = Body {| wr_workflow := w';
                wr_message :=
                  "Generated outline with " +:+ pretty (length (so_chapters parsed))
                  +:+ " chapters. Ready to generate chapters." |} /\
      workflows (generate_outline_route ollama wid target addl s).2 !! wid
      = Some w' /\
      outline w' = Some parsed /\
      _parse_outline_response (completion_text (ollama (length (requests s))))
      = Some parsed /\
      current_step w' = CHAPTER_GENERATION /\
      total_chapters_planned w' = length (so_chapters parsed) /\
      requests (generate_outline_route ollama wid target addl s).2
      = requests s ++ [p]).
Proof.
  assert (forall r,
             (_parse_outline_response r = None ->
              PyStr.find r "{" = -1 \/ PyStr.rfind r "}" = -1) /\
             (is_Some (_parse_outline_response r) ->
              PyStr.find r "{" <> -1 /\ PyStr.rfind r "}" <> -1)) as Hbraces.
  { intros r. unfold _parse_outline_response.
    destruct (Z.eqb_spec (PyStr.find r "{") (-1));
      destruct (Z.eqb_spec (PyStr.rfind r "}" + 1) 0); cbn.
    - split; [auto|]. intros [? ?]. discriminate.
    - split; [auto|]. intros [? ?]. discriminate.
    - split; [intros _; right; lia|]. intros [? ?]. discriminate.
    - split; [destruct (try_parse_outline _); discriminate|].
      intros _. split; [assumption|lia]. }
  unfold generate_outline_route.
  destruct (generate_outline_cases ollama wid target addl s)
    as [(Hw & ->)|[(w & Hw & Hmissing & ->)
       |[(w & st & s' & Hw & Hcs & Hst & Hparse & -> & Hs' & Hreq & Hclock)
       |(w & st & parsed & s' & Hw & Hcs & Hst & Hparse & Hrun & Hs' & Hreq
         & Hclock)]]].
  - left. split; [reflexivity|]. split; [reflexivity|]. left. exact Hw.
  - left. split; [reflexivity|]. split; [reflexivity|]. right.
    exists w. split; [exact Hw|exact Hmissing].
  - right; left. cbn [fst snd answer_exception].
    eexists w, _, _. split; [exact Hw|]. split; [exact Hcs|].
    split; [rewrite Hst; eauto|].
    split; [apply Hbraces, Hparse|]. split; [reflexivity|].
    split; [rewrite Hs', (lookup_alter_Some _ _ _ _ Hw); reflexivity|].
    split; [reflexivity|exact Hreq].
  - right; right. cbn zeta in Hrun, Hs'. rewrite Hrun. cbn [fst snd outline].
    cbn.
    destruct (Hbraces (completion_text (ollama (length (requests s))))) as [_ Hb].
    destruct Hb as [Hb1 Hb2]; [rewrite Hparse; eauto|].
    eexists w, _, parsed, _. split; [exact Hw|]. split; [exact Hcs|].
    split; [rewrite Hst; eauto|].
    split; [exact Hb1|]. split; [exact Hb2|].
    split; [reflexivity|].
    split; [rewrite Hs', (lookup_alter_Some _ _ _ _ Hw); reflexivity|].
    cbn. split; [reflexivity|]. split; [exact Hparse|].
    split; [reflexivity|]. split; [reflexivity|exact Hreq].
Qed.

Lemma chapter_numbered_None (w : StoryWorkflow) (n : Z) :
  chapter_numbered w n = None <-> n ∉ map chapter_number (chapters w).
Proof.
  unfold chapter_numbered. split.
  - destruct (existing_chapter_index (chapters w) n) as [i|] eqn:Hi.
    + destruct (existing_chapter_index_lookup _ _ _ Hi) as (ch & Hch & _).
      cbn. rewrite Hch. discriminate.
    + intros _. apply existing_chapter_index_None, Hi.
  - intros Hnot.
    destruct (existing_chapter_index (chapters w) n) as [i|] eqn:Hi;
      [|reflexivity].
    destruct (existing_chapter_index_lookup _ _ _ Hi) as (ch & Hch & Hnum).
    exfalso. apply Hnot. subst n.
    apply (list_elem_of_fmap_2 chapter_number). eapply list_elem_of_lookup_2, Hch.
Qed.

(** What the validation endpoint answers. It answers 404, and
    nothing has changed, exactly when the workflow is unknown or has no
    chapter of that number. It answers 500, and nothing has changed,
    exactly when the chapter exists but the workflow has no outline left
    or the number is outside the index range of the outline. In every
    other case it sends one request and answers 200 with the stored
    workflow; the chapter of that number carries the score and the
    feedback parsed from the reply, and the message shows that score. *)
Theorem validate_route_answers `{PyLib} (ollama : nat -> http_outcome)
    (format_2f : pyfloat -> string) (wid : string) (n : Z) (s : state) :
  (status_of (validate_chapter_route ollama format_2f wid n s).1 = 404 /\
   (validate_chapter_route ollama format_2f wid n s).2 = s /\
   (workflows s !! wid = None \/
    exists w, workflows s !! wid = Some w /\
              n ∉ map chapter_number (chapters w))) \/
  (status_of (validate_chapter_route ollama format_2f wid n s).1 = 500 /\
   (validate_chapter_route ollama format_2f wid n s).2 = s /\
   exists w, workflows s !! wid = Some w /\
             n ∈ map chapter_number (chapters w) /\
             (outline w = None \/
              exists o, outline w = Some o /\
                        (n <= - Z.of_nat (length (so_chapters o)) \/
                         Z.of_nat (length (so_chapters o)) < n))) \/
  (exists w o ch w' p,
      let parsed := _parse_validation_response
                      (completion_text (ollama (length (requests s)))) in
      workflows s !! wid = Some w /\ outline w = Some o /\
      - Z.of_nat (length (so_chapters o)) < n <= Z.of_nat (length (so_chapters o)) /\
      chapter_numbered w n = Some ch /\
      (validate_chapter_route ollama format_2f wid n s).1
      = Body {| wr_workflow := w';
                wr_message :=
                  "Chapter " +:+ pretty n +:+ " validated. Score: "
                  +:+ format_2f parsed.1 |} /\
      workflows (validate_chapter_route ollama format_2f wid n s).2 !! wid
      = Some w' /\
      chapter_numbered w' n = Some (set_validation parsed.1 parsed.2 ch) /\
      requests (validate_chapter_route ollama format_2f wid n s).2
      = requests s ++ [p] /\
      p_temperature p = validation_temperature).
Proof.
  unfold validate_chapter_route.
  destruct (validate_chapter_cases ollama wid n s)
    as [(Hw & ->)|[(w & Hw & Hch & ->)|[(w & ch & Hw & Hch & Ho & ->)
       |[(w & ch & o & Hw & Hch & Ho & Hco & ->)
       |(w & ch & o & co & s' & Hw & Hch & Ho & Hco & Hrun & Hs' & Hreq
         & Hclock)]]]].
  - left. split; [reflexivity|]. split; [reflexivity|]. left. exact Hw.
  - left. split; [reflexivity|]. split; [reflexivity|]. right.
    exists w. split; [exact Hw|]. apply chapter_numbered_None, Hch.
  - right; left. split; [reflexivity|]. split; [reflexivity|].
    exists w. split; [exact Hw|]. split; [|left; exact Ho].
    destruct (decide (n ∈ map chapter_number (chapters w))) as [?|Hnot];
      [assumption|].
    apply chapter_numbered_None in Hnot. congruence.
  - right; left. split; [reflexivity|]. split; [reflexivity|].
    exists w. split; [exact Hw|]. split.
    + destruct (decide (n ∈ map chapter_number (chapters w))) as [?|Hnot];
        [assumption|].
      apply chapter_numbered_None in Hnot. congruence.
    + right. exists o. split; [exact Ho|]. apply py_index_None in Hco. lia.
  - right; right. cbn zeta in Hrun, Hs'. rewrite Hrun. cbn [fst snd].
    unfold compose.
    rewrite (chapter_numbered_store_validation w n ch _ _ _ Hch).
    cbn [validation_score set_validation fst snd].
    eexists w, o, ch, _, _. cbn zeta.
    split; [exact Hw|]. split; [exact Ho|].
    split.
    { destruct (Z_lt_le_dec (- Z.of_nat (length (so_chapters o))) n) as [?|Hlow];
        [destruct (Z_le_gt_dec n (Z.of_nat (length (so_chapters o)))) as [?|Hhigh];
         [lia|]|].
      - assert (py_index (so_chapters o) (n - 1) = None) as Hnone
          by (apply py_index_None; lia).
        congruence.
      - assert (py_index (so_chapters o) (n - 1) = None) as Hnone
          by (apply py_index_None; lia).
        congruence. }
    split; [exact Hch|]. split; [reflexivity|].
    split; [rewrite Hs', (lookup_alter_Some _ _ _ _ Hw); reflexivity|].
    split; [apply chapter_numbered_store_validation, Hch|].
    split; [exact Hreq|reflexivity].
Qed.

(** The validation stage touches nothing but scores, feedbacks and
    the time of update. Whether it returns or raises, the workflow stays
    stored and is the one before with another list of chapters and
    another time of update; the new list has the same length, every entry
    has kept its number, title, outline, dialogue, content and word
    count, every entry of another number is unchanged, and no other
    workflow has changed. *)
Theorem validation_only_sets_score_and_feedback `{PyLib}
    (ollama : nat -> http_outcome) (wid : string) (n : Z) (s : state)
    (w : StoryWorkflow) :
  workflows s !! wid = Some w ->
  exists t l,
    workflows (validate_chapter ollama wid n s).2 !! wid
    = Some (set_updated_at t (set_chapters l w)) /\
    Forall2 same_but_validation (chapters w) l /\
    (forall j ch, chapters w !! j = Some ch -> chapter_number ch <> n ->
                  l !! j = Some ch) /\
    (forall wid', wid' <> wid ->
        workflows (validate_chapter ollama wid n s).2 !! wid'
        = workflows s !! wid').
Proof.
  intros Hw.
  assert (forall l : list GeneratedChapter, Forall2 same_but_validation l l)
    as Hrefl.
  { intros l. apply Forall2_same_length_lookup. split; [reflexivity|].
    intros i x y Hx Hy. rewrite Hx in Hy. injection Hy as <-.
    unfold same_but_validation. auto 7. }
  assert (set_updated_at (updated_at w) (set_chapters (chapters w) w) = w)
    as Hsame by (destruct w; reflexivity).
  assert (exists t l,
             workflows s !! wid = Some (set_updated_at t (set_chapters l w)) /\
             Forall2 same_but_validation (chapters w) l /\
             (forall j ch, chapters w !! j = Some ch -> chapter_number ch <> n ->
                           l !! j = Some ch)) as Hunchanged.
  { exists (updated_at w), (chapters w). rewrite Hsame. auto. }
  destruct (validate_chapter_cases ollama wid n s)
    as [(_ & ->)|[(w0 & _ & _ & ->)|[(w0 & ch & _ & _ & _ & ->)
       |[(w0 & ch & o & _ & _ & _ & _ & ->)
       |(w0 & ch & o & co & s' & Hw0 & Hch & Ho & Hco & Hrun & Hs' & Hreq
         & Hclock)]]]];
    try solve [destruct Hunchanged as (t & l & H1 & H2 & H3); exists t, l;
               cbn [snd]; auto].
  rewrite Hw in Hw0. injection Hw0 as <-. clear Hunchanged.
  cbn zeta in Hrun, Hs'. rewrite Hrun. cbn [snd].
  set (parsed := _parse_validation_response _) in *.
  unfold chapter_numbered in Hch.
  destruct (existing_chapter_index (chapters w) n) as [i|] eqn:Hi;
    [|discriminate].
  cbn in Hch.
  exists (clock s), (alter (set_validation parsed.1 parsed.2) i (chapters w)).
  split.
  { rewrite Hs', (lookup_alter_Some _ _ _ _ Hw). unfold compose, store_validation.
    rewrite Hi. destruct w; reflexivity. }
  split.
  { apply Forall2_same_length_lookup. split; [rewrite length_alter; reflexivity|].
    intros j x y Hx Hy. destruct (decide (i = j)) as [->|Hne].
    - rewrite list_lookup_alter_eq, Hx in Hy. injection Hy as <-.
      unfold same_but_validation. cbn. auto 7.
    - rewrite list_lookup_alter_ne, Hx in Hy by assumption. injection Hy as <-.
      unfold same_but_validation. auto 7. }
  split.
  { intros j c Hj Hnum. destruct (decide (i = j)) as [->|Hne].
    - rewrite Hch in Hj. injection Hj as <-.
      destruct (existing_chapter_index_lookup _ _ _ Hi) as (c' & Hc' & Hn').
      rewrite Hch in Hc'. injection Hc' as <-. contradiction.
    - rewrite list_lookup_alter_ne by assumption. exact Hj. }
  intros wid' Hne. rewrite Hs'. apply lookup_alter_ne. congruence.
Qed.

Lemma validation_only_sets_score_and_feedback_witness :
  let replies := Scenario.chapter_replies Scenario.score_good in
  let s := Scenario.drafted Scenario.score_good settings_py.DEFAULT_TEMPERATURE in
  workflows s !! Scenario.wf = Some (Scenario.stored s) /\
  exists t l,
    workflows (validate_chapter replies Scenario.wf 1 s).2 !! Scenario.wf
    = Some (set_updated_at t (set_chapters l (Scenario.stored s))) /\
    Forall2 same_but_validation (chapters (Scenario.stored s)) l /\
    (forall j ch, chapters (Scenario.stored s) !! j = Some ch ->
                  chapter_number ch <> 1 -> l !! j = Some ch) /\
    (forall wid', wid' <> Scenario.wf ->
        workflows (validate_chapter replies Scenario.wf 1 s).2 !! wid'
        = workflows s !! wid').
Proof.
  intros replies s.
  assert (workflows s !! Scenario.wf = Some (Scenario.stored s)) as Hw
    by (vm_compute; reflexivity).
  split; [exact Hw|].
  exact (validation_only_sets_score_and_feedback (H := RefPy.lib) replies
           Scenario.wf 1 s (Scenario.stored s) Hw).
Defined.

(** ** What holds of every stored workflow *)

Ltac split_sound :=
  unfold sound; cbn;
  repeat match goal with |- _ /\ _ => split end; try assumption.

Lemma store_chapter_sound key g t w :
  sound key w -> sound key (set_updated_at t (store_chapter g w)).
Proof.
  intros (Hid & Hcomplete & Hmodel & Hcount & Hnodup & Houtline).
  unfold sound, store_chapter.
  destruct (existing_chapter_index (chapters w) (chapter_number g)) as [i|] eqn:Hi;
    cbn.
  - destruct (existing_chapter_index_lookup _ _ _ Hi) as (old & Hold & Hnum).
    rewrite (chapter_numbers_insert _ _ _ old) by congruence.
    rewrite length_insert. split_sound.
  - rewrite length_app, map_app. split_sound; [cbn; lia|].
    apply NoDup_app. split; [exact Hnodup|]. split; [|apply NoDup_singleton].
    intros x Hx Hx'. apply list_elem_of_singleton in Hx'. subst x.
    exact (existing_chapter_index_None _ _ Hi Hx).
Qed.

Lemma store_validation_sound key n score feedback t w :
  sound key w -> sound key (set_updated_at t (store_validation n score feedback w)).
Proof.
  intros (Hid & Hcomplete & Hmodel & Hcount & Hnodup & Houtline).
  unfold sound, store_validation.
  destruct (existing_chapter_index (chapters w) n) as [i|]; cbn;
    [|split_sound].
  rewrite chapter_numbers_alter_validation, length_alter. split_sound.
Qed.

Lemma run_op_sound `{PyLib} (ollama : nat -> http_outcome) (op : stage_op)
    (s : state) :
  alters (op_workflow_id op) (fun w w' => forall key, sound key w -> sound key w')
    s (run_op ollama op s).
Proof.
  set (P := fun w w' : StoryWorkflow => forall key, sound key w -> sound key w').
  assert (forall w, P w w) as Hrefl by (intros w key Hs; exact Hs).
  assert (forall a b c, P a b -> P b c -> P a c) as Htrans
    by (intros a b c Hab Hbc key Hs; apply Hbc, Hab, Hs).
  assert (forall w g t, P w (set_updated_at t (store_chapter g w))) as Hchapter
    by (intros w g t key Hs; apply store_chapter_sound, Hs).
  assert (forall w n score feedback t,
             P w (set_updated_at t (store_validation n score feedback w)))
    as Hvalidation
    by (intros w n score feedback t key Hs; apply store_validation_sound, Hs).
  destruct op as [wid addl|wid target addl|wid n addl|wid n|wid addl thr];
    cbn [run_op op_workflow_id].
  - destruct (generate_characters_and_settings_cases ollama wid addl s)
      as [(Hw & ->)|(w & s' & Hw & Hrun & Hs' & _)].
    + apply alters_refl, Hrefl.
    + cbn zeta in Hrun, Hs'. rewrite Hrun. eexists. split; [exact Hs'|].
      intros w0 _ key (Hid & Hcomplete & Hmodel & Hcount & Hnodup & Houtline).
      split_sound. intros o Ho. split; [apply (Houtline o Ho)|eauto].
  - destruct (generate_outline_cases ollama wid target addl s)
      as [(Hw & ->)|[(w & Hw & _ & ->)
         |[(w & st & s' & Hw & _ & Hst & _ & -> & Hs' & _)
         |(w & st & parsed & s' & Hw & _ & Hst & _ & Hrun & Hs' & _)]]].
    + apply alters_refl, Hrefl.
    + apply alters_refl, Hrefl.
    + eexists. split; [exact Hs'|].
      intros w0 _ key (Hid & Hcomplete & Hmodel & Hcount & Hnodup & Houtline).
      split_sound. discriminate.
    + cbn zeta in Hrun, Hs'. rewrite Hrun. eexists. split; [exact Hs'|].
      intros w0 Hw0 key (Hid & Hcomplete & Hmodel & Hcount & Hnodup & Houtline).
      rewrite Hw in Hw0. injection Hw0 as <-.
      split_sound. intros o [= <-]. rewrite Hst. eauto.
  - apply generate_chapter_alters; assumption.
  - apply validate_chapter_alters; assumption.
  - apply generate_all_chapters_stream_alters; assumption.
Qed.

Lemma run_call_sound `{PyLib} (ollama : nat -> http_outcome) (call : api_call)
    (s : state) :
  (forall wid w, workflows s !! wid = Some w -> sound wid w) ->
  forall wid w, workflows (run_call ollama call s) !! wid = Some w -> sound wid w.
Proof.
  intros Hs wid w' Hw'. destruct call as [uuid request|op|wid0]; cbn [run_call] in Hw'.
  - unfold create_workflow in Hw'.
    destruct (req_temperature request) as [temp|]; [|apply Hs, Hw'].
    destruct (req_top_p request) as [top|]; [|apply Hs, Hw'].
    cbn in Hw'. destruct (decide (uuid = wid)) as [->|Hne].
    + rewrite lookup_insert_eq in Hw'. injection Hw' as <-.
      split_sound; try reflexivity; try discriminate; try apply NoDup_nil_2.
      eexists. split; [reflexivity|].
      unfold str_or. destruct (req_model request) as [[|c m]|]; discriminate.
    + rewrite lookup_insert_ne in Hw' by assumption. apply Hs, Hw'.
  - destruct (alters_lookup_inv _ _ _ _ wid w' (run_op_sound ollama op s) Hw')
      as (w & Hw & [(_ & HP)|(_ & ->)]).
    + apply HP, Hs, Hw.
    + apply Hs, Hw.
  - unfold delete_workflow, bind, get_workflow, raise in Hw'. cbn in Hw'.
    destruct (workflows s !! wid0); cbn in Hw'; [|apply Hs, Hw'].
    destruct (decide (wid0 = wid)) as [->|Hne].
    + rewrite lookup_delete_eq in Hw'. discriminate.
    + rewrite lookup_delete_ne in Hw' by assumption. apply Hs, Hw'.
Qed.

(** Whatever calls were made on the service since it started,
    creations, stages in any order and on any arguments, batches and
    deletions, and whatever the text-generation service replied, every
    stored workflow is stored under its own id, is not marked complete,
    has a non-empty model name, has [chapters_completed] equal to the
    number of its chapters, has no two chapters of the same number, and,
    when it has an outline, has [total_chapters_planned] equal to the
    number of chapters of that outline and has settings. *)
Theorem stored_workflows_are_sound `{PyLib} (ollama : nat -> http_outcome)
    (calls : list api_call) (wid : string) (w : StoryWorkflow) :
  workflows (run_calls ollama calls initial_state) !! wid = Some w ->
  sound wid w.
Proof.
  assert (forall s,
             (forall wid w, workflows s !! wid = Some w -> sound wid w) ->
             forall wid w, workflows (run_calls ollama calls s) !! wid = Some w ->
                           sound wid w) as Hruns.
  { induction calls as [|call calls IH]; intros s Hs; [exact Hs|].
    cbn [run_calls fold_left]. apply IH. apply run_call_sound, Hs. }
  apply Hruns. intros wid' w' Hw'. cbn in Hw'.
  rewrite lookup_empty in Hw'. discriminate.
Qed.

Lemma stored_workflows_are_sound_witness :
  let replies := Scenario.chapter_replies Scenario.score_good in
  let calls :=
    [CallCreate Scenario.wf (Scenario.request settings_py.DEFAULT_TEMPERATURE);
     CallStage (OpCharactersSettings Scenario.wf None);
     CallStage (OpOutline Scenario.wf None None);
     CallStage (OpAllChapters Scenario.wf None None);
     CallStage (OpCharactersSettings Scenario.wf None);
     CallDelete "wf-2"] in
  let s := run_calls replies calls initial_state in
  workflows s !! Scenario.wf = Some (Scenario.stored s) /\
  sound Scenario.wf (Scenario.stored s).
Proof.
  intros replies calls s.
  assert (workflows s !! Scenario.wf = Some (Scenario.stored s)) as Hw
    by (vm_compute; reflexivity).
  split; [exact Hw|].
  exact (stored_workflows_are_sound (H := RefPy.lib) replies calls Scenario.wf
           (Scenario.stored s) Hw).
Defined.

(** ** The store: creating, reading, listing and deleting *)

Lemma list_workflows_route_total (s : state) :
  exists listed,
    list_workflows_route s
    = (Body {| wl_workflows := listed; wl_total := size (workflows s) |}, s) /\
    length listed = size (workflows s) /\
    forall w, w ∈ listed <-> exists wid, workflows s !! wid = Some w.
Proof.
  unfold list_workflows_route, list_workflows.
  exists ((map_to_list (workflows s)).*2).
  rewrite length_fmap, length_map_to_list.
  split; [reflexivity|]. split; [reflexivity|].
  intros w. rewrite list_elem_of_fmap. split.
  - intros ([wid w'] & -> & Hin). exists wid.
    apply elem_of_map_to_list in Hin. exact Hin.
  - intros (wid & Hw). exists (wid, w). split; [reflexivity|].
    apply elem_of_map_to_list. exact Hw.
Qed.

(** A workflow that the creation endpoint has answered is the one
    the read endpoint answers for its id, and it starts empty: at step
    CharactersSettings, without characters, settings, outline or
    chapters, with the model of the request (the default model when the
    request names none or an empty one) and its temperature and top_p.
    No request was sent, no other workflow has changed, and the list
    endpoint counts one workflow more when the id was new. *)
Theorem created_workflow_is_retrievable (uuid : string)
    (request : CreateWorkflowRequest) (s : state)
    (temperature0 top_p0 : pyfloat) :
  req_temperature request = Some temperature0 ->
  req_top_p request = Some top_p0 ->
  exists w s' listed,
    create_story_workflow uuid request s
    = (Body {| wr_workflow := w;
               wr_message := "Workflow created successfully. Ready to generate characters and settings." |},
       s') /\
    get_workflow_route uuid s'
    = (Body {| wr_workflow := w;
               wr_message := "Workflow retrieved successfully" |}, s') /\
    id w = uuid /\ original_prompt w = req_prompt request /\
    current_step w = CHARACTERS_SETTINGS /\
    characters w = [] /\ settings w = None /\ outline w = None /\
    chapters w = [] /\ chapters_completed w = 0%nat /\
    model w = Some (str_or (req_model request) settings_py.OLLAMA_DEFAULT_MODEL) /\
    temperature w = temperature0 /\ top_p w = top_p0 /\
    requests s' = requests s /\
    (forall wid', wid' <> uuid ->
        get_workflow_route wid' s' = ((get_workflow_route wid' s).1, s')) /\
    list_workflows_route s'
    = (Body {| wl_workflows := listed;
               wl_total := if decide (is_Some (workflows s !! uuid))
                           then size (workflows s)
                           else S (size (workflows s)) |}, s').
Proof.
  intros Htemp Htop.
  set (w0 := {| id := uuid; original_prompt := req_prompt request;
                current_step := CHARACTERS_SETTINGS;
                created_at := clock s; updated_at := S (clock s);
                characters := []; settings := None; outline := None;
                chapters := [];
                model := Some (str_or (req_model request)
                                 settings_py.OLLAMA_DEFAULT_MODEL);
                temperature := temperature0; top_p := top_p0;
                total_chapters_planned := 0; chapters_completed := 0;
                is_complete := false |}).
  set (s0 := {| workflows := <[uuid := w0]> (workflows s);
                requests := requests s; clock := S (S (clock s)) |}).
  assert (create_workflow uuid request s = (inr w0, s0)) as Hrun
    by (unfold create_workflow; rewrite Htemp, Htop; reflexivity).
  destruct (list_workflows_route_total s0) as (listed & Hlist & _).
  exists w0, s0, listed.
  split; [unfold create_story_workflow; rewrite Hrun; reflexivity|].
  split.
  { unfold get_workflow_route. change (workflows s0) with (<[uuid := w0]> (workflows s)).
    rewrite lookup_insert_eq. reflexivity. }
  repeat match goal with |- _ /\ _ => split; [reflexivity|] end.
  split.
  - intros wid' Hne. unfold get_workflow_route.
    change (workflows s0) with (<[uuid := w0]> (workflows s)).
    rewrite lookup_insert_ne by congruence.
    destruct (workflows s !! wid'); reflexivity.
  - rewrite Hlist. do 3 f_equal.
    change (workflows s0) with (<[uuid := w0]> (workflows s)).
    rewrite map_size_insert.
    destruct (workflows s !! uuid) eqn:Hw; destruct (decide _) as [Hsome|Hnone];
      try reflexivity.
    + exfalso. apply Hnone. eauto.
    + destruct Hsome as [? ?]. discriminate.
Qed.

Lemma created_workflow_is_retrievable_witness :
  let request := Scenario.request settings_py.DEFAULT_TEMPERATURE in
  (req_temperature request = Some settings_py.DEFAULT_TEMPERATURE /\
   req_top_p request = Some settings_py.DEFAULT_TOP_P) /\
  exists w s' listed,
    create_story_workflow Scenario.wf request initial_state
    = (Body {| wr_workflow := w;
               wr_message := "Workflow created successfully. Ready to generate characters and settings." |},
       s') /\
    get_workflow_route Scenario.wf s'
    = (Body {| wr_workflow := w;
               wr_message := "Workflow retrieved successfully" |}, s') /\
    id w = Scenario.wf /\ original_prompt w = req_prompt request /\
    current_step w = CHARACTERS_SETTINGS /\
    characters w = [] /\ settings w = None /\ outline w = None /\
    chapters w = [] /\ chapters_completed w = 0%nat /\
    model w = Some (str_or (req_model request) settings_py.OLLAMA_DEFAULT_MODEL) /\
    temperature w = settings_py.DEFAULT_TEMPERATURE /\
    top_p w = settings_py.DEFAULT_TOP_P /\
    requests s' = requests initial_state /\
    (forall wid', wid' <> Scenario.wf ->
        get_workflow_route wid' s'
        = ((get_workflow_route wid' initial_state).1, s')) /\
    list_workflows_route s'
    = (Body {| wl_workflows := listed;
               wl_total := if decide (is_Some (workflows initial_state !! Scenario.wf))
                           then size (workflows initial_state)
                           else S (size (workflows initial_state)) |}, s').
Proof.
  intros request. split; [split; reflexivity|].
  exact (created_workflow_is_retrievable Scenario.wf request initial_state
           settings_py.DEFAULT_TEMPERATURE settings_py.DEFAULT_TOP_P
           eq_refl eq_refl).
Defined.

(** The deletion endpoint answers 404 for an unknown workflow and
    changes nothing. For a stored one it answers 200; from then on the
    read endpoint answers 404 for that id, every stage of the service
    raises its not-found error for it without sending a request, the
    list endpoint counts one workflow less, and every other workflow is
    read as before. *)
Theorem deleted_workflow_is_gone `{PyLib} (ollama : nat -> http_outcome)
    (wid : string) (s : state) :
  (workflows s !! wid = None /\
   delete_workflow_route wid s = (HTTPException 404 "Workflow not found", s)) \/
  (exists s' listed,
      is_Some (workflows s !! wid) /\
      delete_workflow_route wid s = (Body "Workflow deleted successfully", s') /\
      get_workflow_route wid s' = (HTTPException 404 "Workflow not found", s') /\
      (forall wid', wid' <> wid ->
          get_workflow_route wid' s' = ((get_workflow_route wid' s).1, s')) /\
      list_workflows_route s'
      = (Body {| wl_workflows := listed; wl_total := pred (size (workflows s)) |},
         s') /\
      (forall addl,
          generate_characters_and_settings ollama wid addl s'
          = (inl (ValueError ("Workflow " +:+ wid +:+ " not found")), s')) /\
      (forall target addl,
          generate_outline ollama wid target addl s'
          = (inl (ValueError ("Workflow " +:+ wid +:+ " not found")), s')) /\
      (forall n addl,
          generate_chapter ollama wid n addl s'
          = (inl (ValueError ("Workflow " +:+ wid +:+ " not found")), s')) /\
      (forall n,
          validate_chapter ollama wid n s'
          = (inl (ValueError ("Workflow " +:+ wid +:+ " not found")), s')) /\
      (forall addl threshold,
          generate_all_chapters_stream ollama wid addl threshold s'
          = ([], Some (ValueError ("Workflow " +:+ wid +:+ " not found")), s'))).
Proof.
  unfold delete_workflow_route.
  destruct (workflows s !! wid) as [w|] eqn:Hw; [right|left; auto].
  destruct (list_workflows_route_total (with_workflows (delete wid) s))
    as (listed & Hlist & _).
  assert (workflows (with_workflows (delete wid) s) !! wid = None) as Hgone
    by (cbn; apply lookup_delete_eq).
  eexists _, listed. split; [eauto|]. split; [reflexivity|].
  split; [unfold get_workflow_route; rewrite Hgone; reflexivity|].
  split.
  { intros wid' Hne. unfold get_workflow_route. cbn.
    rewrite lookup_delete_ne by congruence.
    destruct (workflows s !! wid'); reflexivity. }
  split.
  { rewrite Hlist. cbn [workflows with_workflows]. do 3 f_equal.
    rewrite map_size_delete, Hw. reflexivity. }
  split.
  { intros addl.
    destruct (generate_characters_and_settings_cases ollama wid addl
                (with_workflows (delete wid) s))
      as [(_ & Hrun)|(w' & s' & Hw' & _)]; [exact Hrun|congruence]. }
  split.
  { intros target addl.
    destruct (generate_outline_cases ollama wid target addl
                (with_workflows (delete wid) s))
      as [(_ & Hrun)|[(w' & Hw' & _)|[(w' & st & s' & Hw' & _)
         |(w' & st & parsed & s' & Hw' & _)]]]; [exact Hrun|congruence..]. }
  split.
  { intros n addl.
    destruct (generate_chapter_cases ollama wid n addl
                (with_workflows (delete wid) s))
      as [(_ & Hrun)|[(w' & Hw' & _)|[(w' & o & Hw' & _)|[(w' & o & Hw' & _)
         |[(w' & o & co & Hw' & _)
         |(w' & o & co & g & p1 & p2 & p3 & s' & Hw' & _)]]]]];
      [exact Hrun|congruence..]. }
  split.
  { intros n.
    destruct (validate_chapter_cases ollama wid n (with_workflows (delete wid) s))
      as [(_ & Hrun)|[(w' & Hw' & _)|[(w' & ch & Hw' & _)|[(w' & ch & o & Hw' & _)
         |(w' & ch & o & co & s' & Hw' & _)]]]]; [exact Hrun|congruence..]. }
  intros addl threshold. unfold generate_all_chapters_stream.
  rewrite Hgone. reflexivity.
Qed.

(** ** The stream of the batch *)

Section BatchStream.

Context `{PyLib}.
Variable ollama : nat -> http_outcome.
Variable wid : string.
Variable addl : option string.
Variable threshold : pyfloat.
Variable total : nat.

(** The events of one pass end with the only one that can be terminal,
    and it is the error event exactly when the pass stops the batch. *)
Lemma attempt_chapter_shape co i k s :
  exists init last,
    (attempt_chapter ollama wid addl threshold total co i k s).1.1
    = init ++ [last] /\
    Forall (fun e => ~ terminal e) init /\
    match (attempt_chapter ollama wid addl threshold total co i k s).1.2 with
    | BatchStopped => kind_of last = error_failed
    | NextAttempt => ~ terminal last /\ (k + 1 <= max_regeneration_attempts)%nat
    | ChapterCompleted => ~ terminal last
    end.
Proof.
  assert (forall e, kind_of e <> complete -> kind_of e <> error_failed ->
                    ~ terminal e) as Hnot.
  { intros e H1 H2 [?|?]; contradiction. }
  unfold attempt_chapter, on_exception.
  destruct (generate_chapter _ _ _ _ s) as [[e1|w1] s1].
  { destruct (Nat.leb_spec (k + 1) max_regeneration_attempts); cbn;
      eexists [_], _; (split; [reflexivity|]);
      (split; [repeat constructor; apply Hnot; discriminate|]);
      try reflexivity.
    split; [apply Hnot; discriminate|assumption]. }
  destruct (validate_chapter _ _ _ s1) as [[e2|w2] s2].
  { destruct (Nat.leb_spec (k + 1) max_regeneration_attempts); cbn;
      eexists [_; _], _; (split; [reflexivity|]);
      (split; [repeat constructor; apply Hnot; discriminate|]);
      try reflexivity.
    split; [apply Hnot; discriminate|assumption]. }
  destruct (_ ≫= _).
  - destruct (PyFloat.ge _ _).
    { cbn. eexists [_; _], _. split; [reflexivity|].
      split; [repeat constructor; apply Hnot; discriminate|].
      apply Hnot; discriminate. }
    destruct (Nat.leb_spec (k + 1) max_regeneration_attempts); cbn;
      eexists [_; _], _; (split; [reflexivity|]);
      (split; [repeat constructor; apply Hnot; discriminate|]).
    + split; [apply Hnot; discriminate|assumption].
    + apply Hnot; discriminate.
  - destruct (Nat.leb_spec (k + 1) max_regeneration_attempts); cbn;
      eexists [_; _], _; (split; [reflexivity|]);
      (split; [repeat constructor; apply Hnot; discriminate|]);
      try reflexivity.
    split; [apply Hnot; discriminate|assumption].
Qed.

(** The events of the loop of one chapter: none is terminal unless the
    loop stops the batch, and then the last one is the error event and
    the only terminal one. *)
Lemma chapter_loop_shape fuel co i k s :
  if (chapter_loop ollama wid addl threshold total fuel co i k s).1.2
  then exists init last,
         (chapter_loop ollama wid addl threshold total fuel co i k s).1.1
         = init ++ [last] /\
         Forall (fun e => ~ terminal e) init /\ kind_of last = error_failed
  else Forall (fun e => ~ terminal e)
         (chapter_loop ollama wid addl threshold total fuel co i k s).1.1.
Proof.
  revert k s. induction fuel as [|fuel IH]; intros k s; [constructor|].
  rewrite chapter_loop_S.
  destruct (k <=? max_regeneration_attempts)%nat; [|constructor].
  destruct (attempt_chapter_shape co i k s) as (init & last & Hev & Hinit & Hlast).
  destruct (attempt_chapter _ _ _ _ _ co i k s) as [[events r] s1].
  cbn [fst snd] in Hev, Hlast. subst events. destruct r; cbn [fst snd].
  - apply Forall_app. split; [exact Hinit|]. constructor; [exact Hlast|constructor].
  - specialize (IH (S k) s1).
    destruct (chapter_loop _ _ _ _ _ fuel co i (S k) s1) as [[later stopped] s2].
    cbn [fst snd] in *. destruct Hlast as [Hlast _].
    assert (Forall (fun e => ~ terminal e) (init ++ [last])) as Hfirst.
    { apply Forall_app. split; [exact Hinit|].
      constructor; [exact Hlast|constructor]. }
    destruct stopped.
    + destruct IH as (init' & last' & -> & Hinit' & Hlast').
      exists ((init ++ [last]) ++ init'), last'.
      split; [rewrite !app_assoc; reflexivity|].
      split; [apply Forall_app; auto|exact Hlast'].
    + apply Forall_app. auto.
  - exists init, last. auto.
Qed.

Lemma chapters_loop_shape pending i s :
  if (chapters_loop ollama wid addl threshold total pending i s).1.2
  then exists init last,
         (chapters_loop ollama wid addl threshold total pending i s).1.1
         = init ++ [last] /\
         Forall (fun e => ~ terminal e) init /\ kind_of last = error_failed
  else Forall (fun e => ~ terminal e)
         (chapters_loop ollama wid addl threshold total pending i s).1.1.
Proof.
  revert i s. induction pending as [|co rest IH]; intros i s;
    cbn [chapters_loop]; [constructor|].
  pose proof (chapter_loop_shape (S max_regeneration_attempts) co i 0 s) as Hc.
  destruct (chapter_loop _ _ _ _ _ _ co i 0 s) as [[events stopped] s1].
  cbn [fst snd] in Hc. destruct stopped; [exact Hc|].
  specialize (IH (S i) s1).
  destruct (chapters_loop _ _ _ _ _ rest (S i) s1) as [[later stopped] s2].
  cbn [fst snd] in *. destruct stopped.
  - destruct IH as (init' & last' & -> & Hinit' & Hlast').
    exists (events ++ init'), last'.
    split; [rewrite !app_assoc; reflexivity|].
    split; [apply Forall_app; auto|exact Hlast'].
  - apply Forall_app. auto.
Qed.

End BatchStream.

(** The stream of a batch ends once. When the workflow is unknown
    or has no outline the generator raises its not-found error before
    any event, and nothing has changed. Otherwise it raises nothing and
    yields at least one event; the last event is a [complete] event or
    the error event, and no event before it is either: a consumer that
    stops at the first terminal event has read the whole stream. *)
Theorem batch_stream_ends_once `{PyLib} (ollama : nat -> http_outcome)
    (wid : string) (addl : option string) (thr : option pyfloat) (s : state) :
  match (generate_all_chapters_stream ollama wid addl thr s).1.2 with
  | Some e =>
      (generate_all_chapters_stream ollama wid addl thr s).1.1 = [] /\
      (generate_all_chapters_stream ollama wid addl thr s).2 = s /\
      is_not_found e = true /\
      (workflows s !! wid = None \/
       exists w, workflows s !! wid = Some w /\ outline w = None)
  | None =>
      exists init last,
        (generate_all_chapters_stream ollama wid addl thr s).1.1 = init ++ [last] /\
        Forall (fun e => ~ terminal e) init /\ terminal last /\
        exists w, workflows s !! wid = Some w /\ is_Some (outline w)
  end.
Proof.
  unfold generate_all_chapters_stream.
  destruct (workflows s !! wid) as [w|] eqn:Hw; [|cbn; auto 6].
  destruct (outline w) as [o|] eqn:Ho;
    [|cbn; split; [reflexivity|]; split; [reflexivity|]; split; [reflexivity|];
      right; exists w; auto].
  destruct (chapters_to_generate w o) as [|co rest] eqn:Hp.
  { cbn. exists [], (EvAlreadyGenerated w). split; [reflexivity|].
    split; [constructor|]. split; [left; reflexivity|]. exists w. eauto. }
  rewrite <- Hp.
  pose proof (chapters_loop_shape ollama wid addl
                (default settings_py.DEFAULT_VALIDATION_THRESHOLD thr)
                (length (chapters_to_generate w o))
                (chapters_to_generate w o) 0 s) as Hshape.
  destruct (chapters_loop _ _ _ _ _ _ _ s) as [[events stopped] s1].
  cbn [fst snd] in Hshape. destruct stopped; cbn [fst snd].
  - destruct Hshape as (init & last & -> & Hinit & Hlast).
    exists init, last. split; [reflexivity|]. split; [exact Hinit|].
    split; [right; exact Hlast|]. exists w. eauto.
  - eexists events, _. split; [reflexivity|]. split; [exact Hshape|].
    split; [left; reflexivity|]. exists w. eauto.
Qed.

(** ** The effort of the batch *)

Lemma sent_at_most_refl n s : sent_at_most n s s.
Proof. exists []. rewrite app_nil_r. split; [reflexivity|cbn; lia]. Qed.

Lemma sent_at_most_trans n m s1 s2 s3 :
  sent_at_most n s1 s2 -> sent_at_most m s2 s3 -> sent_at_most (n + m) s1 s3.
Proof.
  intros (a & Ha & Hla) (b & Hb & Hlb). exists (a ++ b).
  rewrite Hb, Ha, app_assoc, length_app. split; [reflexivity|lia].
Qed.

Lemma sent_at_most_weaken n m s s' :
  (n <= m)%nat -> sent_at_most n s s' -> sent_at_most m s s'.
Proof. intros Hnm (a & Ha & Hla). exists a. split; [exact Ha|lia]. Qed.

Section BatchEffort.

Context `{PyLib}.
Variable ollama : nat -> http_outcome.
Variable wid : string.
Variable addl : option string.
Variable threshold : pyfloat.
Variable total : nat.

Lemma generate_chapter_sent n s :
  sent_at_most 3 s (generate_chapter ollama wid n addl s).2.
Proof.
  destruct (generate_chapter_cases ollama wid n addl s)
    as [(_ & ->)|[(w & _ & _ & ->)|[(w & o & _ & _ & _ & ->)
       |[(w & o & _ & _ & _ & _ & ->)|[(w & o & co & _ & _ & _ & _ & _ & ->)
       |(w & o & co & g & p1 & p2 & p3 & s' & _ & _ & _ & _ & _ & -> & _
         & Hreq & _)]]]]];
    try apply sent_at_most_refl.
  exists [p1; p2; p3]. split; [exact Hreq|reflexivity].
Qed.

Lemma validate_chapter_sent n s :
  sent_at_most 1 s (validate_chapter ollama wid n s).2.
Proof.
  destruct (validate_chapter_cases ollama wid n s)
    as [(_ & ->)|[(w & _ & _ & ->)|[(w & ch & _ & _ & _ & ->)
       |[(w & ch & o & _ & _ & _ & _ & ->)
       |(w & ch & o & co & s' & _ & _ & _ & _ & Hrun & _ & Hreq & _)]]]];
    try apply sent_at_most_refl.
  cbn zeta in Hrun. rewrite Hrun. eexists. split; [exact Hreq|reflexivity].
Qed.

(** One pass sends at most four requests and yields one generating
    event. *)
Lemma attempt_chapter_effort co i k s :
  sent_at_most 4 s (attempt_chapter ollama wid addl threshold total co i k s).2 /\
  length (filter (fun e => kind_of e = progress_generating)
            (attempt_chapter ollama wid addl threshold total co i k s).1.1)
  = 1%nat.
Proof.
  unfold attempt_chapter, on_exception.
  pose proof (generate_chapter_sent (co_chapter_number co) s) as Hg.
  destruct (generate_chapter _ _ _ _ s) as [[e1|w1] s1]; cbn [snd] in Hg.
  { destruct (_ <=? _)%nat; cbn [fst snd];
      (split; [eapply sent_at_most_weaken; [|exact Hg]; lia|reflexivity]). }
  pose proof (validate_chapter_sent (co_chapter_number co) s1) as Hv.
  pose proof (sent_at_most_trans _ _ _ _ _ Hg Hv) as Hboth.
  destruct (validate_chapter _ _ _ s1) as [[e2|w2] s2]; cbn [snd] in Hv, Hboth.
  { destruct (_ <=? _)%nat; cbn [fst snd]; (split; [exact Hboth|reflexivity]). }
  destruct (_ ≫= _).
  - destruct (PyFloat.ge _ _); [split; [exact Hboth|reflexivity]|].
    destruct (_ <=? _)%nat; cbn [fst snd]; (split; [exact Hboth|reflexivity]).
  - destruct (_ <=? _)%nat; cbn [fst snd]; (split; [exact Hboth|reflexivity]).
Qed.

Lemma chapter_loop_effort fuel co i k s :
  sent_at_most (4 * fuel) s
    (chapter_loop ollama wid addl threshold total fuel co i k s).2 /\
  (length (filter (fun e => kind_of e = progress_generating)
             (chapter_loop ollama wid addl threshold total fuel co i k s).1.1)
   <= fuel)%nat.
Proof.
  revert k s. induction fuel as [|fuel IH]; intros k s.
  { split; [apply sent_at_most_refl|cbn; lia]. }
  rewrite chapter_loop_S.
  destruct (k <=? max_regeneration_attempts)%nat;
    [|split; [apply sent_at_most_refl|cbn; lia]].
  destruct (attempt_chapter_effort co i k s) as [Hsent Hcount].
  destruct (attempt_chapter _ _ _ _ _ co i k s) as [[events r] s1].
  cbn [fst snd] in Hsent, Hcount.
  destruct r; cbn [fst snd];
    try (split; [eapply sent_at_most_weaken; [|exact Hsent]; lia|lia]).
  destruct (IH (S k) s1) as [Hsent' Hcount'].
  destruct (chapter_loop _ _ _ _ _ fuel co i (S k) s1) as [[later stopped] s2].
  cbn [fst snd] in *. split.
  - eapply sent_at_most_weaken; [|eapply sent_at_most_trans; eassumption]. lia.
  - rewrite filter_app, length_app. lia.
Qed.

Lemma chapters_loop_effort pending i s :
  sent_at_most (16 * length pending) s
    (chapters_loop ollama wid addl threshold total pending i s).2 /\
  (length (filter (fun e => kind_of e = progress_generating)
             (chapters_loop ollama wid addl threshold total pending i s).1.1)
   <= 4 * length pending)%nat.
Proof.
  revert i s. induction pending as [|co rest IH]; intros i s;
    cbn [chapters_loop length].
  { split; [apply sent_at_most_refl|cbn; lia]. }
  destruct (chapter_loop_effort (S max_regeneration_attempts) co i 0 s)
    as [Hsent Hcount].
  destruct (chapter_loop _ _ _ _ _ _ co i 0 s) as [[events stopped] s1].
  cbn [fst snd] in Hsent, Hcount. unfold max_regeneration_attempts in *.
  destruct stopped; cbn [fst snd];
    [split; [eapply sent_at_most_weaken; [|exact Hsent]; lia|lia]|].
  destruct (IH (S i) s1) as [Hsent' Hcount'].
  destruct (chapters_loop _ _ _ _ _ rest (S i) s1) as [[later stopped] s2].
  cbn [fst snd] in *. split.
  - eapply sent_at_most_weaken; [|eapply sent_at_most_trans; eassumption]. lia.
  - rewrite filter_app, length_app. lia.
Qed.

End BatchEffort.

(** The effort of a batch is bounded by its pending chapters, the
    outline chapters whose number no stored chapter has: whatever the
    text-generation service replies, the batch yields at most four
    generating events and sends at most sixteen requests for each of
    them, four tries of three generation requests and one validation
    request; the requests sent before are all kept. *)
Theorem batch_effort_is_bounded `{PyLib} (ollama : nat -> http_outcome)
    (wid : string) (addl : option string) (thr : option pyfloat) (s : state)
    (w : StoryWorkflow) (o : StoryOutline) :
  workflows s !! wid = Some w ->
  outline w = Some o ->
  sent_at_most (16 * length (chapters_to_generate w o)) s
    (generate_all_chapters_stream ollama wid addl thr s).2 /\
  (length (filter (fun e => kind_of e = progress_generating)
             (generate_all_chapters_stream ollama wid addl thr s).1.1)
   <= 4 * length (chapters_to_generate w o))%nat.
Proof.
  intros Hw Ho. unfold generate_all_chapters_stream. rewrite Hw, Ho.
  destruct (chapters_to_generate w o) as [|co rest] eqn:Hp.
  { split; [apply sent_at_most_refl|].
    cbn [fst snd]. rewrite filter_cons_False by discriminate. cbn. lia. }
  rewrite <- Hp.
  destruct (chapters_loop_effort ollama wid addl
              (default settings_py.DEFAULT_VALIDATION_THRESHOLD thr)
              (length (chapters_to_generate w o))
              (chapters_to_generate w o) 0 s) as [Hsent Hcount].
  destruct (chapters_loop _ _ _ _ _ _ _ s) as [[events stopped] s1].
  cbn [fst snd] in Hsent, Hcount. destruct stopped; cbn [fst snd].
  - auto.
  - split; [exact Hsent|]. rewrite filter_app, length_app.
    rewrite (filter_cons_False _ (EvComplete _ _ _)) by discriminate. cbn. lia.
Qed.

Lemma batch_effort_is_bounded_witness :
  let replies := Scenario.chapter_replies Scenario.score_good in
  let s := Scenario.outlined replies settings_py.DEFAULT_TEMPERATURE in
  (workflows s !! Scenario.wf = Some (Scenario.stored s) /\
   outline (Scenario.stored s) = Some (Scenario.stored_outline s)) /\
  sent_at_most
    (16 * length (chapters_to_generate (Scenario.stored s)
                    (Scenario.stored_outline s))) s
    (generate_all_chapters_stream replies Scenario.wf None None s).2 /\
  (length (filter (fun e => kind_of e = progress_generating)
             (generate_all_chapters_stream replies Scenario.wf None None s).1.1)
   <= 4 * length (chapters_to_generate (Scenario.stored s)
                    (Scenario.stored_outline s)))%nat.
Proof.
  intros replies s.
  assert (workflows s !! Scenario.wf = Some (Scenario.stored s)) as Hw
    by (vm_compute; reflexivity).
  assert (outline (Scenario.stored s) = Some (Scenario.stored_outline s)) as Ho
    by (vm_compute; reflexivity).
  split; [auto|].
  exact (batch_effort_is_bounded replies Scenario.wf None None s _ _ Hw Ho).
Defined.

(** ** What a complete event means *)

Lemma keeps_chapters_preorder :
  (forall w, keeps_chapters w w) /\
  (forall a b c, keeps_chapters a b -> keeps_chapters b c -> keeps_chapters a c) /\
  (forall w g t, keeps_chapters w (set_updated_at t (store_chapter g w))) /\
  (forall w n score feedback t,
      keeps_chapters w (set_updated_at t (store_validation n score feedback w))).
Proof.
  unfold keeps_chapters.
  split; [auto|].
  split; [intros a b c [Ho1 Hn1] [Ho2 Hn2]; split; [congruence|auto]|].
  split.
  - intros w g t. cbn. split; [apply store_chapter_keeps|].
    intros n Hn. unfold store_chapter.
    destruct (existing_chapter_index (chapters w) (chapter_number g)) as [i|] eqn:Hi;
      cbn.
    + destruct (existing_chapter_index_lookup _ _ _ Hi) as (old & Hold & Hnum).
      rewrite (chapter_numbers_insert _ _ _ old) by congruence. exact Hn.
    + rewrite map_app. apply elem_of_app. left. exact Hn.
  - intros w n score feedback t. cbn. split; [apply store_validation_keeps|].
    intros m Hm. unfold store_validation.
    destruct (existing_chapter_index (chapters w) n) as [i|]; cbn; [|exact Hm].
    rewrite chapter_numbers_alter_validation. exact Hm.
Qed.

Section BatchCompleted.

Context `{PyLib}.
Variable ollama : nat -> http_outcome.
Variable wid : string.
Variable addl : option string.
Variable threshold : pyfloat.
Variable total : nat.

(** The workflow that the validation stage returns is the stored one. *)
Lemma validate_chapter_returned n s w' s' :
  validate_chapter ollama wid n s = (inr w', s') ->
  workflows s' !! wid = Some w'.
Proof.
  destruct (validate_chapter_cases ollama wid n s)
    as [(_ & ->)|[(w & _ & _ & ->)|[(w & ch & _ & _ & _ & ->)
       |[(w & ch & o & _ & _ & _ & _ & ->)
       |(w & ch & o & co & s0 & Hw & _ & _ & _ & Hrun & Hs0 & _)]]]];
    try discriminate.
  cbn zeta in Hrun, Hs0. rewrite Hrun. intros [= <- <-].
  rewrite Hs0, (lookup_alter_Some _ _ _ _ Hw). reflexivity.
Qed.

(** A pass that completes its chapter leaves a chapter of that number
    stored. *)
Lemma attempt_chapter_completed co i k s :
  (attempt_chapter ollama wid addl threshold total co i k s).1.2
  = ChapterCompleted ->
  exists w',
    workflows (attempt_chapter ollama wid addl threshold total co i k s).2 !! wid
    = Some w' /\
    co_chapter_number co ∈ map chapter_number (chapters w').
Proof.
  unfold attempt_chapter, on_exception.
  destruct (generate_chapter _ _ _ _ s) as [[e1|w1] s1].
  { destruct (_ <=? _)%nat; discriminate. }
  destruct (validate_chapter _ _ _ s1) as [[e2|w2] s2] eqn:Hv.
  { destruct (_ <=? _)%nat; discriminate. }
  apply validate_chapter_returned in Hv.
  destruct (existing_chapter_index (chapters w2) (co_chapter_number co)
              ≫= (fun j => chapters w2 !! j)) as [ch|] eqn:Hch.
  - destruct (chapter_numbered_number w2 (co_chapter_number co) ch Hch)
      as [Hnum Hin].
    assert (co_chapter_number co ∈ map chapter_number (chapters w2)) as Hmem.
    { rewrite <- Hnum. apply (list_elem_of_fmap_2 chapter_number), Hin. }
    destruct (PyFloat.ge _ _); [intros _; exists w2; auto|].
    destruct (_ <=? _)%nat; [discriminate|]. intros _. exists w2. auto.
  - destruct (_ <=? _)%nat; discriminate.
Qed.

(** A loop of a chapter that does not stop the batch leaves a chapter of
    that number stored. *)
Lemma chapter_loop_completed fuel co i k s :
  (k + fuel = S max_regeneration_attempts)%nat -> (0 < fuel)%nat ->
  (chapter_loop ollama wid addl threshold total fuel co i k s).1.2 = false ->
  exists w',
    workflows (chapter_loop ollama wid addl threshold total fuel co i k s).2 !! wid
    = Some w' /\
    co_chapter_number co ∈ map chapter_number (chapters w').
Proof.
  revert k s. induction fuel as [|fuel IH]; intros k s Hk Hpos; [lia|].
  rewrite chapter_loop_S.
  replace (k <=? max_regeneration_attempts)%nat with true
    by (symmetry; apply Nat.leb_le; lia).
  pose proof (attempt_chapter_completed co i k s) as Hdone.
  destruct (attempt_chapter_shape ollama wid addl threshold total co i k s)
    as (init & last & _ & _ & Hlast).
  destruct (attempt_chapter _ _ _ _ _ co i k s) as [[events r] s1].
  cbn [fst snd] in Hdone, Hlast. destruct r; cbn [fst snd].
  - intros _. apply Hdone. reflexivity.
  - destruct Hlast as [_ Hnext].
    specialize (IH (S k) s1).
    destruct (chapter_loop _ _ _ _ _ fuel co i (S k) s1) as [[later stopped] s2].
    cbn [fst snd] in *. apply IH; lia.
  - discriminate.
Qed.

(** A batch loop that is not stopped leaves a chapter stored for every
    chapter it went through. *)
Lemma chapters_loop_completed pending i s co :
  (chapters_loop ollama wid addl threshold total pending i s).1.2 = false ->
  co ∈ pending ->
  exists w',
    workflows (chapters_loop ollama wid addl threshold total pending i s).2 !! wid
    = Some w' /\
    co_chapter_number co ∈ map chapter_number (chapters w').
Proof.
  destruct keeps_chapters_preorder as (Hrefl & Htrans & Hchapter & Hvalidation).
  revert i s. induction pending as [|co0 rest IH]; intros i s;
    cbn [chapters_loop]; [intros _ Hin; inversion Hin|].
  pose proof (chapter_loop_completed (S max_regeneration_attempts) co0 i 0 s
                eq_refl ltac:(lia)) as Hhead.
  destruct (chapter_loop _ _ _ _ _ _ co0 i 0 s) as [[events stopped] s1].
  cbn [fst snd] in Hhead. destruct stopped; [discriminate|].
  specialize (IH (S i) s1).
  pose proof (chapters_loop_alters ollama wid keeps_chapters Hrefl Htrans
                Hchapter Hvalidation addl threshold total rest (S i) s1) as Hrest.
  destruct (chapters_loop _ _ _ _ _ rest (S i) s1) as [[later stopped] s2].
  cbn [fst snd] in *. intros Hstopped Hin.
  apply elem_of_cons in Hin as [->|Hin]; [|apply IH; assumption].
  destruct (Hhead eq_refl) as (w1 & Hw1 & Hmem).
  destruct (alters_lookup _ _ _ _ _ _ Hrest Hw1)
    as (w2 & Hw2 & [(_ & _ & Hkeeps)|(_ & ->)]).
  - exists w2. auto.
  - exists w1. auto.
Qed.

End BatchCompleted.

(** A [complete] event at the end of a batch that had pending
    chapters means what it says: at that point the stored workflow, which
    is the one the event carries, has the outline it had and a chapter
    for every chapter number of that outline, so that no chapter is
    pending any more and a second batch only answers that all chapters
    are generated. The event counts the chapters that were pending and
    the chapters of the outline. *)
Theorem complete_event_means_every_chapter_is_stored `{PyLib}
    (ollama : nat -> http_outcome) (wid : string) (addl : option string)
    (thr : option pyfloat) (s : state) (w : StoryWorkflow) (o : StoryOutline)
    (generated total_chapters : nat) (w' : StoryWorkflow) :
  workflows s !! wid = Some w ->
  outline w = Some o ->
  last (generate_all_chapters_stream ollama wid addl thr s).1.1
  = Some (EvComplete generated total_chapters w') ->
  workflows (generate_all_chapters_stream ollama wid addl thr s).2 !! wid
  = Some w' /\
  outline w' = Some o /\
  (forall co, co ∈ so_chapters o ->
              co_chapter_number co ∈ map chapter_number (chapters w')) /\
  chapters_to_generate w' o = [] /\
  generated = length (chapters_to_generate w o) /\
  total_chapters = length (so_chapters o) /\
  generate_all_chapters_stream ollama wid addl thr
    (generate_all_chapters_stream ollama wid addl thr s).2
  = ([EvAlreadyGenerated w'], None,
     (generate_all_chapters_stream ollama wid addl thr s).2).
Proof.
  intros Hw Ho.
  destruct keeps_chapters_preorder as (Hrefl & Htrans & Hchapter & Hvalidation).
  destruct (generate_all_chapters_stream ollama wid addl thr s)
    as [[stream exception] s1] eqn:Hrun.
  cbn [fst snd]. unfold generate_all_chapters_stream in Hrun.
  rewrite Hw, Ho in Hrun.
  destruct (chapters_to_generate w o) as [|co0 rest] eqn:Hp;
    [injection Hrun as <- _ _; discriminate|].
  rewrite <- Hp in Hrun.
  set (pending := chapters_to_generate w o) in *.
  set (threshold := default settings_py.DEFAULT_VALIDATION_THRESHOLD thr) in *.
  pose proof (chapters_loop_shape ollama wid addl threshold (length pending)
                pending 0 s) as Hshape.
  pose proof (chapters_loop_completed ollama wid addl threshold (length pending)
                pending 0 s) as Hdone.
  pose proof (chapters_loop_alters ollama wid keeps_chapters Hrefl Htrans
                Hchapter Hvalidation addl threshold (length pending) pending 0 s)
    as Hkeeps.
  destruct (chapters_loop _ _ _ _ _ pending 0 s) as [[events stopped] s2].
  cbn [fst snd] in Hshape, Hdone, Hkeeps. destruct stopped.
  { injection Hrun as <- _ _.
    destruct Hshape as (init & last' & -> & _ & Hkind).
    rewrite last_snoc. intros [= ->]. discriminate. }
  injection Hrun as <- _ <-.
  rewrite last_snoc. intros [= <- <- <-].
  destruct (alters_lookup _ _ _ _ _ _ Hkeeps Hw)
    as (w1 & Hw1 & Hrel).
  assert (keeps_chapters w w1) as [Houtline Hnumbers].
  { destruct Hrel as [(_ & Hk)|(_ & ->)]; [exact Hk|apply Hrefl]. }
  rewrite Hw1. change (default w (Some w1)) with w1.
  assert (forall co, co ∈ so_chapters o ->
                     co_chapter_number co ∈ map chapter_number (chapters w1))
    as Hall.
  { intros co Hco.
    destruct (decide (co_chapter_number co ∈ map chapter_number (chapters w)))
      as [Hin|Hnot]; [apply Hnumbers, Hin|].
    destruct (Hdone co eq_refl) as (w2 & Hw2 & Hmem).
    - unfold pending, chapters_to_generate. apply list_elem_of_filter. auto.
    - rewrite Hw1 in Hw2. injection Hw2 as <-. exact Hmem. }
  assert (chapters_to_generate w1 o = []) as Hnone.
  { unfold chapters_to_generate.
    destruct (filter _ (so_chapters o)) as [|co rest'] eqn:Hfilter; [reflexivity|].
    assert (co ∈ filter (fun ch => co_chapter_number ch
                                   ∉ map chapter_number (chapters w1))
                   (so_chapters o)) as Hin
      by (rewrite Hfilter; apply list_elem_of_here).
    apply list_elem_of_filter in Hin as [Hnot Hco].
    exfalso. apply Hnot, Hall, Hco. }
  split; [reflexivity|]. split; [congruence|]. split; [exact Hall|].
  split; [exact Hnone|]. split; [rewrite Hp; reflexivity|].
  split; [reflexivity|].
  unfold generate_all_chapters_stream. rewrite Hw1.
  replace (outline w1) with (Some o) by congruence. rewrite Hnone. reflexivity.
Qed.

Lemma complete_event_means_every_chapter_is_stored_witness :
  let replies := Scenario.chapter_replies Scenario.score_good in
  let s := Scenario.outlined replies settings_py.DEFAULT_TEMPERATURE in
  let run := generate_all_chapters_stream replies Scenario.wf None None s in
  (workflows s !! Scenario.wf = Some (Scenario.stored s) /\
   outline (Scenario.stored s) = Some (Scenario.stored_outline s) /\
   last run.1.1 = Some (EvComplete 2 2 (Scenario.stored run.2))) /\
  workflows run.2 !! Scenario.wf = Some (Scenario.stored run.2) /\
  outline (Scenario.stored run.2) = Some (Scenario.stored_outline s) /\
  (forall co, co ∈ so_chapters (Scenario.stored_outline s) ->
              co_chapter_number co
              ∈ map chapter_number (chapters (Scenario.stored run.2))) /\
  chapters_to_generate (Scenario.stored run.2) (Scenario.stored_outline s) = [] /\
  2%nat = length (chapters_to_generate (Scenario.stored s)
                    (Scenario.stored_outline s)) /\
  2%nat = length (so_chapters (Scenario.stored_outline s)) /\
  generate_all_chapters_stream replies Scenario.wf None None run.2
  = ([EvAlreadyGenerated (Scenario.stored run.2)], None, run.2).
Proof.
  intros replies s run.
  assert (workflows s !! Scenario.wf = Some (Scenario.stored s)) as Hw
    by (vm_compute; reflexivity).
  assert (outline (Scenario.stored s) = Some (Scenario.stored_outline s)) as Ho
    by (vm_compute; reflexivity).
  assert (last run.1.1 = Some (EvComplete 2 2 (Scenario.stored run.2))) as Hlast
    by (vm_compute; reflexivity).
  split; [auto|].
  subst run.
  exact (complete_event_means_every_chapter_is_stored (H := RefPy.lib) replies
           Scenario.wf None None s (Scenario.stored s) (Scenario.stored_outline s)
           2 2 _ Hw Ho Hlast).
Defined.

(** ** Scores under the threshold *)

Section BatchLowScores.

Context `{PyLib}.
Variable ollama : nat -> http_outcome.
Variable wid : string.
Variable addl : option string.
Variable threshold : pyfloat.
Variable total : nat.

Lemma attempt_chapter_when_score_low co i k s w s' ch :
  try_chapter ollama wid addl (co_chapter_number co) s = (inr w, s') ->
  chapter_numbered w (co_chapter_number co) = Some ch ->
  PyFloat.ge (score_or_zero (validation_score ch)) threshold = false ->
  attempt_chapter ollama wid addl threshold total co i k s
  = (low_try_events co (i + 1) total (k + 1) threshold
       (score_or_zero (validation_score ch)) (word_count ch),
     if (k + 1 <=? max_regeneration_attempts)%nat then NextAttempt
     else ChapterCompleted,
     s').
Proof.
  unfold try_chapter, attempt_chapter, low_try_events, chapter_numbered.
  destruct (generate_chapter _ _ _ _ s) as [[e1|w1] s1]; [discriminate|].
  destruct (validate_chapter _ _ _ s1) as [[e2|w2] s2]; [discriminate|].
  intros [= -> ->] -> ->.
  destruct (k + 1 <=? max_regeneration_attempts)%nat; reflexivity.
Qed.

(** When every try scores under the threshold, the loop of the chapter
    makes its four passes and completes the chapter with a warning. *)
Lemma chapter_loop_when_scores_low co i fuel k s :
  (k + fuel = S max_regeneration_attempts)%nat -> (0 < fuel)%nat ->
  scores_below_every_try ollama wid addl threshold (co_chapter_number co) fuel s ->
  exists tries s',
    length tries = fuel /\
    Forall (fun try => PyFloat.ge try.1 threshold = false) tries /\
    chapter_loop ollama wid addl threshold total fuel co i k s
    = (low_tries_events co (i + 1) total threshold (k + 1) tries, false, s').
Proof.
  revert k s. induction fuel as [|fuel IH]; intros k s Hk Hpos Hlow; [lia|].
  rewrite chapter_loop_S. cbn [scores_below_every_try] in Hlow.
  replace (k <=? max_regeneration_attempts)%nat with true
    by (symmetry; apply Nat.leb_le; lia).
  destruct (try_chapter ollama wid addl (co_chapter_number co) s)
    as [[e|w] s1] eqn:Htry; [contradiction|].
  destruct Hlow as [Hscore Hlow].
  destruct (chapter_numbered w (co_chapter_number co)) as [ch|] eqn:Hch;
    [|contradiction].
  rewrite (attempt_chapter_when_score_low co i k s w s1 ch Htry Hch Hscore).
  destruct fuel as [|fuel].
  - replace (k + 1 <=? max_regeneration_attempts)%nat with false
      by (symmetry; apply Nat.leb_gt; lia).
    exists [(score_or_zero (validation_score ch), word_count ch)], s1.
    split; [reflexivity|]. split; [repeat constructor; exact Hscore|].
    cbn [low_tries_events]. rewrite app_nil_r. reflexivity.
  - replace (k + 1 <=? max_regeneration_attempts)%nat with true
      by (symmetry; apply Nat.leb_le; lia).
    destruct (IH (S k) s1) as (tries & s' & Hlen & Hscores & Hloop);
      [lia|lia|exact Hlow|].
    rewrite Hloop.
    exists ((score_or_zero (validation_score ch), word_count ch) :: tries), s'.
    split; [cbn; lia|]. split; [constructor; assumption|].
    cbn [low_tries_events]. replace (S k + 1)%nat with (S (k + 1)) by lia.
    reflexivity.
Qed.

(** The first event of a pass is its generating event. *)
Lemma attempt_chapter_first co i k s :
  exists more,
    (attempt_chapter ollama wid addl threshold total co i k s).1.1
    = EvGenerating (co_chapter_number co) (co_title co) (i + 1) total (k + 1)
      :: more.
Proof.
  unfold attempt_chapter, on_exception.
  destruct (generate_chapter _ _ _ _ s) as [[e1|w1] s1].
  { destruct (_ <=? _)%nat; eexists; reflexivity. }
  destruct (validate_chapter _ _ _ s1) as [[e2|w2] s2].
  { destruct (_ <=? _)%nat; eexists; reflexivity. }
  destruct (_ ≫= _).
  - destruct (PyFloat.ge _ _); [eexists; reflexivity|].
    destruct (_ <=? _)%nat; eexists; reflexivity.
  - destruct (_ <=? _)%nat; eexists; reflexivity.
Qed.

(** The first event of the loop over pending chapters is the generating
    event of the first of them. *)
Lemma chapters_loop_first co rest i s :
  exists more,
    (chapters_loop ollama wid addl threshold total (co :: rest) i s).1.1
    = EvGenerating (co_chapter_number co) (co_title co) (i + 1) total 1 :: more.
Proof.
  cbn [chapters_loop]. rewrite chapter_loop_S.
  change (0 <=? max_regeneration_attempts)%nat with true. cbv iota.
  destruct (attempt_chapter_first co i 0 s) as (more & Hfirst).
  destruct (attempt_chapter _ _ _ _ _ co i 0 s) as [[events r] s1].
  cbn [fst snd] in Hfirst. subst events. destruct r.
  - destruct (chapters_loop _ _ _ _ _ rest (S i) s1) as [[later stopped] s2].
    eexists. reflexivity.
  - destruct (chapter_loop _ _ _ _ _ _ co i 1 s1) as [[later stopped] s2].
    destruct stopped; [eexists; reflexivity|].
    destruct (chapters_loop _ _ _ _ _ rest (S i) s2) as [[later' stopped'] s3].
    eexists. reflexivity.
  - eexists. reflexivity.
Qed.

End BatchLowScores.

(** In a batch run, let [co] be a pending chapter that the run
    reaches and whose four tries all return with a score under the
    threshold. Then the chapter is regenerated three times and accepted
    at the fourth try with a warning: after the events of the earlier
    chapters the stream has, for each try, a generating event and a
    validating event, then a regenerating event after the first three
    tries and the completed-with-warning event after the fourth. The
    batch is not stopped: it goes on with the generating event of the
    next pending chapter, or, when there is none, ends with its
    [complete] event. *)
Theorem low_scores_end_with_a_warning `{PyLib} (ollama : nat -> http_outcome)
    (wid : string) (addl : option string) (thr : option pyfloat) (s : state)
    (w : StoryWorkflow) (o : StoryOutline)
    (before : list ChapterOutline) (co : ChapterOutline)
    (after : list ChapterOutline) :
  workflows s !! wid = Some w ->
  outline w = Some o ->
  chapters_to_generate w o = before ++ co :: after ->
  (earlier_chapters ollama wid addl thr (before ++ co :: after) before s).1.2 = false ->
  scores_below_every_try ollama wid addl
    (default settings_py.DEFAULT_VALIDATION_THRESHOLD thr) (co_chapter_number co)
    (S max_regeneration_attempts)
    (earlier_chapters ollama wid addl thr (before ++ co :: after) before s).2 ->
  exists score1 score2 score3 score4 words4 later,
    let threshold := default settings_py.DEFAULT_VALIDATION_THRESHOLD thr in
    let position := (length before + 1)%nat in
    let total := length (before ++ co :: after) in
    (generate_all_chapters_stream ollama wid addl thr s).1.1
    = (earlier_chapters ollama wid addl thr (before ++ co :: after) before s).1.1
      ++ [EvGenerating (co_chapter_number co) (co_title co) position total 1;
          EvValidating (co_chapter_number co) (co_title co) position total 1;
          EvRegenerating (co_chapter_number co) (co_title co) position total
            score1 threshold 1;
          EvGenerating (co_chapter_number co) (co_title co) position total 2;
          EvValidating (co_chapter_number co) (co_title co) position total 2;
          EvRegenerating (co_chapter_number co) (co_title co) position total
            score2 threshold 2;
          EvGenerating (co_chapter_number co) (co_title co) position total 3;
          EvValidating (co_chapter_number co) (co_title co) position total 3;
          EvRegenerating (co_chapter_number co) (co_title co) position total
            score3 threshold 3;
          EvGenerating (co_chapter_number co) (co_title co) position total 4;
          EvValidating (co_chapter_number co) (co_title co) position total 4;
          EvCompletedWithWarning (co_chapter_number co) (co_title co) position
            total score4 threshold 4 words4]
      ++ later /\
    (generate_all_chapters_stream ollama wid addl thr s).1.2 = None /\
    Forall (fun score => PyFloat.ge score threshold = false)
      [score1; score2; score3; score4] /\
    match after with
    | [] =>
        exists w', later = [EvComplete total (length (so_chapters o)) w']
    | next :: _ =>
        exists more,
          later = EvGenerating (co_chapter_number next) (co_title next)
                    (position + 1) total 1 :: more
    end.
Proof.
  intros Hw Ho Hpending Hearlier Hlow.
  unfold earlier_chapters in *.
  set (threshold := default settings_py.DEFAULT_VALIDATION_THRESHOLD thr) in *.
  set (total := length (before ++ co :: after)) in *.
  destruct (chapters_loop ollama wid addl threshold total before 0 s)
    as [[events stopped] s1] eqn:Hloop.
  cbn [fst snd] in Hearlier, Hlow. subst stopped.
  destruct (chapter_loop_when_scores_low ollama wid addl threshold total
              co (0 + length before) (S max_regeneration_attempts) 0 s1)
    as (tries & s2 & Hlen & Hscores & Hchapter);
    [reflexivity|unfold max_regeneration_attempts; lia|exact Hlow|].
  destruct tries as [|[score1 words1] [|[score2 words2] [|[score3 words3]
                    [|[score4 words4] [|? ?]]]]]; try discriminate Hlen.
  cbn [low_tries_events low_try_events] in Hchapter.
  change (0 + 1 <=? max_regeneration_attempts)%nat with true in Hchapter.
  change (2 <=? max_regeneration_attempts)%nat with true in Hchapter.
  change (3 <=? max_regeneration_attempts)%nat with true in Hchapter.
  change (4 <=? max_regeneration_attempts)%nat with false in Hchapter.
  cbv iota in Hchapter. rewrite app_nil_r in Hchapter.
  cbn [app] in Hchapter.
  pose proof (fun next rest =>
                chapters_loop_first ollama wid addl threshold total next rest
                  (S (length before)) s2) as Hnext.
  assert (exists later,
             (generate_all_chapters_stream ollama wid addl thr s).1
             = (events ++
                  [EvGenerating (co_chapter_number co) (co_title co)
                     (length before + 1) total 1;
                   EvValidating (co_chapter_number co) (co_title co)
                     (length before + 1) total 1;
                   EvRegenerating (co_chapter_number co) (co_title co)
                     (length before + 1) total score1 threshold 1;
                   EvGenerating (co_chapter_number co) (co_title co)
                     (length before + 1) total 2;
                   EvValidating (co_chapter_number co) (co_title co)
                     (length before + 1) total 2;
                   EvRegenerating (co_chapter_number co) (co_title co)
                     (length before + 1) total score2 threshold 2;
                   EvGenerating (co_chapter_number co) (co_title co)
                     (length before + 1) total 3;
                   EvValidating (co_chapter_number co) (co_title co)
                     (length before + 1) total 3;
                   EvRegenerating (co_chapter_number co) (co_title co)
                     (length before + 1) total score3 threshold 3;
                   EvGenerating (co_chapter_number co) (co_title co)
                     (length before + 1) total 4;
                   EvValidating (co_chapter_number co) (co_title co)
                     (length before + 1) total 4;
                   EvCompletedWithWarning (co_chapter_number co) (co_title co)
                     (length before + 1) total score4 threshold 4 words4]
                  ++ later, None) /\
             match after with
             | [] => exists w', later = [EvComplete total (length (so_chapters o)) w']
             | next :: _ =>
                 exists more,
                   later = EvGenerating (co_chapter_number next) (co_title next)
                             (length before + 1 + 1) total 1 :: more
             end) as (later & Hstream & Hlater).
  { unfold generate_all_chapters_stream. rewrite Hw, Ho, Hpending.
    fold threshold. fold total.
    destruct (before ++ co :: after) as [|c0 l0] eqn:Happ;
      [destruct before; discriminate|].
    rewrite <- Happ, chapters_loop_app, Hloop.
    cbn [chapters_loop]. rewrite Hchapter.
    destruct after as [|next rest].
    - cbn [chapters_loop]. eexists. split.
      + cbn [fst]. rewrite app_nil_r, <- app_assoc. reflexivity.
      + eexists. reflexivity.
    - destruct (Hnext next rest) as (more & Hmore).
      replace (S (0 + length before)) with (S (length before)) by reflexivity.
      destruct (chapters_loop ollama wid addl threshold total (next :: rest)
                  (S (length before)) s2) as [[later stopped] s3].
      cbn [fst snd] in Hmore. subst later.
      replace (length before + 1 + 1)%nat with (S (length before) + 1)%nat by lia.
      destruct stopped; cbn [fst].
      + eexists. split; [rewrite <- app_assoc; reflexivity|].
        eexists. reflexivity.
      + eexists. split; [rewrite <- !app_assoc; reflexivity|].
        eexists. reflexivity. }
  exists score1, score2, score3, score4, words4, later.
  cbv zeta. rewrite Hstream. cbn [fst snd].
  split; [reflexivity|]. split; [reflexivity|].
  split; [|exact Hlater].
  repeat match goal with
         | H : Forall _ (_ :: _) |- _ => inversion H; subst; clear H
         end.
  repeat constructor; assumption.
Qed.

Lemma low_scores_end_with_a_warning_witness :
  let replies := low_score_replies in
  let s := Scenario.outlined replies settings_py.DEFAULT_TEMPERATURE in
  let before := @nil ChapterOutline in
  let co := Scenario.chapter 1 "Arrival" in
  let after := [Scenario.chapter 2 "The Storm"] in
  (workflows s !! Scenario.wf = Some (Scenario.stored s) /\
   outline (Scenario.stored s) = Some (Scenario.stored_outline s) /\
   chapters_to_generate (Scenario.stored s) (Scenario.stored_outline s)
   = before ++ co :: after /\
   (earlier_chapters replies Scenario.wf None None (before ++ co :: after) before s).1.2
   = false /\
   scores_below_every_try replies Scenario.wf None
     (default settings_py.DEFAULT_VALIDATION_THRESHOLD None) (co_chapter_number co)
     (S max_regeneration_attempts)
     (earlier_chapters replies Scenario.wf None None (before ++ co :: after) before s).2) /\
  exists score1 score2 score3 score4 words4 later,
    let threshold := default settings_py.DEFAULT_VALIDATION_THRESHOLD None in
    let position := (length before + 1)%nat in
    let total := length (before ++ co :: after) in
    (generate_all_chapters_stream replies Scenario.wf None None s).1.1
    = (earlier_chapters replies Scenario.wf None None (before ++ co :: after) before s).1.1
      ++ [EvGenerating (co_chapter_number co) (co_title co) position total 1;
          EvValidating (co_chapter_number co) (co_title co) position total 1;
          EvRegenerating (co_chapter_number co) (co_title co) position total
            score1 threshold 1;
          EvGenerating (co_chapter_number co) (co_title co) position total 2;
          EvValidating (co_chapter_number co) (co_title co) position total 2;
          EvRegenerating (co_chapter_number co) (co_title co) position total
            score2 threshold 2;
          EvGenerating (co_chapter_number co) (co_title co) position total 3;
          EvValidating (co_chapter_number co) (co_title co) position total 3;
          EvRegenerating (co_chapter_number co) (co_title co) position total
            score3 threshold 3;
          EvGenerating (co_chapter_number co) (co_title co) position total 4;
          EvValidating (co_chapter_number co) (co_title co) position total 4;
          EvCompletedWithWarning (co_chapter_number co) (co_title co) position
            total score4 threshold 4 words4]
      ++ later /\
    (generate_all_chapters_stream replies Scenario.wf None None s).1.2 = None /\
    Forall (fun score => PyFloat.ge score threshold = false)
      [score1; score2; score3; score4] /\
    match after with
    | [] =>
        exists w',
          later = [EvComplete total (length (so_chapters (Scenario.stored_outline s)))
                     w']
    | next :: _ =>
        exists more,
          later = EvGenerating (co_chapter_number next) (co_title next)
                    (position + 1) total 1 :: more
    end.
Proof.
  intros replies s before co after.
  assert (workflows s !! Scenario.wf = Some (Scenario.stored s)) as Hw
    by (vm_compute; reflexivity).
  assert (outline (Scenario.stored s) = Some (Scenario.stored_outline s)) as Ho
    by (vm_compute; reflexivity).
  assert (chapters_to_generate (Scenario.stored s) (Scenario.stored_outline s)
          = before ++ co :: after) as Hpending
    by (vm_compute; reflexivity).
  assert ((earlier_chapters replies Scenario.wf None None (before ++ co :: after)
             before s).1.2 = false) as Hearlier
    by (vm_compute; reflexivity).
  assert (scores_below_every_try replies Scenario.wf None
            (default settings_py.DEFAULT_VALIDATION_THRESHOLD None)
            (co_chapter_number co) (S max_regeneration_attempts)
            (earlier_chapters replies Scenario.wf None None (before ++ co :: after)
               before s).2) as Hlow
    by (vm_compute; repeat split).
  split; [auto 6|].
  exact (low_scores_end_with_a_warning (H := RefPy.lib) replies Scenario.wf None
           None s (Scenario.stored s) (Scenario.stored_outline s) before co after
           Hw Ho Hpending Hearlier Hlow).
Defined.

(** ** The streamed generation *)

Section StreamLemmas.

Context `{PyLib}.
Variable misuse_text : json -> string.

Lemma aiter_lines_done before line data after broken broken' :
  PyStr.strip line <> "" ->
  json_loads line = Some (JDict data) ->
  json_truthy (PyDict.get data "done" (JBool false)) = true ->
  aiter_lines misuse_text (before ++ line :: after) broken
  = aiter_lines misuse_text (before ++ [line]) broken'.
Proof.
  intros Hline Hdata Hdone.
  assert (String.eqb (PyStr.strip line) "" = false) as Hblank
    by (apply String.eqb_neq, Hline).
  induction before as [|l before IH]; cbn [app aiter_lines].
  - rewrite Hblank, Hdata, Hdone. reflexivity.
  - destruct (String.eqb (PyStr.strip l) ""); [exact IH|].
    destruct (json_loads l) as [[| | | | | |entries]|]; try reflexivity;
      [|exact IH].
    destruct (json_truthy (PyDict.get entries _ _)); [reflexivity|].
    rewrite IH. reflexivity.
Qed.

Lemma aiter_lines_skips lines broken :
  aiter_lines misuse_text lines broken
  = aiter_lines misuse_text (List.filter decodes lines) broken.
Proof.
  induction lines as [|line lines IH]; [reflexivity|].
  cbn [List.filter aiter_lines]. unfold decodes at 1.
  destruct (String.eqb (PyStr.strip line) "") eqn:Hblank; cbn [negb andb];
    [exact IH|].
  destruct (json_loads line) as [data|] eqn:Hdata; [|exact IH].
  cbn [aiter_lines]. rewrite Hblank, Hdata.
  destruct data; try reflexivity.
  destruct (json_truthy _); [reflexivity|]. rewrite IH. reflexivity.
Qed.

End StreamLemmas.

(** The stream ends at the first line that says it is done: once a line
    that decodes to an object whose ["done"] entry is true has been
    reached, what the service yields depends on nothing that follows,
    neither on the lines after it nor on a failure of the transport. *)
Theorem stream_stops_at_done_line `{PyLib} (misuse_text : json -> string)
    (before : list string) (line : string) (data : list (string * json))
    (after : list string) (broken : option string) :
  PyStr.strip line <> "" ->
  json_loads line = Some (JDict data) ->
  json_truthy (PyDict.get data "done" (JBool false)) = true ->
  generate_story_stream misuse_text (StreamLines (before ++ line :: after) broken)
  = generate_story_stream misuse_text (StreamLines (before ++ [line]) None).
Proof.
  intros Hline Hdata Hdone. unfold generate_story_stream.
  rewrite (aiter_lines_done misuse_text before line data after broken None
             Hline Hdata Hdone).
  reflexivity.
Qed.

(** Blank lines and lines that do not decode change nothing: the
    service yields what it yields on the other lines alone. *)
Theorem stream_skips_unreadable_lines `{PyLib} (misuse_text : json -> string)
    (lines : list string) (broken : option string) :
  generate_story_stream misuse_text (StreamLines lines broken)
  = generate_story_stream misuse_text
      (StreamLines (List.filter decodes lines) broken).
Proof.
  unfold generate_story_stream.
  rewrite <- (aiter_lines_skips misuse_text lines broken). reflexivity.
Qed.

Lemma stream_generator_shape (validation_text : json -> string)
    (fragments : list json) :
  exists init last,
    stream_generator validation_text fragments = init ++ [last] /\
    Forall (fun chunk => sc_is_complete chunk = false) init /\
    sc_is_complete last = true /\
    (length init <= length fragments)%nat /\
    forall texts, fragments = map JStr texts ->
                  init = map (fun text => {| sc_content := text;
                                             sc_is_complete := false |}) texts /\
                  last = {| sc_content := ""; sc_is_complete := true |}.
Proof.
  induction fragments as [|v fragments IH].
  - exists [], {| sc_content := ""; sc_is_complete := true |}.
    split; [reflexivity|]. split; [constructor|]. split; [reflexivity|].
    split; [reflexivity|]. intros [|? ?]; [auto|discriminate].
  - destruct IH as (init & last & Hgen & Hinit & Hlast & Hlen & Htexts).
    destruct v as [| | | |text| |];
      try (eexists [], _; cbn; split; [reflexivity|]; split; [constructor|];
           split; [reflexivity|]; split; [lia|];
           intros [|? ?]; discriminate).
    exists ({| sc_content := text; sc_is_complete := false |} :: init), last.
    cbn [stream_generator]. rewrite Hgen.
    split; [reflexivity|]. split; [constructor; [reflexivity|exact Hinit]|].
    split; [exact Hlast|]. split; [cbn; lia|].
    intros [|t texts]; [discriminate|]. cbn. intros [= -> ->].
    destruct (Htexts texts eq_refl) as [-> ->]. auto.
Qed.

(** The streaming endpoint ends its stream once: whatever the
    text-generation service does, it sends at least one chunk, the last
    chunk is the only one marked complete, and there is at most one
    other chunk for each fragment of the service. When the fragments are
    all strings the chunks are these strings in order, each not complete,
    then the empty completion chunk. A failure of the service is not
    told apart: a request that fails, or a response whose status is not
    200, is sent as a chunk of content that starts with [Error: ],
    followed by the same completion chunk. *)
Theorem streamed_chunks_end_once `{PyLib} (misuse_text validation_text : json -> string)
    (outcome : stream_outcome) :
  (exists init last,
      generate_story_stream_route misuse_text validation_text outcome
      = init ++ [last] /\
      Forall (fun chunk => sc_is_complete chunk = false) init /\
      sc_is_complete last = true /\
      (length init <= length (generate_story_stream misuse_text outcome))%nat /\
      forall texts,
        generate_story_stream misuse_text outcome = map JStr texts ->
        generate_story_stream_route misuse_text validation_text outcome
        = map (fun text => {| sc_content := text; sc_is_complete := false |}) texts
          ++ [{| sc_content := ""; sc_is_complete := true |}]) /\
  (forall reason,
      generate_story_stream_route misuse_text validation_text (StreamFailed reason)
      = [{| sc_content := "Error: " +:+ reason; sc_is_complete := false |};
         {| sc_content := ""; sc_is_complete := true |}]) /\
  (forall status_code body_repr,
      generate_story_stream_route misuse_text validation_text
        (StreamRefused status_code body_repr)
      = [{| sc_content := "Error: " +:+ ("Ollama API error: " +:+ pretty status_code
                                         +:+ " - " +:+ body_repr);
            sc_is_complete := false |};
         {| sc_content := ""; sc_is_complete := true |}]).
Proof.
  split; [|split; reflexivity].
  unfold generate_story_stream_route.
  destruct (stream_generator_shape validation_text
              (generate_story_stream misuse_text outcome))
    as (init & last & Hgen & Hinit & Hlast & Hlen & Htexts).
  exists init, last. rewrite Hgen.
  split; [reflexivity|]. split; [exact Hinit|]. split; [exact Hlast|].
  split; [exact Hlen|].
  intros texts Heq. destruct (Htexts texts Heq) as [-> ->]. reflexivity.
Qed.

(** The service yields at most one error fragment, and only as its last
    fragment: every fragment before the last is the ["response"] entry of
    a line that was read. *)
Theorem stream_fragments_come_from_lines `{PyLib} (misuse_text : json -> string)
    (lines : list string) (broken : option string) :
  exists fragments e,
    generate_story_stream misuse_text (StreamLines lines broken)
    = fragments ++ match e with
                   | Some text => [JStr ("Error: " +:+ text)]
                   | None => []
                   end /\
    Forall (fun fragment =>
              exists line data,
                line ∈ lines /\ json_loads line = Some (JDict data) /\
                PyDict.lookup "response" data = Some fragment)
      fragments /\
    (length fragments <= length lines)%nat.
Proof.
  unfold generate_story_stream.
  assert (forall lines,
             Forall (fun fragment =>
                       exists line data,
                         line ∈ lines /\ json_loads line = Some (JDict data) /\
                         PyDict.lookup "response" data = Some fragment)
               (aiter_lines misuse_text lines broken).1 /\
             (length (aiter_lines misuse_text lines broken).1 <= length lines)%nat)
    as Hall.
  { clear lines. induction lines as [|line lines [IH IHlen]];
      [split; [constructor|reflexivity]|].
    assert (Forall (fun fragment =>
                      exists line0 data,
                        line0 ∈ line :: lines /\
                        json_loads line0 = Some (JDict data) /\
                        PyDict.lookup "response" data = Some fragment)
              (aiter_lines misuse_text lines broken).1) as IH'.
    { eapply Forall_impl; [exact IH|].
      intros fragment (l & data & Hin & Hl & Hfrag).
      exists l, data. split; [apply list_elem_of_further, Hin|auto]. }
    cbn [aiter_lines length].
    destruct (String.eqb (PyStr.strip line) ""); [split; [exact IH'|lia]|].
    destruct (json_loads line) as [[| | | | | |data]|] eqn:Hdata;
      try (split; [constructor|cbn; lia]); [|split; [exact IH'|lia]].
    assert (Forall (fun fragment =>
                      exists line0 data0,
                        line0 ∈ line :: lines /\
                        json_loads line0 = Some (JDict data0) /\
                        PyDict.lookup "response" data0 = Some fragment)
              match PyDict.lookup "response" data with
              | Some response => [response]
              | None => []
              end /\
            (length match PyDict.lookup "response" data with
                    | Some response => [response]
                    | None => []
                    end <= 1)%nat) as [Hhere Hone].
    { destruct (PyDict.lookup "response" data) as [response|] eqn:Hresp;
        [|split; [constructor|cbn; lia]].
      split; [|cbn; lia]. constructor; [|constructor].
      exists line, data. split; [apply list_elem_of_here|auto]. }
    destruct (json_truthy _); [split; [exact Hhere|cbn [fst]; lia]|].
    destruct (aiter_lines misuse_text lines broken) as [later e].
    cbn [fst] in *. split; [apply Forall_app; auto|].
    rewrite length_app. lia. }
  destruct (Hall lines) as [Hfrom Hlen].
  destruct (aiter_lines misuse_text lines broken) as [fragments e].
  exists fragments, e. auto.
Qed.

Lemma stream_stops_at_done_line_witness :
  let misuse_text := fun _ : json => "'list' object has no attribute 'get'" in
  let before :=
    [Scenario.object [Scenario.entry "response" (Scenario.quoted "Once ");
                      Scenario.entry "done" "false"];
     " ";
     "not json"] in
  let line :=
    Scenario.object [Scenario.entry "response" (Scenario.quoted "upon a time.");
                     Scenario.entry "done" "true"] in
  let data := [("response", JStr "upon a time."); ("done", JBool true)] in
  let after := [Scenario.object [Scenario.entry "response" (Scenario.quoted "late")]] in
  let broken := Some "peer closed connection" in
  (PyStr.strip line <> "" /\
   json_loads line = Some (JDict data) /\
   json_truthy (PyDict.get data "done" (JBool false)) = true) /\
  generate_story_stream misuse_text (StreamLines (before ++ line :: after) broken)
  = generate_story_stream misuse_text (StreamLines (before ++ [line]) None).
Proof.
  intros misuse_text before line data after broken.
  assert (PyStr.strip line <> "") as Hline by (vm_compute; discriminate).
  assert (json_loads line = Some (JDict data)) as Hdata
    by (vm_compute; reflexivity).
  assert (json_truthy (PyDict.get data "done" (JBool false)) = true) as Hdone
    by reflexivity.
  split; [auto|].
  exact (stream_stops_at_done_line (H := RefPy.lib) misuse_text before line data
           after broken Hline Hdata Hdone).
Defined.

(** That run, fragment by fragment, and the chunks the endpoint sends
    for it. *)
Example stream_of_two_lines :
  let misuse_text := fun _ : json => "'list' object has no attribute 'get'" in
  let lines :=
    [Scenario.object [Scenario.entry "response" (Scenario.quoted "Once ");
                      Scenario.entry "done" "false"];
     " ";
     "not json";
     Scenario.object [Scenario.entry "response" (Scenario.quoted "upon a time.");
                      Scenario.entry "done" "true"];
     Scenario.object [Scenario.entry "response" (Scenario.quoted "late")]] in
  generate_story_stream misuse_text (StreamLines lines (Some "peer closed connection"))
  = [JStr "Once "; JStr "upon a time."] /\
  generate_story_stream_route misuse_text misuse_text
    (StreamLines lines (Some "peer closed connection"))
  = [{| sc_content := "Once "; sc_is_complete := false |};
     {| sc_content := "upon a time."; sc_is_complete := false |};
     {| sc_content := ""; sc_is_complete := true |}].
Proof. vm_compute. split; reflexivity. Qed.

(** ** Where a validation score comes from *)

Lemma scan_validation_lines_provenance `{PyLib} (lines remaining : list string)
    (score : pyfloat) (feedback : string) :
  (forall line, line ∈ remaining -> line ∈ lines) ->
  match scan_validation_lines lines remaining score feedback with
  | None =>
      exists line,
        line ∈ remaining /\ PyStr.startswith line "SCORE:" = true /\
        py_float (PyStr.strip (PyStr.replace line "SCORE:" "")) = None
  | Some (parsed, _) =>
      parsed = score \/
      exists line,
        line ∈ remaining /\ PyStr.startswith line "SCORE:" = true /\
        py_float (PyStr.strip (PyStr.replace line "SCORE:" "")) = Some parsed
  end.
Proof.
  revert score. induction remaining as [|line remaining IH]; intros score Hsub.
  { left. reflexivity. }
  assert (forall l, l ∈ remaining -> l ∈ lines) as Hsub'
    by (intros l Hl; apply Hsub, list_elem_of_further, Hl).
  cbn [scan_validation_lines].
  destruct (PyStr.startswith line "SCORE:") eqn:Hscore.
  - destruct (py_float _) as [parsed|] eqn:Hfloat; cbn.
    + specialize (IH parsed Hsub').
      destruct (scan_validation_lines lines remaining parsed feedback)
        as [[final text]|].
      * right. destruct IH as [->|(l & Hl & Hs & Hf)].
        -- exists line. split; [apply list_elem_of_here|auto].
        -- exists l. split; [apply list_elem_of_further, Hl|auto].
      * destruct IH as (l & Hl & Hs & Hf).
        exists l. split; [apply list_elem_of_further, Hl|auto].
    + exists line. split; [apply list_elem_of_here|auto].
  - destruct (PyStr.startswith line "FEEDBACK:").
    + destruct (index_of_member line lines) as [i Hi];
        [apply Hsub, list_elem_of_here|].
      rewrite Hi. cbn. left. reflexivity.
    + specialize (IH score Hsub').
      destruct (scan_validation_lines lines remaining score feedback)
        as [[final text]|].
      * destruct IH as [->|(l & Hl & Hs & Hf)]; [left; reflexivity|].
        right. exists l. split; [apply list_elem_of_further, Hl|auto].
      * destruct IH as (l & Hl & Hs & Hf).
        exists l. split; [apply list_elem_of_further, Hl|auto].
Qed.

(** The validation parser invents no score. For every reply that is a
    text, the score it returns is the default 0.8, or the number that
    [float] read on a line of the reply (the reply stripped of the white
    space around it, split at line feeds) that starts with [SCORE:], or
    the 0.7 of its handler; and on a text the handler is reached only
    when [float] refuses what is left of such a line, in which case the
    feedback is the whole reply, whatever feedback line the reply has. *)
Theorem validation_score_comes_from_a_score_line `{PyLib} (response : string) :
  let lines := PyStr.split_char PyStr.newline (PyStr.strip response) in
  (_parse_validation_response response).1 = PyFloat.of_decimal 8 1 \/
  (exists line,
      line ∈ lines /\ PyStr.startswith line "SCORE:" = true /\
      py_float (PyStr.strip (PyStr.replace line "SCORE:" ""))
      = Some (_parse_validation_response response).1) \/
  (_parse_validation_response response = (PyFloat.of_decimal 7 1, response) /\
   exists line,
     line ∈ lines /\ PyStr.startswith line "SCORE:" = true /\
     py_float (PyStr.strip (PyStr.replace line "SCORE:" "")) = None).
Proof.
  intros lines. unfold _parse_validation_response. fold lines.
  pose proof (scan_validation_lines_provenance lines lines
                (PyFloat.of_decimal 8 1) response (fun l Hl => Hl)) as Hscan.
  destruct (scan_validation_lines lines lines (PyFloat.of_decimal 8 1) response)
    as [[parsed text]|]; cbn [fst].
  - destruct Hscan as [->|Hline]; [left; reflexivity|right; left; exact Hline].
  - right; right. split; [reflexivity|exact Hscan].
Qed.
